(** * Order lifecycle and pricing engine of the POS backend

    A shallow embedding of the order controllers
    ([src/controllers/orderController.js] and the later revision of the same
    controller that is stored in [src/controllers/vendorStaffController.js],
    lines 652-955), of the Mongoose models they use ([src/models/Order.js],
    [src/models/MenuItem.js]) and of the part of the persistence layer the
    controllers call ([find], [findOne], [save]).

    - A JavaScript [Number] is an IEEE-754 binary64 value: Rocq's primitive
      [float], with the rounded operations of [PrimFloat].
    - A Mongo collection is a finite map from [_id] to document ([gmap]).
    - An [async] handler is a function in a state monad over the [World]
      (the two collections, the clock and the log of database calls); a
      thrown JavaScript error is an [Outcome].
    - A request body field that may be absent is an [option]; a field that
      is present has the type the schema gives it.
    - An id that a client sends is a string; Mongoose casts it where the
      schema has an [ObjectId], and validates a document against the schema
      when it is saved.

    The second part embeds the rest of the order controllers (the kitchen
    and billing queues), the authorization middleware
    ([src/middleware/auth.js]), the routes ([src/routes/order.js],
    [src/routes/menu.js], [src/routes/vendor.js]), the staff handlers and
    [login] (the first parts of [src/controllers/vendorStaffController.js])
    and the reading and deleting handlers of the two revisions of the menu
    controller (lines 243-652 of the same file).  What the libraries do
    ([jwt.verify], [jwt.sign], [bcrypt.compare], [ObjectId.isValid]) is a
    parameter of the definitions that call them. *)

From Stdlib Require Import ZArith QArith Floats.
From stdpp Require Import gmap strings list sorting pretty.

#[local] Set Warnings "-inexact-float".
#[local] Open Scope string_scope.
#[local] Open Scope nat_scope.

(** ** JavaScript values *)

(** A Mongo [ObjectId], written as the string its [toString()] gives: 24
    hexadecimal digits, the letters in lower case (so never the name of a
    member of [Object.prototype]).  An id that a client sends, in a path or
    in a body, is a string of 24 hexadecimal digits in either case; where
    the schema has an [ObjectId], Mongoose casts the string to the
    [ObjectId] with the same digits ([canonical]).  Only well-formed id
    strings are modelled: Mongoose's cast errors for ill-formed ones are
    outside the model.  The ids of [req.user] come out of a token that
    [generateToken] has signed, where they are written by [toString()]. *)
Definition ObjectId : Type := string.

(** The lower-case letter of a hexadecimal digit [A] to [F]; every other
    character is left as it is. *)
Definition lower_hex (c : Ascii.ascii) : Ascii.ascii :=
  let n := Ascii.N_of_ascii c in
  if ((65 <=? n) && (n <=? 70))%N then Ascii.ascii_of_N (n + 32) else c.

(** The [ObjectId] that a well-formed id string is cast to. *)
Fixpoint canonical (id : string) : ObjectId :=
  match id with
  | EmptyString => EmptyString
  | String c rest => String (lower_hex c) (canonical rest)
  end.

(** Truthiness of a Number: every value but [0], [-0] and [NaN]. *)
Definition truthy_num (x : float) : bool :=
  negb ((x =? 0)%float || is_nan x).

(** Truthiness of a string: every string but the empty one. *)
Definition truthy_str (s : string) : bool := negb (String.eqb s "").

(** Truthiness of a field that may be [undefined]. *)
Definition truthy_opt {A} (truthy : A → bool) (o : option A) : bool :=
  match o with Some x => truthy x | None => false end.

(** [undefined > 0] is [false]; otherwise the comparison of Numbers. *)
Definition gt_zero (q : option float) : bool :=
  match q with Some x => (0 <? x)%float | None => false end.

(** Arithmetic on [undefined] gives [NaN]. *)
Definition toNumber (q : option float) : float := default nan q.

(** [hay.includes(needle)] on strings. *)
Fixpoint includes (needle hay : string) : bool :=
  String.prefix needle hay ||
  match hay with
  | EmptyString => false
  | String _ rest => includes needle rest
  end.

(** A thrown JavaScript error: [err.message] and Mongoose's [err.kind]. *)
Record Error := mkError { message : string; kind : option string }.

Inductive Outcome (A : Type) : Type :=
| Return (a : A)
| Throw (e : Error).
Arguments Return {A} a.
Arguments Throw {A} e.

(** ** Models *)

(** [src/models/MenuItem.js] *)
Module MenuItem.
Record t := mk {
  vendorId : ObjectId;
  name : string;
  price : float;
  description : option string;
  category : string;
  images : list string;
  stock : float;
  isAvailable : bool
}.
End MenuItem.

(** [src/models/Order.js] *)
Inductive Status := Pending | Kitchen | Ready | Served | Billed | Completed.

#[global] Instance Status_eq_dec : EqDecision Status.
Proof. solve_decision. Defined.

Definition status_name (s : Status) : string :=
  match s with
  | Pending => "Pending" | Kitchen => "Kitchen" | Ready => "Ready"
  | Served => "Served" | Billed => "Billed" | Completed => "Completed"
  end.

Definition all_statuses : list Status :=
  [Pending; Kitchen; Ready; Served; Billed; Completed].

(** The value of the schema's [enum] that a string names, if any. *)
Definition status_of_string (s : string) : option Status :=
  List.find (λ st, String.eqb (status_name st) s) all_statuses.

Definition status_eqb (a b : Status) : bool :=
  String.eqb (status_name a) (status_name b).

Module Order.
(** A line entry, in a request body or stored in [items]: in a request body
    [menuItemId] is the id as the client spells it, in a stored line it is
    the [ObjectId] that the id was cast to. *)
Record Item := mkItem {
  menuItemId : option string;
  name : option string;
  quantity : option float;
  itemTableNumber : option float;
  addons : list string;
  notes : option string
}.

Record t := mk {
  tableNumber : float;
  items : list Item;
  status : Status;
  server : option ObjectId;
  vendorId : ObjectId;
  totalAmount : float;
  paymentMethod : option string;
  createdAt : Z;
  updatedAt : Z
}.

Definition set_name (n : string) (i : Item) : Item :=
  mkItem (menuItemId i) (Some n) (quantity i) (itemTableNumber i)
         (addons i) (notes i).

(** A line as the subdocument it becomes in [items]: its [menuItemId] is
    cast to an [ObjectId]. *)
Definition cast (i : Item) : Item :=
  mkItem (canonical <$> menuItemId i) (name i) (quantity i) (itemTableNumber i)
         (addons i) (notes i).
End Order.

(** A stored document: its [_id] and its fields. *)
Definition OrderDoc : Type := ObjectId * Order.t.

(** [req.user], as the auth middleware attaches it: the [user] of the
    payload of a token, with the ids that [generateToken] has written into
    it. *)
Module User.
Record t := mk {
  id : ObjectId;
  role : string;
  vendorId : ObjectId;
  isApproved : bool
}.
End User.

(** ** The persistence layer *)

Inductive DbOp :=
| OpMenuItemFind (ids : list (option string)) (vendorId : ObjectId)
| OpOrderFindOne (_id vendorId : ObjectId)
| OpOrderFind (vendorId : ObjectId)
| OpOrderSave (_id : ObjectId).

Record World := mkWorld {
  menu : gmap ObjectId MenuItem.t;
  orders : gmap ObjectId Order.t;
  now : Z;
  oplog : list DbOp
}.

Definition M (A : Type) : Type := World → A * World.

Definition ret {A} (a : A) : M A := λ w, (a, w).

Definition bind {A B} (m : M A) (k : A → M B) : M B :=
  λ w, let '(a, w') := m w in k a w'.

Notation "'let!' x ':=' 'await' m 'in' k" := (bind m (λ x, k))
  (at level 10, x name, m at level 100, k at level 200,
   format "'let!'  x  ':='  'await'  m  'in' '//' k").
Notation "'await!' m 'in' k" := (bind m (λ _, k))
  (at level 10, m at level 100, k at level 200,
   format "'await!'  m  'in' '//' k").

Definition log (op : DbOp) : M unit :=
  λ w, (tt, mkWorld (menu w) (orders w) (now w) (oplog w ++ [op])).

(** The ids of a query as Mongoose casts them ([undefined] stays as it
    is). *)
Definition cast_all (ids : list (option string)) : list (option ObjectId) :=
  map (λ id : option string, canonical <$> id) ids.

(** [MenuItem.find({ _id: { $in: ids }, vendorId }).select('price name _id')]:
    the catalog documents of the vendor whose [_id] is one of [ids], each id
    string cast to an [ObjectId] by the query. *)
Definition MenuItem_find (ids : list (option string)) (vendorId : ObjectId)
  : M (list (ObjectId * MenuItem.t)) :=
  await! log (OpMenuItemFind ids vendorId) in
  λ w, (map_to_list
          (filter (λ kv, Some kv.1 ∈ cast_all ids ∧ MenuItem.vendorId kv.2 = vendorId)
                  (menu w)), w).

(** [Order.findOne({ _id, vendorId })]: the query casts the id string, and
    the document it returns has the [ObjectId] as its [_id]. *)
Definition Order_findOne (_id : string) (vendorId : ObjectId) : M (option OrderDoc) :=
  await! log (OpOrderFindOne (canonical _id) vendorId) in
  λ w, (match orders w !! canonical _id with
        | Some o => if String.eqb (Order.vendorId o) vendorId
                    then Some (canonical _id, o) else None
        | None => None
        end, w).

Definition set_updatedAt (t : Z) (o : Order.t) : Order.t :=
  Order.mk (Order.tableNumber o) (Order.items o) (Order.status o)
           (Order.server o) (Order.vendorId o) (Order.totalAmount o)
           (Order.paymentMethod o) (Order.createdAt o) t.

(** A path of type Number: [NaN] is not cast. *)
Definition Number_ok (x : float) : bool := negb (is_nan x).

(** A line of [items] against the schema: [menuItemId], [quantity] and
    [itemTableNumber] are required, and the two Numbers are cast. *)
Definition Item_validate (i : Order.Item) : bool :=
  match Order.menuItemId i, Order.quantity i, Order.itemTableNumber i with
  | Some _, Some q, Some t => Number_ok q && Number_ok t
  | _, _, _ => false
  end.

(** A document against the schema of [src/models/Order.js]: the Numbers
    [tableNumber] and [totalAmount] are cast, and so is every line.  (The
    status is one of the [enum] by its type; see [assign_status_and_save]
    for a string that is assigned to it.) *)
Definition Order_validate (o : Order.t) : bool :=
  Number_ok (Order.tableNumber o)
  && forallb Item_validate (Order.items o)
  && Number_ok (Order.totalAmount o).

(** The [ValidationError] that [save] rejects with.  Its message lists the
    failing paths and their values (Numbers), and it has no [kind]. *)
Definition ValidationError : Error := mkError "Order validation failed" None.

(** [doc.save()] with the schema option [timestamps: true].  The document is
    validated first; a document that fails is not written and [save]
    rejects.  A valid document that is new or has a modified path is written
    under its [_id] with [updatedAt] set to the current time; for a document
    without a modified path nothing is written. *)
Definition Order_save (isModified : bool) (doc : OrderDoc) : M (Outcome OrderDoc) :=
  await! log (OpOrderSave doc.1) in
  λ w,
    if negb (Order_validate doc.2) then (Throw ValidationError, w)
    else if isModified then
      let o' := set_updatedAt (now w) doc.2 in
      (Return (doc.1, o'),
       mkWorld (menu w) (<[doc.1 := o']> (orders w)) (now w) (oplog w))
    else (Return doc, w).

(** [new Order({ tableNumber, items, server, vendorId, totalAmount, status })]:
    a document with a newly generated [_id], its lines cast to
    subdocuments. *)
Definition Order_new (tableNumber : float) (items : list Order.Item)
    (server vendorId : ObjectId) (totalAmount : float) (status : Status)
  : M OrderDoc :=
  λ w, ((fresh (dom (orders w)),
         Order.mk tableNumber (map Order.cast items) status (Some server) vendorId
                  totalAmount None (now w) (now w)), w).

(** ** Responses *)

(** [x.toFixed(digits)]: the decimal string of a Number, kept as the call
    that yields it. *)
Inductive Fixed := toFixed (x : float) (digits : nat).

Inductive Body :=
| BMsg (msg : string)
| BText (text : string)
| BOrder (order : OrderDoc)
| BMsgOrder (msg : string) (order : OrderDoc)
| BReport (count : nat) (totalSales : Fixed) (orders : list OrderDoc).

Record Response := Res { code : nat; body : Body }.

(** ** Price resolution and total ([calculateTotalAmount])

    The function is the same, up to comments, in
    [orderController.js] (lines 7-36) and in the later revision
    ([vendorStaffController.js], lines 658-686). *)

(** [menuItems.reduce((acc, item) => { acc[item._id.toString()] = {...}; return acc }, {})] *)
Definition build_priceMap (menuItems : list (ObjectId * MenuItem.t))
  : gmap string (float * string) :=
  fold_left (λ acc item, <[item.1 := (MenuItem.price item.2, MenuItem.name item.2)]> acc)
            menuItems ∅.

(** The body of [items.forEach(item => ...)], started with the running
    [total]: the items as the loop leaves them, and the total or the
    [TypeError] of [undefined.toString()]. *)
Fixpoint forEach_item (priceMap : gmap string (float * string))
    (items : list Order.Item) (total : float)
  : list Order.Item * Outcome float :=
  match items with
  | [] => ([], Return total)
  | item :: rest =>
      match Order.menuItemId item with
      | None =>
          (item :: rest,
           Throw (mkError "Cannot read properties of undefined (reading 'toString')" None))
      | Some id =>
          match priceMap !! id with
          | Some details =>
              let total' := (total + toNumber (Order.quantity item) * details.1)%float in
              let '(rest', r) := forEach_item priceMap rest total' in
              (Order.set_name details.2 item :: rest', r)
          | None =>
              let '(rest', r) := forEach_item priceMap rest total in
              (item :: rest', r)
          end
      end
  end.

Definition invalid_items_message : string :=
  "One or more menu items are invalid or unavailable.".

(** The result carries the [items] array as the call leaves it (the function
    mutates its argument) next to the returned total or the thrown error. *)
Definition calculateTotalAmount (items : list Order.Item) (vendorId : ObjectId)
  : M (list Order.Item * Outcome float) :=
  let total := 0%float in
  let itemIds := map Order.menuItemId items in
  let! menuItems := await MenuItem_find itemIds vendorId in
  if negb (length menuItems =? length itemIds)%nat then
    ret (items, Throw (mkError invalid_items_message None))
  else
    let priceMap := build_priceMap menuItems in
    ret (forEach_item priceMap items total).

(** ** Create order ([createOrder])

    The handler is the same in both revisions
    ([orderController.js] lines 42-80, [vendorStaffController.js] lines
    692-729). *)

Record CreateBody := mkCreateBody {
  cb_tableNumber : option float;
  cb_items : option (list Order.Item)
}.

(** [item.menuItemId && item.quantity > 0 && item.itemTableNumber] *)
Definition valid_item (item : Order.Item) : bool :=
  truthy_opt truthy_str (Order.menuItemId item)
  && gt_zero (Order.quantity item)
  && truthy_opt truthy_num (Order.itemTableNumber item).

Definition createOrder_catch (err : Error) : Response :=
  if includes "invalid or unavailable" (message err)
  then Res 400 (BMsg (message err))
  else Res 500 (BText "Server error during order creation").

Definition createOrder (user : User.t) (body : CreateBody) : M Response :=
  let tableNumber := cb_tableNumber body in
  let vendorId := User.vendorId user in
  let serverId := User.id user in
  match tableNumber, cb_items body with
  | Some tn, Some items =>
      if negb (truthy_num tn) || (length items =? 0)%nat then
        ret (Res 400 (BMsg "Order must include table number and at least one item."))
      else if negb (forallb valid_item items) then
        ret (Res 400 (BMsg "Invalid item data found in the order list."))
      else
        let! r := await calculateTotalAmount items vendorId in
        match r with
        | (items', Return totalAmount) =>
            let! newOrder := await Order_new tn items' serverId vendorId totalAmount Kitchen in
            let! saved := await Order_save true newOrder in
            match saved with
            | Return saved => ret (Res 201 (BOrder saved))
            | Throw err => ret (createOrder_catch err)
            end
        | (_, Throw err) => ret (createOrder_catch err)
        end
  | _, _ =>
      ret (Res 400 (BMsg "Order must include table number and at least one item."))
  end.

(** ** Get order by id ([getOrderById])

    The same in both revisions ([orderController.js] lines 125-147,
    [vendorStaffController.js] lines 837-858). *)

Definition not_found_for_shop : Response :=
  Res 404 (BMsg "Order not found for this shop.").

Definition getOrderById (user : User.t) (params_id : string) : M Response :=
  let vendorId := User.vendorId user in
  let! order := await Order_findOne params_id vendorId in
  match order with
  | None => ret not_found_for_shop
  | Some order => ret (Res 200 (BOrder order))
  end.

(** ** Status transition ([updateStatus]) *)

(** What [obj[key]] evaluates to for an object literal [obj]: an own
    property, a member inherited from [Object.prototype], or [undefined]. *)
Inductive Property (A : Type) : Type :=
| Own (a : A)
| Inherited
| Undefined.
Arguments Own {A} a.
Arguments Inherited {A}.
Arguments Undefined {A}.

Definition Object_prototype_names : list string :=
  ["constructor"; "__proto__"; "hasOwnProperty"; "isPrototypeOf";
   "propertyIsEnumerable"; "toLocaleString"; "toString"; "valueOf";
   "__defineGetter__"; "__defineSetter__"; "__lookupGetter__";
   "__lookupSetter__"].

Fixpoint own_property {A} (obj : list (string * A)) (key : string) : option A :=
  match obj with
  | [] => None
  | (k, v) :: rest => if String.eqb k key then Some v else own_property rest key
  end.

Definition get_property {A} (obj : list (string * A)) (key : string) : Property A :=
  match own_property obj key with
  | Some v => Own v
  | None =>
      if existsb (String.eqb key) Object_prototype_names then Inherited
      else Undefined
  end.

(** The object literal [allowedTransitions], identical in both revisions
    ([orderController.js] lines 158-163, [vendorStaffController.js] lines
    869-874). *)
Definition allowedTransitions : list (string * list string) :=
  [("Kitchen", ["Ready"]);
   ("Server", ["Served"]);
   ("Billing", ["Billed"; "Completed"]);
   ("Vendor", ["Pending"; "Kitchen"; "Ready"; "Served"; "Billed"; "Completed"])].

(** [arr.includes(s)] on an array of strings. *)
Definition array_includes (arr : list string) (s : string) : bool :=
  existsb (String.eqb s) arr.

(** [`${newStatus}`] *)
Definition show_newStatus (newStatus : option string) : string :=
  default "undefined" newStatus.

Definition not_authorized (userRole : string) (newStatus : option string) : Response :=
  Res 400 (BMsg ("Invalid status or role (" +:+ userRole +:+
                 ") not authorized to set status to " +:+
                 show_newStatus newStatus +:+ ".")).

Inductive Guard := Authorized (newStatus : string) | NotAuthorized | TypeError.

(** [!newStatus || !allowedTransitions[userRole]?.includes(newStatus)]:
    [?.] stops at [undefined] only; on an inherited member the call of its
    missing [includes] throws. *)
Definition transition_guard (userRole : string) (newStatus : option string) : Guard :=
  match newStatus with
  | None => NotAuthorized
  | Some s =>
      if negb (truthy_str s) then NotAuthorized
      else match get_property allowedTransitions userRole with
           | Own allowed => if array_includes allowed s then Authorized s else NotAuthorized
           | Undefined => NotAuthorized
           | Inherited => TypeError
           end
  end.

Definition includes_is_not_a_function : Error :=
  mkError "allowedTransitions[userRole]?.includes is not a function" None.

Definition already_final (what : string) (s : Status) : Response :=
  Res 400 (BMsg (what +:+ status_name s +:+ " order.")).

Definition updateStatus_catch (err : Error) : Response :=
  if decide (kind err = Some "ObjectId")
  then Res 404 (BMsg "Order not found.")
  else Res 500 (BText "Server error during status update").

Definition set_status (s : Status) (o : Order.t) : Order.t :=
  Order.mk (Order.tableNumber o) (Order.items o) s (Order.server o)
           (Order.vendorId o) (Order.totalAmount o) (Order.paymentMethod o)
           (Order.createdAt o) (Order.updatedAt o).

(** [order.status = newStatus; await order.save()]: the path is modified
    when the value changes, and the schema's [enum] validator rejects a
    string that names no status; the rest of the document is validated by
    [save]. *)
Definition assign_status_and_save (order : OrderDoc) (newStatus : string)
  : M (Outcome OrderDoc) :=
  match status_of_string newStatus with
  | Some st =>
      let isModified := negb (status_eqb (Order.status order.2) st) in
      Order_save isModified (order.1, set_status st order.2)
  | None =>
      ret (Throw (mkError ("Order validation failed: status: `" +:+ newStatus +:+
                           "` is not a valid enum value for path `status`.") None))
  end.

Definition status_updated (newStatus : string) (order : OrderDoc) : Response :=
  Res 200 (BMsgOrder ("Order status updated to " +:+ newStatus) order).

(** [src/controllers/orderController.js] *)
Module OrderController.

(** Lines 152-196. *)
Definition updateStatus (user : User.t) (params_id : string)
    (newStatus : option string) : M (Outcome Response) :=
  let vendorId := User.vendorId user in
  let userRole := User.role user in
  match transition_guard userRole newStatus with
  | TypeError => ret (Throw includes_is_not_a_function)
  | NotAuthorized => ret (Return (not_authorized userRole newStatus))
  | Authorized newStatus =>
      let! order := await Order_findOne params_id vendorId in
      match order with
      | None => ret (Return not_found_for_shop)
      | Some order =>
          if status_eqb (Order.status order.2) Completed
             || status_eqb (Order.status order.2) Billed
          then ret (Return (already_final "Cannot change status of an already "
                                          (Order.status order.2)))
          else
            let! r := await assign_status_and_save order newStatus in
            match r with
            | Return saved => ret (Return (status_updated newStatus saved))
            | Throw err => ret (Return (updateStatus_catch err))
            end
      end
  end.

End OrderController.

(** The later revision of the order controller
    ([src/controllers/vendorStaffController.js], lines 652-955). *)
Module VendorStaffController.

(** Lines 863-908. *)
Definition updateStatus (user : User.t) (params_id : string)
    (newStatus : option string) : M (Outcome Response) :=
  let vendorId := User.vendorId user in
  let userRole := User.role user in
  match transition_guard userRole newStatus with
  | TypeError => ret (Throw includes_is_not_a_function)
  | NotAuthorized => ret (Return (not_authorized userRole newStatus))
  | Authorized newStatus =>
      let! order := await Order_findOne params_id vendorId in
      match order with
      | None => ret (Return not_found_for_shop)
      | Some order =>
          if status_eqb (Order.status order.2) Completed
             && negb (String.eqb userRole "Vendor")
          then ret (Return (already_final "Cannot change status of an already "
                                          (Order.status order.2)))
          else
            let! r := await assign_status_and_save order newStatus in
            match r with
            | Return saved => ret (Return (status_updated newStatus saved))
            | Throw err => ret (Return (updateStatus_catch err))
            end
      end
  end.

(** [order.items.push(...newItems); order.totalAmount += newItemsTotal;
    if (order.status !== 'Kitchen' && order.status !== 'Pending') order.status = 'Kitchen']:
    the lines that are pushed become subdocuments. *)
Definition append_items (newItems : list Order.Item) (newItemsTotal : float)
    (o : Order.t) : Order.t :=
  Order.mk (Order.tableNumber o)
           (Order.items o ++ map Order.cast newItems)
           (if negb (status_eqb (Order.status o) Kitchen)
               && negb (status_eqb (Order.status o) Pending)
            then Kitchen else Order.status o)
           (Order.server o) (Order.vendorId o)
           (Order.totalAmount o + newItemsTotal)%float
           (Order.paymentMethod o) (Order.createdAt o) (Order.updatedAt o).

Definition addItemsToOrder_catch (err : Error) : Response :=
  if includes "invalid or unavailable" (message err)
  then Res 400 (BMsg (message err))
  else if decide (kind err = Some "ObjectId")
  then Res 404 (BMsg "Order not found.")
  else Res 500 (BText "Server error during add-on operation").

Definition items_added (n : nat) (order : OrderDoc) : Response :=
  Res 200 (BMsgOrder ("Successfully added " +:+ pretty n +:+
                      " items to the order. Total updated.") order).

(** Lines 734-793. *)
Definition addItemsToOrder (user : User.t) (params_id : string)
    (newItems : option (list Order.Item)) : M Response :=
  let orderId := params_id in
  let vendorId := User.vendorId user in
  match newItems with
  | None => ret (Res 400 (BMsg "Must include at least one new item to add."))
  | Some newItems =>
      if (length newItems =? 0)%nat then
        ret (Res 400 (BMsg "Must include at least one new item to add."))
      else if negb (forallb valid_item newItems) then
        ret (Res 400 (BMsg "Invalid item data found in the new items list."))
      else
        let! order := await Order_findOne orderId vendorId in
        match order with
        | None => ret not_found_for_shop
        | Some order =>
            if status_eqb (Order.status order.2) Completed
               || status_eqb (Order.status order.2) Billed
            then ret (already_final "Cannot add items to an already "
                                    (Order.status order.2))
            else
              let! r := await calculateTotalAmount newItems vendorId in
              match r with
              | (newItems', Return newItemsTotal) =>
                  let! saved := await Order_save true
                                  (order.1, append_items newItems' newItemsTotal order.2) in
                  match saved with
                  | Return saved => ret (items_added (length newItems') saved)
                  | Throw err => ret (addItemsToOrder_catch err)
                  end
              | (_, Throw err) => ret (addItemsToOrder_catch err)
              end
        end
  end.

(** *** The completed/reporting query *)

(** The filter object passed to [Order.find]. *)
Record Query := mkQuery {
  q_vendorId : ObjectId;
  q_status : list Status;
  q_updatedAt : option (Z * Z)   (* [{ $gte, $lte }] *)
}.

Definition matches (q : Query) (o : Order.t) : bool :=
  String.eqb (Order.vendorId o) (q_vendorId q)
  && existsb (status_eqb (Order.status o)) (q_status q)
  && match q_updatedAt q with
     | Some (gte, lte) => (gte <=? Order.updatedAt o)%Z && (Order.updatedAt o <=? lte)%Z
     | None => true
     end.

(** The order of [sort({ updatedAt: -1 })]: newest update first. *)
Definition newer_first (a b : OrderDoc) : Prop :=
  (Order.updatedAt b.2 ≤ Order.updatedAt a.2)%Z.

#[export] Instance newer_first_dec a b : Decision (newer_first a b).
Proof. unfold newer_first. apply _. Defined.

(** [Order.find(query).sort({ updatedAt: -1 })] *)
Definition Order_find_sorted (q : Query) : M (list OrderDoc) :=
  await! log (OpOrderFind (q_vendorId q)) in
  λ w, (merge_sort newer_first
          (List.filter (λ d : OrderDoc, matches q d.2) (map_to_list (orders w))), w).

Section Reporting.
(** The JavaScript runtime's part, taken as given: [new Date(s)] for a
    string, in milliseconds since the epoch ([None] is an Invalid Date,
    which Mongoose refuses in a query), and the server's offset from UTC in
    milliseconds. *)
Variable parseDate : string → option Z.
Variable tzOffset : Z.

Definition msPerDay : Z := 86400000.

(** [d.setHours(23, 59, 59, 999)]: the same local day, at its last
    millisecond. *)
Definition setHours_end_of_day (t : Z) : Z :=
  (t + tzOffset) `div` msPerDay * msPerDay
  + (23 * 3600000 + 59 * 60000 + 59 * 1000 + 999) - tzOffset.

(** The local day a time falls in. *)
Definition local_day (t : Z) : Z := (t + tzOffset) `div` msPerDay.

(** The filter the handler builds (lines 920-936); [None] when a cast
    of the range fails. *)
Definition completed_query (vendorId : ObjectId)
    (startDate endDate : option string) : option Query :=
  let base := mkQuery vendorId [Billed; Completed] None in
  if truthy_opt truthy_str startDate && truthy_opt truthy_str endDate then
    match startDate ≫= parseDate, endDate ≫= parseDate with
    | Some gte, Some e =>
        Some (mkQuery vendorId [Billed; Completed]
                      (Some (gte, setHours_end_of_day e)))
    | _, _ => None
    end
  else Some base.

(** Lines 913-955. *)
Definition getCompletedOrders (user : User.t)
    (startDate endDate : option string) : M Response :=
  let vendorId := User.vendorId user in
  match completed_query vendorId startDate endDate with
  | Some query =>
      let! orders := await Order_find_sorted query in
      let totalSales :=
        fold_left (λ acc order, (acc + Order.totalAmount order.2)%float)
                  orders 0%float in
      ret (Res 200 (BReport (length orders) (toFixed totalSales 2) orders))
  | None => ret (Res 500 (BText "Server error retrieving completed orders"))
  end.
End Reporting.

End VendorStaffController.

(** ** Notions of the specification *)

(** The vendor's catalog entry with a given id. *)
Definition catalog_lookup (menu0 : gmap ObjectId MenuItem.t) (vendorId id : ObjectId)
  : option MenuItem.t :=
  match menu0 !! id with
  | Some m => if decide (MenuItem.vendorId m = vendorId) then Some m else None
  | None => None
  end.

(** The catalog entry whose price and name the loop of
    [calculateTotalAmount] finds for a line entry: the vendor's entry under
    the id as the line spells it.  (The catalog query casts the ids and the
    price map is keyed by the [toString()] of the documents found; the loop
    looks the id up as it was sent, so that an id in another spelling than
    [toString()] gives has no entry.) *)
Definition resolve (menu0 : gmap ObjectId MenuItem.t) (vendorId : ObjectId)
    (item : Order.Item) : option MenuItem.t :=
  Order.menuItemId item
  ≫= λ id, if decide (canonical id = id) then catalog_lookup menu0 vendorId id else None.


(** A line entry with the resolved display name written onto it. *)
Definition denormalize (menu0 : gmap ObjectId MenuItem.t) (vendorId : ObjectId)
    (item : Order.Item) : Order.Item :=
  match resolve menu0 vendorId item with
  | Some m => Order.set_name (MenuItem.name m) item
  | None => item
  end.

(** The sum of quantity times unit price over the lines, in the order of the
    lines and in the arithmetic of Numbers, started at [start]; a line that
    the loop finds no price for adds nothing. *)
Definition sum_lines (menu0 : gmap ObjectId MenuItem.t) (vendorId : ObjectId)
    (items : list Order.Item) (start : float) : float :=
  fold_left (λ acc item,
               match resolve menu0 vendorId item with
               | Some m => (acc + toNumber (Order.quantity item) * MenuItem.price m)%float
               | None => acc
               end)
            items start.

(** The documents the catalog query finds. *)
Definition found (menu0 : gmap ObjectId MenuItem.t) (ids : list (option ObjectId))
    (vendorId : ObjectId) : gmap ObjectId MenuItem.t :=
  filter (λ kv, Some kv.1 ∈ ids ∧ MenuItem.vendorId kv.2 = vendorId) menu0.

(** The number of distinct ids a batch requests. *)
Definition distinct_requested (items : list Order.Item) : nat :=
  size (list_to_set (omap Order.menuItemId items) : gset ObjectId).

(** The ids of a batch as the catalog query casts them. *)
Definition cast_ids (items : list Order.Item) : list (option ObjectId) :=
  cast_all (map Order.menuItemId items).

(** The number of distinct catalog items found for a batch. *)
Definition distinct_found (menu0 : gmap ObjectId MenuItem.t) (vendorId : ObjectId)
    (items : list Order.Item) : nat :=
  size (found menu0 (cast_ids items) vendorId).

(** Every line names a different menu item, and every item named is in the
    vendor's catalog. *)
Definition distinct_in_catalog (menu0 : gmap ObjectId MenuItem.t)
    (vendorId : ObjectId) (items : list Order.Item) : Prop :=
  NoDup (cast_ids items)
  ∧ Forall (λ oid, is_Some (oid ≫= catalog_lookup menu0 vendorId)) (cast_ids items).

(** The order an id string names within a vendor's scope. *)
Definition find_in_scope (w : World) (_id : string) (vendorId : ObjectId)
  : option OrderDoc :=
  match orders w !! canonical _id with
  | Some o =>
      if String.eqb (Order.vendorId o) vendorId then Some (canonical _id, o) else None
  | None => None
  end.

(** The set of statuses a role may set: its row of the matrix, and nothing
    for a role the matrix does not list. *)
Definition allowedSet (role : string) : list string :=
  default [] (own_property allowedTransitions role).


(** The rational number a finite Number stands for (0 for the others). *)
Definition exact (x : float) : Q :=
  match Prim2SF x with
  | S754_finite s m e =>
      (inject_Z (if s then Z.neg m else Z.pos m) * Qpower 2 e)%Q
  | _ => 0%Q
  end.


(** The world after one more logged database call. *)
Definition logged (op : DbOp) (w : World) : World :=
  mkWorld (menu w) (orders w) (now w) (oplog w ++ [op]).

(** An order as [save] leaves it. *)
Definition stamped (w : World) (isModified : bool) (o : Order.t) : Order.t :=
  if isModified then set_updatedAt (now w) o else o.

(** The world after [findOne] and [save] of one order. *)
Definition saved (_id vendorId : ObjectId) (isModified : bool) (o : Order.t) (w : World)
  : World :=
  mkWorld (menu w)
          (if isModified then <[_id := set_updatedAt (now w) o]> (orders w) else orders w)
          (now w)
          (oplog w ++ [OpOrderFindOne _id vendorId; OpOrderSave _id]).

(** What [updateStatus] answers when the id names no order of the caller's
    shop; the world plays no part in it. *)
Definition updateStatus_out_of_scope (user : User.t) (newStatus : option string)
  : Outcome Response :=
  match transition_guard (User.role user) newStatus with
  | TypeError => Throw includes_is_not_a_function
  | NotAuthorized => Return (not_authorized (User.role user) newStatus)
  | Authorized _ => Return not_found_for_shop
  end.

(** What [addItemsToOrder] answers when the id names no order of the
    caller's shop. *)
Definition addItemsToOrder_out_of_scope (newItems : option (list Order.Item)) : Response :=
  match newItems with
  | None => Res 400 (BMsg "Must include at least one new item to add.")
  | Some newItems =>
      if (length newItems =? 0)%nat
      then Res 400 (BMsg "Must include at least one new item to add.")
      else if negb (forallb valid_item newItems)
      then Res 400 (BMsg "Invalid item data found in the new items list.")
      else not_found_for_shop
  end.

(** The order after a successful add-on of [items]. *)
Definition with_added (w : World) (items : list Order.Item) (o : Order.t) : Order.t :=
  set_updatedAt (now w)
    (VendorStaffController.append_items
       (map (denormalize (menu w) (Order.vendorId o)) items)
       (sum_lines (menu w) (Order.vendorId o) items 0) o).

(** The world after a successful add-on. *)
Definition added (_id : ObjectId) (items : list Order.Item) (o : Order.t) (w : World)
  : World :=
  mkWorld (menu w) (<[_id := with_added w items o]> (orders w)) (now w)
          (oplog w ++ [OpOrderFindOne _id (Order.vendorId o);
                       OpMenuItemFind (map Order.menuItemId items) (Order.vendorId o);
                       OpOrderSave _id]).

(** ** A small shop, used by the examples *)

Definition shop1 : ObjectId := "64b0000000000000000000a1".
Definition shop2 : ObjectId := "64b0000000000000000000a2".
Definition itemA : ObjectId := "64b0000000000000000000b1".
Definition itemB : ObjectId := "64b0000000000000000000b2".
Definition itemC : ObjectId := "64b0000000000000000000b3".

Definition dish (vendorId : ObjectId) (name : string) (price : float) : MenuItem.t :=
  MenuItem.mk vendorId name price None "Main" [] 0 true.

Definition menu1 : gmap ObjectId MenuItem.t :=
  <[itemA := dish shop1 "Dosa" 100]>
  (<[itemB := dish shop1 "Tea" 50]>
  (<[itemC := dish shop2 "Soup" 70]> ∅)).



Definition line (id : ObjectId) (q t : float) : Order.Item :=
  Order.mkItem (Some id) None (Some q) (Some t) [] None.

Definition world1 : World := mkWorld menu1 ∅ 1000 [].

Definition server1 : User.t := User.mk "64b0000000000000000000c1" "Server" shop1 true.
Definition vendor1 : User.t := User.mk "64b0000000000000000000c0" "Vendor" shop1 true.
Definition kitchen1 : User.t := User.mk "64b0000000000000000000c2" "Kitchen" shop1 true.
Definition server2 : User.t := User.mk "64b0000000000000000000c4" "Server" shop2 true.

Definition ord1 : ObjectId := "64b0000000000000000000d1".

(** An order of [shop1] for table 5 with two dosas, in a given status. *)
Definition order1 (s : Status) : Order.t :=
  Order.mk 5 [Order.mkItem (Some itemA) (Some "Dosa") (Some 2%float) (Some 5%float) [] None]
           s (Some (User.id server1)) shop1 200 None 1000 1000.

Definition world_with (s : Status) : World :=
  mkWorld menu1 {[ ord1 := order1 s ]} 2000 [].

(** Closed orders for the reporting query: [new Date("2024-01-01")] and
    [new Date("2024-01-31")] are midnight UTC of those days, and the server
    runs at UTC+05:30. *)
Definition parse_2024 (s : string) : option Z :=
  if String.eqb s "2024-01-01" then Some 1704067200000%Z
  else if String.eqb s "2024-01-31" then Some 1706659200000%Z
  else None.

Definition tz_0530 : Z := 19800000.

Definition ord2 : ObjectId := "64b0000000000000000000d2".
Definition ord3 : ObjectId := "64b0000000000000000000d3".
Definition ord4 : ObjectId := "64b0000000000000000000d4".

Definition closed_order (vendorId : ObjectId) (s : Status) (updatedAt : Z) : Order.t :=
  Order.mk 5 [Order.mkItem (Some itemA) (Some "Dosa") (Some 2%float) (Some 5%float) [] None]
           s (Some (User.id server1)) vendorId 200 None 1000 updatedAt.

(** [ord1] was billed on 11 January, [ord2] completed on 31 January at
    11:20 UTC, [ord3] billed in March, and [ord4] belongs to [shop2]. *)
Definition world_report : World :=
  mkWorld menu1
    (<[ord1 := closed_order shop1 Billed 1705000000000]>
    (<[ord2 := closed_order shop1 Completed 1706700000000]>
    (<[ord3 := closed_order shop1 Billed 1710000000000]>
    (<[ord4 := closed_order shop2 Billed 1705000000000]> ∅))))
    1711000000000 [].

(** A server whose local time is five hours behind UTC, and an order of
    [shop1] that was billed on 31 January 2024 at 12:00 UTC (07:00 at the
    server). *)
Definition tz_minus_0500 : Z := (-18000000)%Z.

Definition world_january : World :=
  mkWorld menu1 {[ ord1 := closed_order shop1 Billed 1706702400000 ]} 1711000000000 [].

(** * The rest of the controllers, the middleware and the routes *)

(** ** The role-scoped queues ([getKitchenOrders], [getBillingOrders])

    A handler answers 200 with the array of documents the query returns. *)

(** The order of [sort({ createdAt: 1 })]: oldest first. *)
Definition older_first (a b : OrderDoc) : Prop :=
  (Order.createdAt a.2 ≤ Order.createdAt b.2)%Z.

#[global] Instance older_first_dec a b : Decision (older_first a b).
Proof. unfold older_first. apply _. Defined.

(** The order MongoDB gives to Numbers: [NaN] before every other value, the
    others by their value. *)
Definition number_leb (x y : float) : bool :=
  is_nan x || (x <=? y)%float.

(** The order of [sort({ tableNumber: 1, createdAt: 1 })]. *)
Definition by_table_then_created (a b : OrderDoc) : Prop :=
  number_leb (Order.tableNumber a.2) (Order.tableNumber b.2) = true
  ∧ (number_leb (Order.tableNumber b.2) (Order.tableNumber a.2) = true →
     (Order.createdAt a.2 ≤ Order.createdAt b.2)%Z).

#[global] Instance by_table_then_created_dec a b : Decision (by_table_then_created a b).
Proof. unfold by_table_then_created. apply _. Defined.

(** [Order.find({ vendorId, status: { $in: statuses } }).sort(...)] *)
Definition Order_find_in (vendorId : ObjectId) (statuses : list Status)
    (sort : relation OrderDoc) `{!∀ a b, Decision (sort a b)} : M (list OrderDoc) :=
  await! log (OpOrderFind vendorId) in
  λ w, (merge_sort sort
          (List.filter
             (λ d : OrderDoc,
                VendorStaffController.matches
                  (VendorStaffController.mkQuery vendorId statuses None) d.2)
             (map_to_list (orders w))), w).

(** The same in both revisions ([orderController.js] lines 85-100,
    [vendorStaffController.js] lines 798-812). *)
Definition getKitchenOrders (user : User.t) : M (list OrderDoc) :=
  let vendorId := User.vendorId user in
  let! orders := await Order_find_in vendorId [Pending; Kitchen] older_first in
  ret orders.

(** [orderController.js], lines 105-120. *)
Definition OrderController_getBillingOrders (user : User.t) : M (list OrderDoc) :=
  let vendorId := User.vendorId user in
  let! orders := await Order_find_in vendorId [Ready; Served] by_table_then_created in
  ret orders.

(** The later revision ([vendorStaffController.js], lines 817-832). *)
Definition VendorStaffController_getBillingOrders (user : User.t) : M (list OrderDoc) :=
  let vendorId := User.vendorId user in
  let! orders := await Order_find_in vendorId [Ready; Served; Completed]
                   by_table_then_created in
  ret orders.


(** ** Notions for the properties of the rest *)

(** The document [createOrder] stores for a priced request. *)
Definition created (user : User.t) (tn : float) (items : list Order.Item) (w : World)
  : OrderDoc :=
  (fresh (dom (orders w)),
   Order.mk tn (map Order.cast (map (denormalize (menu w) (User.vendorId user)) items))
            Kitchen
            (Some (User.id user)) (User.vendorId user)
            (sum_lines (menu w) (User.vendorId user) items 0) None (now w) (now w)).

(** The world after a successful [createOrder]. *)
Definition with_created (user : User.t) (tn : float) (items : list Order.Item) (w : World)
  : World :=
  mkWorld (menu w)
          (<[(created user tn items w).1 := (created user tn items w).2]> (orders w))
          (now w)
          (oplog w ++ [OpMenuItemFind (map Order.menuItemId items) (User.vendorId user);
                       OpOrderSave (created user tn items w).1]).

(** An answer 200 of [updateStatus]. *)
Definition status_set (r : Outcome Response) : Prop :=
  ∃ msg doc, r = Return (Res 200 (BMsgOrder msg doc)).


(** The orders of a report. *)
Definition reported (r : Response) : list OrderDoc :=
  match body r with
  | BReport _ _ docs => docs
  | _ => []
  end.


(** *** Sequences of requests *)

(** The requests of the order routes that reach a handler. *)
Inductive Request :=
| ReqCreate (user : User.t) (body : CreateBody)
| ReqKitchen (user : User.t)
| ReqBilling (user : User.t)
| ReqGet (user : User.t) (_id : string)
| ReqStatus (user : User.t) (_id : string) (newStatus : option string)
| ReqAddItems (user : User.t) (_id : string) (newItems : option (list Order.Item)).

Definition caller (req : Request) : User.t :=
  match req with
  | ReqCreate user _ | ReqKitchen user | ReqBilling user | ReqGet user _
  | ReqStatus user _ _ | ReqAddItems user _ _ => user
  end.

(** The world after a request, handled by [orderController.js] ([older]) or
    by the later revision.  The older controller has no add-items handler
    (and the older routes no such route): the request leaves the world as it
    is. *)
Definition step (older : bool) (req : Request) (w : World) : World :=
  match req with
  | ReqCreate user body => (createOrder user body w).2
  | ReqKitchen user => (getKitchenOrders user w).2
  | ReqBilling user =>
      if older then (OrderController_getBillingOrders user w).2
      else (VendorStaffController_getBillingOrders user w).2
  | ReqGet user _id => (getOrderById user _id w).2
  | ReqStatus user _id newStatus =>
      if older then (OrderController.updateStatus user _id newStatus w).2
      else (VendorStaffController.updateStatus user _id newStatus w).2
  | ReqAddItems user _id newItems =>
      if older then w
      else (VendorStaffController.addItemsToOrder user _id newItems w).2
  end.

Definition run (older : bool) (reqs : list Request) (w : World) : World :=
  fold_left (λ w req, step older req w) reqs w.

(** A stored line as the handlers leave it: it names a menu item and has a
    quantity above zero and a table number. *)
Definition well_formed_line (item : Order.Item) : Prop :=
  valid_item item = true.

(** A stored order as the handlers leave it: a document that the schema
    accepts, of well-formed lines. *)
Definition well_formed_order (o : Order.t) : Prop :=
  Order_validate o = true ∧ Forall well_formed_line (Order.items o).

(** What a request of [user] may have made of the stored order [o]: a status
    of the role's row set on an order that is open to the role, or
    well-formed lines appended to an order that is neither billed nor
    completed, with a total that the schema accepts. *)
Definition touched_by (older : bool) (user : User.t) (o o' : Order.t) : Prop :=
  Order.vendorId o = User.vendorId user
  ∧ ((∃ st t,
        status_name st ∈ allowedSet (User.role user)
        ∧ (if older then Order.status o ≠ Completed ∧ Order.status o ≠ Billed
           else Order.status o ≠ Completed ∨ User.role user = "Vendor")
        ∧ o' = set_updatedAt t (set_status st o))
     ∨ (∃ items total t,
          older = false
          ∧ Order.status o ≠ Completed ∧ Order.status o ≠ Billed
          ∧ Forall well_formed_line items
          ∧ Number_ok (Order.totalAmount o + total) = true
          ∧ o' = set_updatedAt t (VendorStaffController.append_items items total o))).


(** An order and what it has become: the same order, with the lines it had
    at the head of its lines. *)
Definition continues (o o' : Order.t) : Prop :=
  Order.vendorId o' = Order.vendorId o
  ∧ Order.tableNumber o' = Order.tableNumber o
  ∧ Order.server o' = Order.server o
  ∧ Order.createdAt o' = Order.createdAt o
  ∧ Order.paymentMethod o' = Order.paymentMethod o
  ∧ Order.items o `prefix_of` Order.items o'.

(** [updateStatus] of [orderController.js] ([older]) or of the later
    revision. *)
Definition updateStatus_of (older : bool)
  : User.t → string → option string → M (Outcome Response) :=
  if older then OrderController.updateStatus else VendorStaffController.updateStatus.

(** What a stored line keeps of the line of the request: the menu item it
    names (as an [ObjectId]), the quantity, the table, the add-ons and the
    notes. *)
Definition requested (item : Order.Item)
  : option ObjectId * option float * option float * list string * option string :=
  (canonical <$> Order.menuItemId item, Order.quantity item, Order.itemTableNumber item,
   Order.addons item, Order.notes item).

(** A computation that leaves the catalog and the clock as they are. *)
Definition keeps_catalog {A} (m : M A) : Prop :=
  ∀ w, menu (m w).2 = menu w ∧ now (m w).2 = now w.

(** ** The authorization middleware ([src/middleware/auth.js]) *)

(** The argument of [auth]: none ([auth()]), one role ([auth('Vendor')]) or
    an array of roles. *)
Inductive RequiredRoles :=
| NoRoles
| OneRole (role : string)
| RoleArray (roles : list string).

(** [Array.isArray(requiredRoles) ? requiredRoles.filter(Boolean)
                                  : [requiredRoles].filter(Boolean)] *)
Definition role_list (requiredRoles : RequiredRoles) : list string :=
  match requiredRoles with
  | RoleArray roles => List.filter truthy_str roles
  | OneRole role => List.filter truthy_str [role]
  | NoRoles => []
  end.

(** What the middleware does with a request: it calls [next()] with
    [req.user] set, or it answers. *)
Inductive Passed :=
| Next (user : option User.t)
| Answered (r : Response).

Definition access_denied (roles : list string) : Response :=
  Res 403 (BMsg ("Access denied. Requires one of: " +:+ String.concat ", " roles)).

Definition token_is_not_valid : Response := Res 401 (BMsg "Token is not valid").

Section Auth.
(** [jwt.verify(token, process.env.JWT_SECRET)], taken as given: it throws,
    or returns a payload, whose [user] (if it has one) has the fields that
    [generateToken] signs. *)
Variable jwt_verify : string → Outcome (option User.t).

(** Lines 12-52.  Reading [req.user.role] of a payload without [user]
    throws inside the [try], which answers 401. *)
Definition auth (requiredRoles : RequiredRoles) (token : option string) : Passed :=
  match token with
  | None => Answered (Res 401 (BMsg "No token, authorization denied"))
  | Some token =>
      if negb (truthy_str token) then
        Answered (Res 401 (BMsg "No token, authorization denied"))
      else
        match jwt_verify token with
        | Return user =>
            let roles := role_list requiredRoles in
            if (0 <? length roles)%nat then
              match user with
              | Some u =>
                  if negb (array_includes roles (User.role u))
                  then Answered (access_denied roles)
                  else Next user
              | None => Answered token_is_not_valid
              end
            else Next user
        | Throw err => Answered token_is_not_valid
        end
  end.

(** Two middlewares in a row, as in [router.get('/', auth(), isVendorOrStaff, ...)]:
    the second runs when the first calls [next()]. *)
Definition chain (first second : option string → Passed) (token : option string)
  : Passed :=
  match first token with
  | Next _ => second token
  | Answered r => Answered r
  end.

(** ** The order routes ([src/routes/order.js]) *)

(** The routes of the two revisions of the file that reach a handler of the
    order controllers modelled above ([GET /completed] of the later
    revision is left out). *)
Inductive Route :=
| PostOrder (body : CreateBody)
| GetKitchen
| GetBilling
| GetOrder (_id : string)
| PutItems (_id : string) (newItems : option (list Order.Item))
| PutStatus (_id : string) (newStatus : option string).

(** The roles each route passes to [auth]: lines 12-40 of the first revision
    ([later = false]), which has no route for the add-on, and lines 67-116
    of the later one. *)
Definition route_roles (later : bool) (route : Route) : option (list string) :=
  match route with
  | PostOrder _ =>
      Some (if later then ["Server"; "Vendor"]
            else ["Server"; "Vendor"; "Kitchen"; "Billing"])
  | GetKitchen => Some ["Kitchen"; "Vendor"]
  | GetBilling =>
      Some (if later then ["Billing"; "Vendor"; "Server"]
            else ["Billing"; "Vendor"; "Server"; "Kitchen"])
  | GetOrder _ => Some ["Server"; "Billing"; "Vendor"]
  | PutItems _ _ => if later then Some ["Server"; "Vendor"] else None
  | PutStatus _ _ => Some ["Kitchen"; "Server"; "Billing"; "Vendor"]
  end.

Definition request_of (route : Route) (user : User.t) : Request :=
  match route with
  | PostOrder body => ReqCreate user body
  | GetKitchen => ReqKitchen user
  | GetBilling => ReqBilling user
  | GetOrder _id => ReqGet user _id
  | PutItems _id newItems => ReqAddItems user _id newItems
  | PutStatus _id newStatus => ReqStatus user _id newStatus
  end.

(** A call of the API: the [x-auth-token] header and the route with its
    parameters and body. *)
Record Call := mkCall { call_token : option string; call_route : Route }.

(** The request that reaches the handler, if one does.  A handler that is
    reached without [req.user] throws on [req.user.vendorId], its first
    statement, before it reads or writes anything. *)
Definition admitted (later : bool) (c : Call) : option Request :=
  match route_roles later (call_route c) with
  | Some roles =>
      match auth (RoleArray roles) (call_token c) with
      | Next (Some user) => Some (request_of (call_route c) user)
      | Next None => None
      | Answered _ => None
      end
  | None => None
  end.

(** The world after a call, with the routes of the first or the later
    revision and one of the two controllers. *)
Definition serve (later older : bool) (c : Call) (w : World) : World :=
  match admitted later c with
  | Some req => step older req w
  | None => w
  end.

Definition serve_all (later older : bool) (calls : list Call) (w : World) : World :=
  fold_left (λ w c, serve later older c w) calls w.


End Auth.

(** An order and what a request that adds no lines can make of it: all but
    [status] and [updatedAt] is kept. *)
Definition same_but_status (o o' : Order.t) : Prop :=
  set_updatedAt (Order.updatedAt o) (set_status (Order.status o) o') = o.

(** Tokens for the examples, and a [jwt.verify] that knows them. *)
Definition example_tokens : list (string * User.t) :=
  [("token-of-server1", server1); ("token-of-kitchen1", kitchen1);
   ("token-of-vendor1", vendor1); ("token-of-server2", server2);
   ("token-of-ravi", User.mk "64b0000000000000000000c3" "Kitchen" shop1 true)].

Definition example_verify (token : string) : Outcome (option User.t) :=
  match own_property example_tokens token with
  | Some user => Return (Some user)
  | None => Throw (mkError "invalid signature" None)
  end.

(** ** Staff accounts and login

    The first two parts of [src/controllers/vendorStaffController.js]:
    [getStaff], [approveStaff] and [deleteStaff] (lines 1-70), and
    [generateToken] and [login] (lines 82-105 and 217-241). *)

(** [src/models/User.js]: a user document.  ([User.t] above is [req.user],
    the payload of a token.)  The [password] is absent from a document
    selected with ['-password']. *)
Module Account.
Record t := mk {
  username : string;
  password : option string;
  email : string;
  phoneNumber : string;
  role : string;
  gstNumber : option string;
  foodLicenseNumber : option string;
  vendorId : ObjectId;
  isApproved : bool;
  createdAt : Z;
  updatedAt : Z
}.
End Account.

Definition AccountDoc : Type := ObjectId * Account.t.

(** [.select('-password')] *)
Definition without_password (a : Account.t) : Account.t :=
  Account.mk (Account.username a) None (Account.email a) (Account.phoneNumber a)
             (Account.role a) (Account.gstNumber a) (Account.foodLicenseNumber a)
             (Account.vendorId a) (Account.isApproved a)
             (Account.createdAt a) (Account.updatedAt a).

(** [user.isApproved = true; await user.save()] at time [t]. *)
Definition approve (t : Z) (a : Account.t) : Account.t :=
  Account.mk (Account.username a) (Account.password a) (Account.email a)
             (Account.phoneNumber a) (Account.role a) (Account.gstNumber a)
             (Account.foodLicenseNumber a) (Account.vendorId a) true
             (Account.createdAt a) t.

Inductive AccountReply :=
| Plain (r : Response)
| StaffList (staff : list AccountDoc)
| Approved (msg : string) (id : ObjectId) (isApproved : bool)
| Token (token : string) (user : User.t).

Definition staff_not_found : AccountReply :=
  Plain (Res 404 (BMsg "Staff account not found or unauthorized for this vendor.")).

(** [User.find({ vendorId, role: { $ne: 'Vendor' } }).select('-password')],
    lines 8-21. *)
Definition getStaff (user : User.t) (accounts : gmap ObjectId Account.t) : AccountReply :=
  let staff :=
    map (λ doc : AccountDoc, (doc.1, without_password doc.2))
        (List.filter
           (λ doc : AccountDoc,
              String.eqb (Account.vendorId doc.2) (User.vendorId user)
              && negb (String.eqb (Account.role doc.2) "Vendor"))
           (map_to_list accounts)) in
  StaffList staff.

(** [!user || user.role === 'Vendor'
     || user.vendorId.toString() !== req.user.vendorId.toString()] *)
Definition not_staff_of (user : User.t) (found : option Account.t) : bool :=
  match found with
  | None => true
  | Some account =>
      String.eqb (Account.role account) "Vendor"
      || negb (String.eqb (Account.vendorId account) (User.vendorId user))
  end.

(** Lines 26-48, at time [t]. *)
Definition approveStaff (user : User.t) (params_id : string) (t : Z)
    (accounts : gmap ObjectId Account.t) : AccountReply * gmap ObjectId Account.t :=
  let _id := canonical params_id in
  match accounts !! _id with
  | Some account =>
      if not_staff_of user (Some account) then (staff_not_found, accounts)
      else if Account.isApproved account then
        (Plain (Res 400 (BMsg "Staff account is already approved.")), accounts)
      else
        let saved := approve t account in
        (Approved (Account.username saved +:+ " approved successfully. They can now log in.")
                  _id (Account.isApproved saved),
         <[_id := saved]> accounts)
  | None => (staff_not_found, accounts)
  end.

(** Lines 53-70. *)
Definition deleteStaff (user : User.t) (params_id : string)
    (accounts : gmap ObjectId Account.t) : AccountReply * gmap ObjectId Account.t :=
  let _id := canonical params_id in
  match accounts !! _id with
  | Some account =>
      if not_staff_of user (Some account) then (staff_not_found, accounts)
      else
        (Plain (Res 200 (BMsg ("Staff account " +:+ Account.username account +:+
                               " deleted successfully."))),
         delete _id accounts)
  | None => (staff_not_found, accounts)
  end.

(** [User.findOne({ username })] *)
Definition User_findOne (username : string) (accounts : gmap ObjectId Account.t)
  : option AccountDoc :=
  head (List.filter (λ doc : AccountDoc, String.eqb (Account.username doc.2) username)
                    (map_to_list accounts)).

(** The [user] of the payload that [generateToken] signs and sends back. *)
Definition payload_user (doc : AccountDoc) : User.t :=
  User.mk doc.1 (Account.role doc.2) (Account.vendorId doc.2) (Account.isApproved doc.2).

Definition pending_approval : AccountReply :=
  Plain (Res 403 (BMsg ("Your account is pending Vendor approval. " +:+
                        "Please contact your shop owner."))).

Section Login.
(** [bcrypt.compare(password, hash)] and
    [jwt.sign(payload, process.env.JWT_SECRET, { expiresIn: '1h' }, callback)],
    taken as given. *)
Variable bcrypt_compare : string → string → bool.
Variable jwt_sign : User.t → Outcome string.

(** Lines 82-105.  An error of [jwt.sign] is thrown in its callback. *)
Definition generateToken (user : AccountDoc) : Outcome AccountReply :=
  match jwt_sign (payload_user user) with
  | Return token => Return (Token token (payload_user user))
  | Throw err => Throw err
  end.

(** Lines 217-241, for a body with a [username].  [bcrypt.compare] rejects
    arguments that are not strings, which the handler answers with 500. *)
Definition login (username : string) (password : option string)
    (accounts : gmap ObjectId Account.t) : Outcome AccountReply :=
  match User_findOne username accounts with
  | None => Return (Plain (Res 400 (BMsg "Invalid Credentials")))
  | Some user =>
      match password, Account.password user.2 with
      | Some password, Some hash =>
          let isMatch := bcrypt_compare password hash in
          if negb isMatch then Return (Plain (Res 400 (BMsg "Invalid Credentials")))
          else if negb (String.eqb (Account.role user.2) "Vendor")
                  && negb (Account.isApproved user.2)
          then Return pending_approval
          else generateToken user
      | _, _ => Return (Plain (Res 500 (BText "Server error")))
      end
  end.
End Login.

(** The unique index on [username] of the User schema. *)
Definition unique_usernames (accounts : gmap ObjectId Account.t) : Prop :=
  ∀ k1 k2 a1 a2,
    accounts !! k1 = Some a1 → accounts !! k2 = Some a2 →
    Account.username a1 = Account.username a2 → k1 = k2.

(** Requests of the staff routes ([src/routes/vendor.js]) that write. *)
Inductive StaffRequest :=
| ReqApprove (user : User.t) (_id : string) (t : Z)
| ReqDelete (user : User.t) (_id : string).

Definition staff_caller (req : StaffRequest) : User.t :=
  match req with ReqApprove user _ _ | ReqDelete user _ => user end.

Definition staff_step (req : StaffRequest) (accounts : gmap ObjectId Account.t)
  : gmap ObjectId Account.t :=
  match req with
  | ReqApprove user _id t => (approveStaff user _id t accounts).2
  | ReqDelete user _id => (deleteStaff user _id accounts).2
  end.

Definition staff_run (reqs : list StaffRequest) (accounts : gmap ObjectId Account.t)
  : gmap ObjectId Account.t :=
  fold_left (λ accounts req, staff_step req accounts) reqs accounts.

(** The accounts of the examples: the owner of [shop1], an approved server
    and a cook who waits for approval. *)
Definition account (username role : string) (vendorId : ObjectId) (isApproved : bool)
  : Account.t :=
  Account.mk username (Some ("hash of " +:+ username +:+ "'s password"))
             (username +:+ "@example.com") "9876543210" role None None vendorId
             isApproved 500 500.

Definition cook1 : ObjectId := "64b0000000000000000000c3".

Definition accounts1 : gmap ObjectId Account.t :=
  {[ User.id vendor1 := account "owner" "Vendor" shop1 true;
     User.id server1 := account "asha" "Server" shop1 true;
     cook1 := account "ravi" "Kitchen" shop1 false;
     User.id server2 := account "meena" "Server" shop2 true ]}.

Definition example_compare (password hash : string) : bool :=
  String.eqb ("hash of " +:+ password) hash.

Definition User_eqb (a b : User.t) : bool :=
  String.eqb (User.id a) (User.id b) && String.eqb (User.role a) (User.role b)
  && String.eqb (User.vendorId a) (User.vendorId b)
  && Bool.eqb (User.isApproved a) (User.isApproved b).

(** A [jwt.sign] for the tokens of the examples. *)
Definition example_sign (user : User.t) : Outcome string :=
  match List.find (λ known : string * User.t, User_eqb known.2 user) example_tokens with
  | Some known => Return known.1
  | None => Throw (mkError "secretOrPrivateKey must have a value" None)
  end.

(** ** The menu controller and its routes

    The two revisions of the menu controller in
    [src/controllers/vendorStaffController.js] (lines 243-423 and 423-652),
    their handlers that read and delete, and [src/routes/menu.js]. *)

(** [{ success, msg }] with its status, or [{ success: true, items }]. *)
Inductive MenuReply :=
| MenuMsg (code : nat) (success : bool) (msg : string)
| MenuItems (items : list (ObjectId * MenuItem.t)).

(** The order of [.sort({ category: 1, name: 1 })]: strings compare byte by
    byte. *)
Definition category_name_leb (a b : ObjectId * MenuItem.t) : bool :=
  match String.compare (MenuItem.category a.2) (MenuItem.category b.2) with
  | Lt => true
  | Eq => String.leb (MenuItem.name a.2) (MenuItem.name b.2)
  | Gt => false
  end.

Definition by_category_then_name (a b : ObjectId * MenuItem.t) : Prop :=
  category_name_leb a b = true.

#[global] Instance by_category_then_name_dec a b : Decision (by_category_then_name a b).
Proof. unfold by_category_then_name. apply _. Defined.

(** [MenuItem.find({ vendorId }).sort({ category: 1, name: 1 })] *)
Definition MenuItem_find_sorted (vendorId : ObjectId) (catalog : gmap ObjectId MenuItem.t)
  : list (ObjectId * MenuItem.t) :=
  merge_sort by_category_then_name
    (List.filter (λ d : ObjectId * MenuItem.t, String.eqb (MenuItem.vendorId d.2) vendorId)
                 (map_to_list catalog)).

(** [MenuItem.findOneAndDelete({ _id, vendorId })] *)
Definition MenuItem_findOneAndDelete (_id vendorId : ObjectId)
    (catalog : gmap ObjectId MenuItem.t)
  : option MenuItem.t * gmap ObjectId MenuItem.t :=
  match catalog !! _id with
  | Some item =>
      if String.eqb (MenuItem.vendorId item) vendorId
      then (Some item, delete _id catalog)
      else (None, catalog)
  | None => (None, catalog)
  end.

Definition item_deleted (item : MenuItem.t) : MenuReply :=
  MenuMsg 200 true ("Menu item " +:+ MenuItem.name item +:+ " deleted successfully.").

Definition item_not_found : MenuReply :=
  MenuMsg 404 false "Menu item not found or unauthorized to delete.".

(** The first revision (lines 243-423). *)
Module MenuItemController.
Section Handlers.
(** [mongoose.Types.ObjectId.isValid(id)], and the [ObjectId] that a valid
    id string is cast to, taken as given. *)
Variable isValidObjectId : string → bool.
Variable castObjectId : string → ObjectId.

(** Lines 329-342. *)
Definition getMenuItems (user : option User.t) (catalog : gmap ObjectId MenuItem.t)
  : MenuReply :=
  let vendorId := User.vendorId <$> user in
  match vendorId with
  | Some vendorId =>
      if negb (truthy_str vendorId) then
        MenuMsg 403 false "Vendor ID not found in request context."
      else
        let items := MenuItem_find_sorted vendorId catalog in
        MenuItems items
  | None => MenuMsg 403 false "Vendor ID not found in request context."
  end.

(** Lines 400-423. *)
Definition deleteMenuItem (user : option User.t) (id : string)
    (catalog : gmap ObjectId MenuItem.t) : MenuReply * gmap ObjectId MenuItem.t :=
  let vendorId := User.vendorId <$> user in
  match vendorId with
  | Some vendorId =>
      if negb (truthy_str vendorId) || negb (isValidObjectId id) then
        (MenuMsg 400 false "Invalid request: ID or vendor ID missing/invalid.", catalog)
      else
        match MenuItem_findOneAndDelete (castObjectId id) vendorId catalog with
        | (Some item, catalog') => (item_deleted item, catalog')
        | (None, catalog') => (item_not_found, catalog')
        end
  | None =>
      (MenuMsg 400 false "Invalid request: ID or vendor ID missing/invalid.", catalog)
  end.
End Handlers.
End MenuItemController.

(** The later revision (lines 423-652), with its role and approval check. *)
Module MenuItemController2.

Definition MENU_ACCESS_ROLES : list string := ["Vendor"; "Server"; "Kitchen"; "Billing"].
Definition MENU_MANAGEMENT_ROLES : list string := ["Vendor"; "Kitchen"].

(** Lines 454-481: [None] stands for [true], access granted; otherwise the
    answer that was sent. *)
Definition checkMenuAccess (user : option User.t) (allowedRoles : list string)
  : option MenuReply :=
  let vendorId := User.vendorId <$> user in
  let userRole := User.role <$> user in
  let isApproved := User.isApproved <$> user in
  if negb (truthy_opt truthy_str vendorId) then
    Some (MenuMsg 403 false "Vendor/Staff must be linked to a Vendor entity.")
  else if negb (truthy_opt (array_includes allowedRoles) userRole) then
    Some (MenuMsg 403 false ("Role '" +:+ default "undefined" userRole +:+
                             "' is unauthorized for this action."))
  else if negb (bool_decide (userRole = Some "Vendor")) && negb (default false isApproved)
  then Some (MenuMsg 403 false "Your account is pending approval by the Vendor owner.")
  else None.

Section Handlers.
Variable isValidObjectId : string → bool.
Variable castObjectId : string → ObjectId.

(** Lines 547-563. *)
Definition getMenuItems (user : option User.t) (catalog : gmap ObjectId MenuItem.t)
  : MenuReply :=
  match checkMenuAccess user MENU_ACCESS_ROLES with
  | Some answer => answer
  | None =>
      let vendorId := default "" (User.vendorId <$> user) in
      let items := MenuItem_find_sorted vendorId catalog in
      MenuItems items
  end.

(** Lines 625-652. *)
Definition deleteMenuItem (user : option User.t) (id : string)
    (catalog : gmap ObjectId MenuItem.t) : MenuReply * gmap ObjectId MenuItem.t :=
  match checkMenuAccess user MENU_MANAGEMENT_ROLES with
  | Some answer => (answer, catalog)
  | None =>
      let vendorId := default "" (User.vendorId <$> user) in
      if negb (isValidObjectId id) then
        (MenuMsg 400 false "Invalid menu item ID.", catalog)
      else
        match MenuItem_findOneAndDelete (castObjectId id) vendorId catalog with
        | (Some item, catalog') => (item_deleted item, catalog')
        | (None, catalog') => (item_not_found, catalog')
        end
  end.
End Handlers.
End MenuItemController2.

(** [src/routes/menu.js] *)
Section MenuRoutes.
Variable jwt_verify : string → Outcome (option User.t).
Variable isValidObjectId : string → bool.
Variable castObjectId : string → ObjectId.

(** Line 14. *)
Definition isVendor : option string → Passed := auth jwt_verify (OneRole "Vendor").

(** [deleteMenuItem] of the first ([later = false]) or the later revision. *)
Definition deleteMenuItem_of (later : bool)
  : option User.t → string → gmap ObjectId MenuItem.t
    → MenuReply * gmap ObjectId MenuItem.t :=
  if later then MenuItemController2.deleteMenuItem isValidObjectId castObjectId
  else MenuItemController.deleteMenuItem isValidObjectId castObjectId.

Definition getMenuItems_of (later : bool)
  : option User.t → gmap ObjectId MenuItem.t → MenuReply :=
  if later then MenuItemController2.getMenuItems else MenuItemController.getMenuItems.

(** [router.delete('/:id', auth(), isVendor, menuController.deleteMenuItem)]:
    the answer of a middleware or of the handler, and the catalog after the
    call. *)
Definition delete_menu (later : bool) (token : option string) (id : string)
    (catalog : gmap ObjectId MenuItem.t)
  : (Response + MenuReply) * gmap ObjectId MenuItem.t :=
  match chain (auth jwt_verify NoRoles) isVendor token with
  | Next user =>
      let '(reply, catalog') := deleteMenuItem_of later user id catalog in
      (inr reply, catalog')
  | Answered r => (inl r, catalog)
  end.
End MenuRoutes.

(** The world with another catalog. *)
Definition with_menu (catalog : gmap ObjectId MenuItem.t) (w : World) : World :=
  mkWorld catalog (orders w) (now w) (oplog w).

(** For the examples: ids of 24 characters are valid and are cast to
    themselves. *)
Definition example_isValid (id : string) : bool := (String.length id =? 24)%nat.
Definition example_cast (id : string) : ObjectId := id.

(** ** The staff routes ([src/routes/vendor.js]) *)

Definition server_error : AccountReply := Plain (Res 500 (BText "Server error")).

(** [approveStaff] and [deleteStaff] reached without [req.user]: the test of
    line 31 (and 58) answers 404 for a missing account or a [Vendor]'s, and
    throws on [req.user.vendorId] otherwise, inside the [try]. *)
Definition without_user (found : option Account.t) : AccountReply :=
  match found with
  | Some account =>
      if String.eqb (Account.role account) "Vendor" then staff_not_found
      else server_error
  | None => staff_not_found
  end.

Section VendorRoutes.
Variable jwt_verify : string → Outcome (option User.t).

(** Line 7. *)
Definition vendorAuth : option string → Passed := auth jwt_verify (OneRole "Vendor").

(** [router.put('/staff/:id/approve', vendorAuth, vendorController.approveStaff)],
    at time [t]: the answer and the accounts after the call. *)
Definition put_staff_approve (token : option string) (id : ObjectId) (t : Z)
    (accounts : gmap ObjectId Account.t)
  : (Response + AccountReply) * gmap ObjectId Account.t :=
  match vendorAuth token with
  | Next (Some user) =>
      let '(reply, accounts') := approveStaff user id t accounts in
      (inr reply, accounts')
  | Next None => (inr (without_user (accounts !! id)), accounts)
  | Answered r => (inl r, accounts)
  end.

(** [router.delete('/staff/:id', vendorAuth, vendorController.deleteStaff)] *)
Definition delete_staff (token : option string) (id : ObjectId)
    (accounts : gmap ObjectId Account.t)
  : (Response + AccountReply) * gmap ObjectId Account.t :=
  match vendorAuth token with
  | Next (Some user) =>
      let '(reply, accounts') := deleteStaff user id accounts in
      (inr reply, accounts')
  | Next None => (inr (without_user (accounts !! id)), accounts)
  | Answered r => (inl r, accounts)
  end.
End VendorRoutes.

(** * Properties *)

(** ** The cast of ids *)

Lemma lower_hex_idem (c : Ascii.ascii) : lower_hex (lower_hex c) = lower_hex c.
Proof. by destruct c as [[] [] [] [] [] [] [] []]. Qed.

(** An [ObjectId] is cast to itself. *)
Lemma canonical_idem (id : string) : canonical (canonical id) = canonical id.
Proof. induction id as [|c id IH]; simpl; [done|]. by rewrite lower_hex_idem, IH. Qed.

Lemma cast_all_idem (ids : list (option string)) : cast_all (cast_all ids) = cast_all ids.
Proof.
  unfold cast_all. rewrite map_map. apply map_ext. intros [id|]; simpl; [|done].
  by rewrite canonical_idem.
Qed.

Lemma elem_of_cast_ids (items : list Order.Item) (oid : option ObjectId) :
  oid ∈ cast_ids items
  ↔ ∃ item, item ∈ items ∧ oid = canonical <$> Order.menuItemId item.
Proof.
  unfold cast_ids, cast_all. rewrite map_map.
  change (oid ∈ (λ item, canonical <$> Order.menuItemId item) <$> items ↔
          ∃ item, item ∈ items ∧ oid = canonical <$> Order.menuItemId item).
  rewrite list_elem_of_fmap. split; intros (item & H1 & H2); by exists item.
Qed.

(** ** Counting the catalog query's result *)

Section Counting.
Context (menu0 : gmap ObjectId MenuItem.t) (vendorId : ObjectId).

Lemma size_list_to_set_le (l : list ObjectId) :
  size (list_to_set l : gset ObjectId) ≤ length l.
Proof.
  induction l as [|a l IH].
  - by rewrite list_to_set_nil, size_empty.
  - rewrite list_to_set_cons, length_cons.
    destruct (decide (a ∈ l)) as [Hin|Hnin].
    + assert ({[a]} ∪ list_to_set l = (list_to_set l : gset ObjectId)) as ->.
      { by apply subseteq_union_1_L, singleton_subseteq_l, elem_of_list_to_set. }
      lia.
    + rewrite size_union by set_solver. rewrite size_singleton. lia.
Qed.

Lemma size_list_to_set_NoDup (l : list ObjectId) :
  size (list_to_set l : gset ObjectId) = length l → NoDup l.
Proof.
  induction l as [|a l IH]; intros Hsz.
  - constructor.
  - rewrite list_to_set_cons, length_cons in Hsz.
    destruct (decide (a ∈ l)) as [Hin|Hnin].
    + assert ({[a]} ∪ list_to_set l = (list_to_set l : gset ObjectId)) as Heq.
      { by apply subseteq_union_1_L, singleton_subseteq_l, elem_of_list_to_set. }
      rewrite Heq in Hsz. pose proof (size_list_to_set_le l). lia.
    + rewrite size_union in Hsz by set_solver. rewrite size_singleton in Hsz.
      constructor; [done|]. apply IH. lia.
Qed.

Lemma found_lookup (ids : list (option ObjectId)) (id : ObjectId) (m : MenuItem.t) :
  found menu0 ids vendorId !! id = Some m
  ↔ Some id ∈ ids ∧ catalog_lookup menu0 vendorId id = Some m.
Proof.
  unfold found, catalog_lookup. rewrite map_lookup_filter_Some. simpl.
  split.
  - intros (Hm & Hin & Hv). split; [done|]. rewrite Hm.
    by rewrite decide_True.
  - intros (Hin & Hc). destruct (menu0 !! id) as [m'|]; [|done].
    destruct (decide (MenuItem.vendorId m' = vendorId)); by simplify_eq.
Qed.

Lemma found_dom_subseteq (ids : list (option ObjectId)) :
  dom (found menu0 ids vendorId) ⊆ (list_to_set (omap id ids) : gset ObjectId).
Proof.
  intros k [m Hm]%elem_of_dom. apply found_lookup in Hm as [Hin _].
  apply elem_of_list_to_set, list_elem_of_omap. by exists (Some k).
Qed.

Lemma length_omap_id_le (ids : list (option ObjectId)) :
  length (omap id ids) ≤ length ids.
Proof. induction ids as [|[?|] ? IH]; csimpl; lia. Qed.

Lemma length_omap_id_eq (ids : list (option ObjectId)) :
  length (omap id ids) = length ids → ids = Some <$> omap id ids.
Proof.
  induction ids as [|[a|] ids IH]; csimpl; intros Hlen; [done| |].
  - f_equal. apply IH. lia.
  - pose proof (length_omap_id_le ids). lia.
Qed.

(** The query returns as many documents as ids were asked for exactly when
    the ids are pairwise different and each is in the vendor's catalog. *)
Lemma found_size_eq_iff (ids : list (option ObjectId)) :
  size (found menu0 ids vendorId) = length ids
  ↔ NoDup ids
    ∧ Forall (λ oid, is_Some (oid ≫= catalog_lookup menu0 vendorId)) ids.
Proof.
  pose proof (found_dom_subseteq ids) as Hsub.
  pose proof (subseteq_size _ _ Hsub) as Hle1.
  pose proof (size_list_to_set_le (omap id ids)) as Hle2.
  pose proof (length_omap_id_le ids) as Hle3.
  rewrite size_dom in Hle1.
  split.
  - intros Hsz.
    assert (Hids : ids = Some <$> omap id ids) by (apply length_omap_id_eq; lia).
    assert (Hnd : NoDup (omap id ids)) by (apply size_list_to_set_NoDup; lia).
    assert (Heq : dom (found menu0 ids vendorId) = list_to_set (omap id ids)).
    { apply set_subseteq_size_eq; [done|]. rewrite size_dom. lia. }
    split.
    + rewrite Hids. apply NoDup_fmap_2; [|done]. by intros ?? [=].
    + apply Forall_forall. intros oid Hin.
      rewrite Hids in Hin. apply list_elem_of_fmap in Hin as (k & -> & Hk).
      assert (Hd : k ∈ dom (found menu0 ids vendorId)).
      { rewrite Heq. by apply elem_of_list_to_set. }
      apply elem_of_dom in Hd as [m Hm]. apply found_lookup in Hm as [_ Hm].
      simpl. by rewrite Hm.
  - intros [Hnd Hall].
    assert (Hids : ids = Some <$> omap id ids).
    { clear -Hall. induction Hall as [|[a|] ids [m Hm] _ IH]; csimpl; [done| |].
      - by f_equal.
      - done. }
    assert (Hnd' : NoDup (omap id ids)).
    { rewrite Hids in Hnd. by apply NoDup_fmap_1 in Hnd. }
    assert (Heq : dom (found menu0 ids vendorId) = list_to_set (omap id ids)).
    { apply set_eq. intros k. split; [apply Hsub|].
      intros Hk%elem_of_list_to_set.
      assert (Hin : Some k ∈ ids).
      { rewrite Hids. by apply list_elem_of_fmap_2. }
      rewrite Forall_forall in Hall. destruct (Hall _ Hin) as [m Hm].
      apply elem_of_dom. exists m. by apply found_lookup. }
    rewrite <- size_dom, Heq, size_list_to_set by done.
    rewrite Hids at 2. by rewrite length_fmap.
Qed.

End Counting.

(** ** Price resolution *)

Section PriceResolution.
Context (menu0 : gmap ObjectId MenuItem.t) (vendorId : ObjectId).

Let details (m : MenuItem.t) : float * string := (MenuItem.price m, MenuItem.name m).

Lemma fold_insert_other (l : list (ObjectId * MenuItem.t))
    (acc : gmap string (float * string)) (k : ObjectId) :
  k ∉ l.*1 →
  fold_left (λ acc item, <[item.1 := details item.2]> acc) l acc !! k = acc !! k.
Proof.
  revert acc. induction l as [|[k' m'] l IH]; intros acc Hk; [done|].
  rewrite fmap_cons, not_elem_of_cons in Hk. destruct Hk as [Hne Hk].
  simpl. rewrite IH by done. by rewrite lookup_insert_ne.
Qed.

Lemma fold_insert_member (l : list (ObjectId * MenuItem.t))
    (acc : gmap string (float * string)) (k : ObjectId) (m : MenuItem.t) :
  NoDup l.*1 → (k, m) ∈ l →
  fold_left (λ acc item, <[item.1 := details item.2]> acc) l acc !! k
  = Some (details m).
Proof.
  revert acc. induction l as [|[k' m'] l IH]; intros acc Hnd Hin.
  - by apply elem_of_nil in Hin.
  - rewrite fmap_cons in Hnd. apply NoDup_cons in Hnd as [Hk' Hnd].
    apply elem_of_cons in Hin as [[= <- <-]|Hin]; simpl.
    + rewrite fold_insert_other by done. by rewrite lookup_insert_eq.
    + by apply IH.
Qed.

(** The price map holds exactly the documents found. *)
Lemma priceMap_lookup (ids : list (option ObjectId)) (k : ObjectId) :
  build_priceMap (map_to_list (found menu0 ids vendorId)) !! k
  = details <$> found menu0 ids vendorId !! k.
Proof.
  unfold build_priceMap.
  destruct (found menu0 ids vendorId !! k) as [m|] eqn:Hk; simpl.
  - apply (fold_insert_member _ _ _ m).
    + apply NoDup_fst_map_to_list.
    + by apply elem_of_map_to_list.
  - rewrite fold_insert_other; [done|].
    intros ([k' m] & Heq & Hin)%list_elem_of_fmap. simpl in Heq. subst k'.
    apply elem_of_map_to_list in Hin. congruence.
Qed.

(** The loop writes the name of every line it finds a price for and adds
    its subtotal, in the order of the lines. *)
Lemma forEach_item_priced (priceMap : gmap string (float * string))
    (items : list Order.Item) (total : float) :
  Forall (λ item, ∃ id, Order.menuItemId item = Some id
                        ∧ priceMap !! id = details <$> resolve menu0 vendorId item) items →
  forEach_item priceMap items total
  = (map (denormalize menu0 vendorId) items,
     Return (sum_lines menu0 vendorId items total)).
Proof.
  intros Hall. revert total.
  induction Hall as [|item items (id & Hid & Hp) _ IH]; intros total; [done|].
  simpl. rewrite Hid, Hp. unfold denormalize at 1.
  destruct (resolve menu0 vendorId item) as [m|]; simpl; by rewrite IH.
Qed.

Lemma length_cast_ids (items : list Order.Item) : length (cast_ids items) = length items.
Proof. unfold cast_ids, cast_all. by rewrite !length_map. Qed.

Lemma distinct_in_catalog_iff (items : list Order.Item) :
  distinct_in_catalog menu0 vendorId items
  ↔ distinct_found menu0 vendorId items = length items.
Proof.
  unfold distinct_in_catalog, distinct_found.
  rewrite <- (length_cast_ids items). by rewrite found_size_eq_iff.
Qed.

(** Under the id as a line spells it, the documents found hold what the
    loop resolves the line to. *)
Lemma found_lookup_resolve (items : list Order.Item) (item : Order.Item) (id : string) :
  item ∈ items → Order.menuItemId item = Some id →
  found menu0 (cast_ids items) vendorId !! id = resolve menu0 vendorId item.
Proof.
  intros Hin Hid. unfold resolve. rewrite Hid. simpl.
  apply option_eq. intros m. rewrite found_lookup.
  destruct (decide (canonical id = id)) as [Hc|Hc].
  - split; [by intros [_ ?]|]. intros Hm. split; [|done].
    apply elem_of_cast_ids. exists item. split; [done|]. rewrite Hid. simpl. by rewrite Hc.
  - split; [|done]. intros [(item' & _ & Heq)%elem_of_cast_ids _]. exfalso. apply Hc.
    destruct (Order.menuItemId item') as [id'|]; [|done].
    simpl in Heq. injection Heq as ->. apply canonical_idem.
Qed.

End PriceResolution.

(** What [calculateTotalAmount] does, in one equation: it logs one catalog
    query; when the query finds as many documents as the batch has lines,
    it returns the lines with the names the loop wrote and the sum of the
    lines the loop priced; otherwise it throws and leaves the lines as they
    were. *)
Lemma calculateTotalAmount_eq (items : list Order.Item) (vendorId : ObjectId) (w : World) :
  calculateTotalAmount items vendorId w
  = (if decide (distinct_found (menu w) vendorId items = length items)
     then (map (denormalize (menu w) vendorId) items,
           Return (sum_lines (menu w) vendorId items 0))
     else (items, Throw (mkError invalid_items_message None)),
     logged (OpMenuItemFind (map Order.menuItemId items) vendorId) w).
Proof.
  unfold calculateTotalAmount, MenuItem_find, bind, log, ret. simpl.
  fold (cast_ids items). fold (found (menu w) (cast_ids items) vendorId).
  rewrite length_map_to_list, length_map. fold (distinct_found (menu w) vendorId items).
  destruct (decide (distinct_found (menu w) vendorId items = length items)) as [Hsz|Hsz].
  - rewrite Hsz, Nat.eqb_refl. simpl.
    rewrite (forEach_item_priced (menu w) vendorId); [done|].
    apply distinct_in_catalog_iff in Hsz as [_ Hall].
    apply Forall_forall. intros item Hin.
    destruct (Order.menuItemId item) as [id|] eqn:Hid.
    + exists id. split; [done|]. rewrite priceMap_lookup.
      by rewrite (found_lookup_resolve _ _ items item).
    + rewrite Forall_forall in Hall. destruct (Hall None) as [? [=]].
      apply elem_of_cast_ids. exists item. by rewrite Hid.
  - by apply Nat.eqb_neq in Hsz as ->.
Qed.

Lemma calculateTotalAmount_ok (items : list Order.Item) (vendorId : ObjectId) (w : World) :
  distinct_in_catalog (menu w) vendorId items →
  calculateTotalAmount items vendorId w
  = ((map (denormalize (menu w) vendorId) items,
      Return (sum_lines (menu w) vendorId items 0)),
     logged (OpMenuItemFind (map Order.menuItemId items) vendorId) w).
Proof.
  intros Hdr%distinct_in_catalog_iff.
  by rewrite calculateTotalAmount_eq, decide_True.
Qed.

Lemma calculateTotalAmount_throw (items : list Order.Item) (vendorId : ObjectId) (w : World) :
  ¬ distinct_in_catalog (menu w) vendorId items →
  calculateTotalAmount items vendorId w
  = ((items, Throw (mkError invalid_items_message None)),
     logged (OpMenuItemFind (map Order.menuItemId items) vendorId) w).
Proof.
  intros Hdr. rewrite distinct_in_catalog_iff in Hdr.
  by rewrite calculateTotalAmount_eq, decide_False.
Qed.

(** ** Validation by the schema *)

Lemma SFcompare_finite_refl (s : bool) (m : positive) (e : Z) :
  SFcompare (S754_finite s m e) (S754_finite s m e) = Some Eq.
Proof.
  simpl. rewrite Z.compare_refl, Pos.compare_cont_refl. by destruct s.
Qed.

(** A truthy Number is not [NaN], and neither is one above zero. *)
Lemma truthy_num_ok (x : float) : truthy_num x = true → Number_ok x = true.
Proof.
  unfold truthy_num, Number_ok. destruct (is_nan x); [|done].
  by rewrite orb_true_r.
Qed.

Lemma gt_zero_ok (x : float) : (0 <? x)%float = true → Number_ok x = true.
Proof.
  unfold Number_ok, is_nan. rewrite FloatAxioms.ltb_spec, FloatAxioms.eqb_spec.
  change (Prim2SF 0) with (S754_zero false).
  unfold SFltb, SFeqb.
  destruct (Prim2SF x) as [s|[]| |[] m e]; try done.
  intros _. by rewrite SFcompare_finite_refl.
Qed.

Lemma truthy_str_canonical (id : string) : truthy_str (canonical id) = truthy_str id.
Proof. by destruct id. Qed.

(** The cast of a line and the name written onto it leave what the
    handlers' validation looks at. *)
Lemma valid_item_cast (item : Order.Item) : valid_item (Order.cast item) = valid_item item.
Proof.
  unfold valid_item. destruct item as [[id|] ? ? ? ? ?]; cbn; [|done].
  by rewrite truthy_str_canonical.
Qed.

Lemma valid_item_denormalize (menu0 : gmap ObjectId MenuItem.t) (vendorId : ObjectId)
    (item : Order.Item) :
  valid_item (denormalize menu0 vendorId item) = valid_item item.
Proof. unfold denormalize. by destruct (resolve menu0 vendorId item). Qed.

(** A line that passes the handlers' validation passes the schema's. *)
Lemma valid_item_validate (item : Order.Item) :
  valid_item item = true → Item_validate item = true.
Proof.
  unfold valid_item, Item_validate.
  destruct (Order.menuItemId item) as [id|]; [|done].
  destruct (Order.quantity item) as [q|]; [|by rewrite andb_false_r].
  destruct (Order.itemTableNumber item) as [t|]; [|by rewrite andb_false_r].
  cbn. intros [[_ Hq]%andb_prop Ht]%andb_prop.
  by rewrite (gt_zero_ok q Hq), (truthy_num_ok t Ht).
Qed.

Lemma valid_items_validate (menu0 : gmap ObjectId MenuItem.t) (vendorId : ObjectId)
    (items : list Order.Item) :
  forallb valid_item items = true →
  forallb Item_validate (map Order.cast (map (denormalize menu0 vendorId) items)) = true.
Proof.
  rewrite !forallb_forall. intros Hvalid item Hin.
  apply in_map_iff in Hin as (item1 & <- & Hin).
  apply in_map_iff in Hin as (item0 & <- & Hin).
  apply valid_item_validate. rewrite valid_item_cast, valid_item_denormalize. by apply Hvalid.
Qed.

Lemma Order_save_eq (isModified : bool) (doc : OrderDoc) (w : World) :
  Order_save isModified doc w
  = if Order_validate doc.2
    then (Return (doc.1, stamped w isModified doc.2),
          mkWorld (menu w)
            (if isModified then <[doc.1 := set_updatedAt (now w) doc.2]> (orders w)
             else orders w)
            (now w) (oplog w ++ [OpOrderSave doc.1]))
    else (Throw ValidationError, logged (OpOrderSave doc.1) w).
Proof.
  unfold Order_save, bind, log, stamped, logged. cbn [fst snd menu orders now oplog].
  destruct (Order_validate doc.2); cbn [negb]; [|done].
  destruct isModified; [done|]. by destruct doc.
Qed.

(** The status is one of the [enum] by its type: it plays no part in the
    rest of the validation. *)
Lemma Order_validate_set_status (st : Status) (o : Order.t) :
  Order_validate (set_status st o) = Order_validate o.
Proof. reflexivity. Qed.

Lemma Order_validate_set_updatedAt (t : Z) (o : Order.t) :
  Order_validate (set_updatedAt t o) = Order_validate o.
Proof. reflexivity. Qed.

Lemma Order_validate_stamped (w : World) (isModified : bool) (o : Order.t) :
  Order_validate (stamped w isModified o) = Order_validate o.
Proof. unfold stamped. by destruct isModified. Qed.

(** ** Creating an order *)

(** A new order of valid lines passes the schema's validation exactly when
    its total is a Number. *)
Lemma Order_validate_created (user : User.t) (tn : float) (items : list Order.Item)
    (w : World) :
  truthy_num tn = true →
  forallb valid_item items = true →
  Order_validate (created user tn items w).2
  = Number_ok (sum_lines (menu w) (User.vendorId user) items 0).
Proof.
  intros Htn Hvalid. unfold Order_validate, created. cbn [snd Order.tableNumber
    Order.items Order.totalAmount].
  by rewrite (truthy_num_ok tn Htn), valid_items_validate.
Qed.

(** What [createOrder] does with a request that passes its validation and
    whose lines name distinct items of the caller's catalog: the order is
    stored and answered 201, unless its total is [NaN], which the schema
    refuses. *)
Lemma createOrder_priced (user : User.t) (tn : float) (items : list Order.Item)
    (w : World) :
  truthy_num tn = true →
  items ≠ [] →
  forallb valid_item items = true →
  distinct_in_catalog (menu w) (User.vendorId user) items →
  createOrder user (mkCreateBody (Some tn) (Some items)) w
  = if Number_ok (sum_lines (menu w) (User.vendorId user) items 0)
    then (Res 201 (BOrder (created user tn items w)), with_created user tn items w)
    else (Res 500 (BText "Server error during order creation"),
          logged (OpOrderSave (created user tn items w).1)
            (logged (OpMenuItemFind (map Order.menuItemId items) (User.vendorId user)) w)).
Proof.
  intros Htn Hne Hvalid Hdr.
  rewrite <- (Order_validate_created user tn items w Htn Hvalid).
  unfold createOrder. cbn [cb_tableNumber cb_items]. rewrite Htn, Hvalid.
  destruct items as [|item items']; [done|]. cbn [negb orb length Nat.eqb].
  unfold bind at 1. rewrite (calculateTotalAmount_ok _ _ _ Hdr).
  set (w1 := logged _ w).
  assert (Order_new tn (map (denormalize (menu w) (User.vendorId user)) (item :: items'))
            (User.id user) (User.vendorId user)
            (sum_lines (menu w) (User.vendorId user) (item :: items') 0) Kitchen w1
          = (created user tn (item :: items') w, w1)) as Hnew by reflexivity.
  unfold bind. rewrite Hnew, Order_save_eq.
  destruct (Order_validate (created user tn (item :: items') w).2); [|done].
  unfold with_created, created, stamped, ret, w1, logged. cbn. by rewrite <- app_assoc.
Qed.

Lemma createOrder_created (user : User.t) (tn : float) (items : list Order.Item)
    (w : World) :
  truthy_num tn = true →
  items ≠ [] →
  forallb valid_item items = true →
  distinct_in_catalog (menu w) (User.vendorId user) items →
  Number_ok (sum_lines (menu w) (User.vendorId user) items 0) = true →
  createOrder user (mkCreateBody (Some tn) (Some items)) w
  = (Res 201 (BOrder (created user tn items w)), with_created user tn items w).
Proof. intros Htn Hne Hvalid Hdr Hok. by rewrite createOrder_priced, Hok. Qed.

(** The order a new id is given to was not there. *)
Lemma created_is_new (user : User.t) (tn : float) (items : list Order.Item) (w : World) :
  orders w !! (created user tn items w).1 = None.
Proof. apply not_elem_of_dom, is_fresh. Qed.

(** For a request that passes validation and whose lines are distinct items
    of the caller's catalog with a total that is a Number, [createOrder]
    stores one new order with status [Kitchen], the caller as [server], the
    caller's vendor, the lines with the names the loop wrote and the sum of
    the lines, and answers 201 with it. *)
Lemma createOrder_distinct_items_created (user : User.t) (tn : float)
    (items : list Order.Item) (w : World) :
  truthy_num tn = true →
  items ≠ [] →
  forallb valid_item items = true →
  distinct_in_catalog (menu w) (User.vendorId user) items →
  Number_ok (sum_lines (menu w) (User.vendorId user) items 0) = true →
  ∃ (id : ObjectId) (o : Order.t) (w' : World),
    createOrder user (mkCreateBody (Some tn) (Some items)) w
      = (Res 201 (BOrder (id, o)), w')
    ∧ orders w !! id = None
    ∧ orders w' = <[id := o]> (orders w)
    ∧ Order.status o = Kitchen
    ∧ Order.server o = Some (User.id user)
    ∧ Order.vendorId o = User.vendorId user
    ∧ Order.tableNumber o = tn
    ∧ Order.items o
      = map Order.cast (map (denormalize (menu w) (User.vendorId user)) items)
    ∧ Order.totalAmount o = sum_lines (menu w) (User.vendorId user) items 0.
Proof.
  intros Htn Hne Hvalid Hdr Hok.
  exists (created user tn items w).1, (created user tn items w).2,
    (with_created user tn items w).
  split; [by apply createOrder_created|].
  split_and!; try reflexivity. apply created_is_new.
Qed.

(** The first example of the specification: two dosas at 100 for table 5
    give an order in the kitchen with total 200; a tea at 50 added to it
    gives total 250, still in the kitchen. *)
Example create_then_add :
  ∃ id o w' o',
    createOrder server1 (mkCreateBody (Some 5%float) (Some [line itemA 2 5])) world1
      = (Res 201 (BOrder (id, o)), w')
    ∧ Order.status o = Kitchen ∧ Order.totalAmount o = 200%float
    ∧ orders (VendorStaffController.addItemsToOrder server1 id (Some [line itemB 1 5]) w').2
        !! id = Some o'
    ∧ Order.status o' = Kitchen ∧ Order.totalAmount o' = 250%float.
Proof.
  eexists _, _, _, _. split; [vm_compute; reflexivity|].
  split_and!; vm_compute; reflexivity.
Qed.

(** The second example of the specification: the kitchen marks an order in
    the kitchen as ready; a server may not set it to billed. *)
Example ready_then_forbidden :
  ∃ o w',
    VendorStaffController.updateStatus kitchen1 ord1 (Some "Ready") (world_with Kitchen)
      = (Return (status_updated "Ready" (ord1, o)), w')
    ∧ Order.status o = Ready
    ∧ (VendorStaffController.updateStatus server1 ord1 (Some "Billed") w').1
      = Return (Res 400 (BMsg ("Invalid status or role (Server) " +:+
                               "not authorized to set status to Billed."))).
Proof.
  eexists _, _. split; [vm_compute; reflexivity|].
  split; vm_compute; reflexivity.
Qed.

(** C1 (the code at an input the claim covers).  A request with a valid
    table number and two valid lines that both name the catalog item
    [itemA] of the caller's vendor: every line is valid and resolves, and
    yet [createOrder] answers 400 "One or more menu items are invalid or
    unavailable." and stores no order. *)
Theorem createOrder_rejects_repeated_item :
  let items := [line itemA 2 5; line itemA 1 5] in
  let body := mkCreateBody (Some 5%float) (Some items) in
  truthy_num 5 = true
  ∧ forallb valid_item items = true
  ∧ Forall (λ item, is_Some (resolve (menu world1) (User.vendorId server1) item)) items
  ∧ (createOrder server1 body world1).1 = Res 400 (BMsg invalid_items_message)
  ∧ orders (createOrder server1 body world1).2 = orders world1.
Proof.
  split_and!; try (vm_compute; reflexivity).
  repeat constructor; eexists; vm_compute; reflexivity.
Qed.

(** ** Failure of price resolution *)

(** Price resolution throws exactly when the catalog query returns a number
    of documents other than the number of lines of the batch; the error is
    the "invalid or unavailable" one and no line has been touched. *)
Lemma calculateTotalAmount_throws_iff (items : list Order.Item) (vendorId : ObjectId)
    (w : World) :
  ((calculateTotalAmount items vendorId w).1.2 = Throw (mkError invalid_items_message None)
   ∧ (calculateTotalAmount items vendorId w).1.1 = items)
  ↔ distinct_found (menu w) vendorId items ≠ length items.
Proof.
  destruct (decide (distinct_found (menu w) vendorId items = length items)) as [Heq|Hne].
  - rewrite calculateTotalAmount_ok by (by apply distinct_in_catalog_iff).
    simpl. split; [intros [[=] _]|done].
  - rewrite calculateTotalAmount_throw by (by rewrite distinct_in_catalog_iff).
    simpl. split; done.
Qed.

(** Both callers answer 400 with the thrown message itself. *)
Lemma createOrder_propagates_invalid_items (user : User.t) (tn : float)
    (items : list Order.Item) (w : World) :
  truthy_num tn = true →
  items ≠ [] →
  forallb valid_item items = true →
  distinct_found (menu w) (User.vendorId user) items ≠ length items →
  createOrder user (mkCreateBody (Some tn) (Some items)) w
  = (Res 400 (BMsg invalid_items_message),
     logged (OpMenuItemFind (map Order.menuItemId items) (User.vendorId user)) w).
Proof.
  intros Htn Hne Hvalid Hcount.
  unfold createOrder. cbn [cb_tableNumber cb_items]. rewrite Htn, Hvalid.
  destruct items as [|item items']; [done|]. cbn [negb orb length Nat.eqb].
  unfold bind at 1.
  rewrite calculateTotalAmount_throw by (by rewrite distinct_in_catalog_iff).
  reflexivity.
Qed.

(** A valid request in which two lines name the same menu item is refused
    as if an item were invalid or unavailable. *)
Lemma createOrder_repeated_item_rejected (user : User.t) (tn : float)
    (items : list Order.Item) (w : World) :
  truthy_num tn = true →
  forallb valid_item items = true →
  ¬ NoDup (map Order.menuItemId items) →
  createOrder user (mkCreateBody (Some tn) (Some items)) w
  = (Res 400 (BMsg invalid_items_message),
     logged (OpMenuItemFind (map Order.menuItemId items) (User.vendorId user)) w).
Proof.
  intros Htn Hvalid Hdup. apply createOrder_propagates_invalid_items; try done.
  - intros ->. apply Hdup. constructor.
  - intros [Hnd _]%distinct_in_catalog_iff. apply Hdup.
    unfold cast_ids, cast_all in Hnd. by apply (NoDup_fmap_1 (fmap canonical)) in Hnd.
Qed.

(** C7 (the code at an input the claim covers).  For the batch of two lines
    that both name the catalog item [itemA], the number of distinct catalog
    items found (one) equals the number of distinct ids requested (one), and
    [calculateTotalAmount] throws "One or more menu items are invalid or
    unavailable." all the same: the code compares the number of documents
    found with the number of lines, not with the number of distinct ids. *)
Theorem calculateTotalAmount_rejects_repeated_item :
  let items := [line itemA 2 5; line itemA 1 5] in
  distinct_found (menu world1) shop1 items = 1
  ∧ distinct_requested items = 1
  ∧ (calculateTotalAmount items shop1 world1).1
    = (items, Throw (mkError invalid_items_message None)).
Proof. split_and!; vm_compute; reflexivity. Qed.

(** ** Looking an order up *)

Lemma Order_findOne_eq (_id : string) (vendorId : ObjectId) (w : World) :
  Order_findOne _id vendorId w
  = (find_in_scope w _id vendorId, logged (OpOrderFindOne (canonical _id) vendorId) w).
Proof. reflexivity. Qed.

Lemma find_in_scope_Some (w : World) (_id : string) (vendorId : ObjectId) (o : Order.t) :
  orders w !! canonical _id = Some o → Order.vendorId o = vendorId →
  find_in_scope w _id vendorId = Some (canonical _id, o).
Proof.
  intros Ho Hv. unfold find_in_scope. rewrite Ho, Hv.
  by rewrite String.eqb_refl.
Qed.

Lemma find_in_scope_other_vendor (w : World) (_id : string) (vendorId : ObjectId)
    (o : Order.t) :
  orders w !! canonical _id = Some o → Order.vendorId o ≠ vendorId →
  find_in_scope w _id vendorId = None.
Proof.
  intros Ho Hv. unfold find_in_scope. rewrite Ho.
  by apply String.eqb_neq in Hv as ->.
Qed.

Lemma find_in_scope_absent (w : World) (_id : string) (vendorId : ObjectId) :
  orders w !! canonical _id = None → find_in_scope w _id vendorId = None.
Proof. intros Ho. unfold find_in_scope. by rewrite Ho. Qed.

Lemma find_in_scope_logged (op : DbOp) (w : World) (_id : string) (vendorId : ObjectId) :
  find_in_scope (logged op w) _id vendorId = find_in_scope w _id vendorId.
Proof. reflexivity. Qed.

Lemma find_in_scope_inv (w : World) (_id : string) (vendorId : ObjectId) (doc : OrderDoc) :
  find_in_scope w _id vendorId = Some doc →
  doc.1 = canonical _id ∧ orders w !! canonical _id = Some doc.2
  ∧ Order.vendorId doc.2 = vendorId.
Proof.
  unfold find_in_scope. destruct (orders w !! canonical _id) as [o|]; [|done].
  destruct (String.eqb_spec (Order.vendorId o) vendorId); [|done].
  by intros [= <-].
Qed.

(** ** Saving a document *)

Lemma status_of_string_name (st : Status) : status_of_string (status_name st) = Some st.
Proof. by destruct st. Qed.

(** [order.status = newStatus; await order.save()] for a status of the
    [enum], after the order has been found. *)
Lemma assign_status_and_save_found (_id vendorId : ObjectId) (o : Order.t) (st : Status)
    (w : World) :
  assign_status_and_save (_id, o) (status_name st) (logged (OpOrderFindOne _id vendorId) w)
  = if Order_validate o
    then (Return (_id, stamped w (negb (status_eqb (Order.status o) st)) (set_status st o)),
          saved _id vendorId (negb (status_eqb (Order.status o) st)) (set_status st o) w)
    else (Throw ValidationError,
          logged (OpOrderSave _id) (logged (OpOrderFindOne _id vendorId) w)).
Proof.
  unfold assign_status_and_save. rewrite status_of_string_name. cbv zeta.
  rewrite Order_save_eq. cbn [fst snd]. rewrite Order_validate_set_status.
  destruct (Order_validate o); [|done].
  unfold saved, stamped, logged. cbn.
  destruct (negb (status_eqb (Order.status o) st)); by rewrite <- app_assoc.
Qed.

(** ** The authorization matrix *)

Lemma array_includes_true (arr : list string) (s : string) :
  array_includes arr s = true ↔ s ∈ arr.
Proof.
  unfold array_includes. rewrite existsb_exists. split.
  - intros (x & Hin & Heq%String.eqb_eq). subst. by apply list_elem_of_In.
  - intros Hin. exists s. split; [by apply list_elem_of_In|apply String.eqb_refl].
Qed.


Lemma transition_guard_vendor (st : Status) :
  transition_guard "Vendor" (Some (status_name st)) = Authorized (status_name st).
Proof. by destruct st. Qed.

(** What an authorized request asks for: a status of the role's row. *)
Lemma transition_guard_authorized (userRole : string) (newStatus : option string)
    (s : string) :
  transition_guard userRole newStatus = Authorized s →
  newStatus = Some s ∧ s ∈ allowedSet userRole.
Proof.
  unfold transition_guard, allowedSet, get_property.
  destruct newStatus as [s'|]; [|done].
  destruct (truthy_str s'); [|done]. cbn [negb].
  destruct (own_property allowedTransitions userRole) as [allowed|]; cbn [default].
  - destruct (array_includes allowed s') eqn:Hinc; [|done].
    intros [= <-]. split; [done|]. by apply array_includes_true.
  - by destruct (existsb _ _).
Qed.

(** ** Status transitions *)

Lemma status_eqb_eq (a b : Status) : status_eqb a b = true ↔ a = b.
Proof. by destruct a, b. Qed.

(** In the later revision, an order that is [Completed] is closed to every
    role but [Vendor]. *)
Lemma VendorStaffController_updateStatus_staff_blocked (user : User.t) (_id : string)
    (newStatus : option string) (s : string) (w : World) (o : Order.t) :
  User.role user ≠ "Vendor" →
  transition_guard (User.role user) newStatus = Authorized s →
  orders w !! canonical _id = Some o → Order.vendorId o = User.vendorId user →
  Order.status o = Completed →
  VendorStaffController.updateStatus user _id newStatus w
  = (Return (already_final "Cannot change status of an already " Completed),
     logged (OpOrderFindOne (canonical _id) (User.vendorId user)) w).
Proof.
  intros Hrole Hguard Ho Hv Hst.
  unfold VendorStaffController.updateStatus. cbv zeta. rewrite Hguard.
  unfold bind at 1. rewrite Order_findOne_eq, (find_in_scope_Some _ _ _ o) by done.
  cbn [snd]. rewrite Hst. apply String.eqb_neq in Hrole as ->. reflexivity.
Qed.

(** In the later revision, a request that passes the matrix and finds its
    order saves it with the status set, unless the order is [Completed] and
    the caller is not the [Vendor]; a document that the schema refuses is
    answered 500 and not written. *)
Lemma VendorStaffController_updateStatus_saves (user : User.t) (_id : string)
    (newStatus : option string) (st : Status) (w : World) (o : Order.t) :
  transition_guard (User.role user) newStatus = Authorized (status_name st) →
  orders w !! canonical _id = Some o → Order.vendorId o = User.vendorId user →
  Order.status o ≠ Completed ∨ User.role user = "Vendor" →
  VendorStaffController.updateStatus user _id newStatus w
  = if Order_validate o
    then (Return (status_updated (status_name st)
                    (canonical _id,
                     stamped w (negb (status_eqb (Order.status o) st)) (set_status st o))),
          saved (canonical _id) (User.vendorId user)
                (negb (status_eqb (Order.status o) st)) (set_status st o) w)
    else (Return (Res 500 (BText "Server error during status update")),
          logged (OpOrderSave (canonical _id))
            (logged (OpOrderFindOne (canonical _id) (User.vendorId user)) w)).
Proof.
  intros Hguard Ho Hv Hopen.
  unfold VendorStaffController.updateStatus. cbv zeta. rewrite Hguard.
  unfold bind at 1. rewrite Order_findOne_eq, (find_in_scope_Some _ _ _ o) by done.
  cbn [snd].
  assert (status_eqb (Order.status o) Completed && negb (String.eqb (User.role user) "Vendor")
          = false) as ->.
  { destruct Hopen as [Hst| ->]; [by destruct (Order.status o)|].
    by rewrite andb_false_r. }
  unfold bind. rewrite assign_status_and_save_found.
  by destruct (Order_validate o).
Qed.

Lemma VendorStaffController_updateStatus_sets (user : User.t) (_id : string)
    (newStatus : option string) (st : Status) (w : World) (o : Order.t) :
  transition_guard (User.role user) newStatus = Authorized (status_name st) →
  orders w !! canonical _id = Some o → Order.vendorId o = User.vendorId user →
  Order.status o ≠ Completed ∨ User.role user = "Vendor" →
  Order_validate o = true →
  VendorStaffController.updateStatus user _id newStatus w
  = (Return (status_updated (status_name st)
               (canonical _id,
                stamped w (negb (status_eqb (Order.status o) st)) (set_status st o))),
     saved (canonical _id) (User.vendorId user) (negb (status_eqb (Order.status o) st))
           (set_status st o) w).
Proof.
  intros Hguard Ho Hv Hopen Hok.
  by rewrite (VendorStaffController_updateStatus_saves _ _ _ st _ o), Hok.
Qed.

(** In [orderController.js], an order that is [Completed] or [Billed] is
    closed to every role, the [Vendor] included. *)
Lemma OrderController_updateStatus_final_blocked (user : User.t) (_id : string)
    (newStatus : option string) (s : string) (w : World) (o : Order.t) :
  transition_guard (User.role user) newStatus = Authorized s →
  orders w !! canonical _id = Some o → Order.vendorId o = User.vendorId user →
  Order.status o = Completed ∨ Order.status o = Billed →
  OrderController.updateStatus user _id newStatus w
  = (Return (already_final "Cannot change status of an already " (Order.status o)),
     logged (OpOrderFindOne (canonical _id) (User.vendorId user)) w).
Proof.
  intros Hguard Ho Hv Hst.
  unfold OrderController.updateStatus. cbv zeta. rewrite Hguard.
  unfold bind at 1. rewrite Order_findOne_eq, (find_in_scope_Some _ _ _ o) by done.
  cbn [snd]. by destruct Hst as [-> | ->].
Qed.

(** In the later revision the whole of the claim on [Completed] orders
    holds: on a [Completed] order of the caller's shop (a document of the
    schema) a request that passes the matrix is refused to every role but
    [Vendor] and leaves the store as it was, and the [Vendor] may set any of
    the six statuses. *)
Lemma VendorStaffController_updateStatus_completed (user : User.t) (_id : string)
    (w : World) (o : Order.t) :
  orders w !! canonical _id = Some o → Order.vendorId o = User.vendorId user →
  Order.status o = Completed →
  Order_validate o = true →
  (∀ newStatus s,
     User.role user ≠ "Vendor" →
     transition_guard (User.role user) newStatus = Authorized s →
     (VendorStaffController.updateStatus user _id newStatus w).1
     = Return (already_final "Cannot change status of an already " Completed)
     ∧ orders (VendorStaffController.updateStatus user _id newStatus w).2 = orders w)
  ∧ (∀ st,
       User.role user = "Vendor" →
       ∃ o',
         (VendorStaffController.updateStatus user _id (Some (status_name st)) w).1
         = Return (status_updated (status_name st) (canonical _id, o'))
         ∧ orders (VendorStaffController.updateStatus user _id (Some (status_name st)) w).2
           !! canonical _id = Some o'
         ∧ Order.status o' = st).
Proof.
  intros Ho Hv Hst Hok. split.
  - intros newStatus s Hrole Hguard.
    by rewrite (VendorStaffController_updateStatus_staff_blocked _ _ _ s _ o).
  - intros st Hrole. eexists.
    rewrite (VendorStaffController_updateStatus_sets _ _ _ st _ o); try done.
    + split_and!; [reflexivity| |].
      * unfold stamped. cbn. rewrite Hst.
        destruct (negb (status_eqb Completed st)) eqn:Hmod.
        -- by rewrite lookup_insert_eq.
        -- rewrite Ho. f_equal. apply negb_false_iff, status_eqb_eq in Hmod.
           subst st. destruct o. cbn in *. by subst.
      * unfold stamped. by destruct (negb _).
    + rewrite Hrole. apply transition_guard_vendor.
    + by right.
Qed.

(** C2 (the code at an input the claim covers).  The [Vendor] of [shop1]
    asks to set the [Completed] order [ord1] of the shop to a status: for
    each of the six statuses, [updateStatus] of [orderController.js]
    answers 400 "Cannot change status of an already Completed order." and
    leaves the order as it was, where the later revision sets the status. *)
Theorem OrderController_updateStatus_blocks_vendor :
  find_in_scope (world_with Completed) ord1 (User.vendorId vendor1)
    = Some (ord1, order1 Completed)
  ∧ ∀ st : Status,
      (OrderController.updateStatus vendor1 ord1 (Some (status_name st))
         (world_with Completed)).1
      = Return (Res 400 (BMsg "Cannot change status of an already Completed order."))
      ∧ orders (OrderController.updateStatus vendor1 ord1 (Some (status_name st))
                  (world_with Completed)).2
        = orders (world_with Completed)
      ∧ ∃ o', (VendorStaffController.updateStatus vendor1 ord1 (Some (status_name st))
                 (world_with Completed)).1
              = Return (status_updated (status_name st) (ord1, o'))
              ∧ Order.status o' = st.
Proof.
  split; [vm_compute; reflexivity|].
  intros st. destruct st; split_and!; try (vm_compute; reflexivity);
    eexists; split; vm_compute; reflexivity.
Qed.

(** The rows of the matrix, and the empty row of every other role. *)
Lemma allowedSet_matrix :
  allowedSet "Kitchen" = ["Ready"]
  ∧ allowedSet "Server" = ["Served"]
  ∧ allowedSet "Billing" = ["Billed"; "Completed"]
  ∧ allowedSet "Vendor" = map status_name all_statuses
  ∧ ∀ role, role ∉ ["Kitchen"; "Server"; "Billing"; "Vendor"] → allowedSet role = [].
Proof.
  split_and!; try reflexivity.
  intros role Hrole. rewrite !not_elem_of_cons in Hrole.
  destruct Hrole as (H1 & H2 & H3 & H4 & _).
  unfold allowedSet, allowedTransitions, own_property.
  apply not_eq_sym, String.eqb_neq in H1 as ->.
  apply not_eq_sym, String.eqb_neq in H2 as ->.
  apply not_eq_sym, String.eqb_neq in H3 as ->.
  apply not_eq_sym, String.eqb_neq in H4 as ->.
  reflexivity.
Qed.

(** The four roles of the User schema are not names of members of
    [Object.prototype]. *)
Lemma schema_roles_not_inherited (role : string) :
  role ∈ ["Vendor"; "Server"; "Kitchen"; "Billing"] → role ∉ Object_prototype_names.
Proof.
  rewrite !elem_of_cons, elem_of_nil.
  intros [-> | [-> | [-> | [-> | []]]]];
    by intros Hin%(array_includes_true Object_prototype_names).
Qed.




(** ** Tenant scope *)

Lemma getOrderById_not_in_scope (user : User.t) (_id : string) (w : World) :
  find_in_scope w _id (User.vendorId user) = None →
  getOrderById user _id w
  = (not_found_for_shop, logged (OpOrderFindOne (canonical _id) (User.vendorId user)) w).
Proof.
  intros Hnone. unfold getOrderById. cbv zeta. unfold bind.
  by rewrite Order_findOne_eq, Hnone.
Qed.

Lemma updateStatus_not_in_scope (user : User.t) (_id : string)
    (newStatus : option string) (w : World) :
  find_in_scope w _id (User.vendorId user) = None →
  ((OrderController.updateStatus user _id newStatus w).1
     = updateStatus_out_of_scope user newStatus
   ∧ orders (OrderController.updateStatus user _id newStatus w).2 = orders w)
  ∧ ((VendorStaffController.updateStatus user _id newStatus w).1
       = updateStatus_out_of_scope user newStatus
     ∧ orders (VendorStaffController.updateStatus user _id newStatus w).2 = orders w).
Proof.
  intros Hnone.
  unfold OrderController.updateStatus, VendorStaffController.updateStatus,
    updateStatus_out_of_scope. cbv zeta.
  destruct (transition_guard (User.role user) newStatus); try done.
  unfold bind. by rewrite Order_findOne_eq, Hnone.
Qed.

Lemma addItemsToOrder_not_in_scope (user : User.t) (_id : string)
    (newItems : option (list Order.Item)) (w : World) :
  find_in_scope w _id (User.vendorId user) = None →
  (VendorStaffController.addItemsToOrder user _id newItems w).1
    = addItemsToOrder_out_of_scope newItems
  ∧ orders (VendorStaffController.addItemsToOrder user _id newItems w).2 = orders w.
Proof.
  intros Hnone.
  unfold VendorStaffController.addItemsToOrder, addItemsToOrder_out_of_scope. cbv zeta.
  destruct newItems as [newItems|]; [|done].
  destruct (length newItems =? 0)%nat; [done|].
  destruct (forallb valid_item newItems); [|done]. cbn [negb].
  unfold bind. by rewrite Order_findOne_eq, Hnone.
Qed.

(** C6.  When the requested id names (in whatever spelling of its
    hexadecimal digits) an order of another vendor, each of
    the three lookups (get-by-id, status transition in both revisions,
    add-items) gives the response it gives in a world where no order has
    that id, and leaves the orders as they were; get-by-id answers 404
    "Order not found for this shop.", and so do a status transition that
    passes the matrix and an add-items request that passes validation. *)
Theorem cross_tenant_lookup_is_not_found (user : User.t) (_id : string)
    (o : Order.t) (w1 w2 : World) :
  orders w1 !! canonical _id = Some o →
  Order.vendorId o ≠ User.vendorId user →
  orders w2 !! canonical _id = None →
  ((getOrderById user _id w1).1 = not_found_for_shop
   ∧ (getOrderById user _id w1).1 = (getOrderById user _id w2).1
   ∧ orders (getOrderById user _id w1).2 = orders w1)
  ∧ (∀ newStatus,
       ((OrderController.updateStatus user _id newStatus w1).1
          = (OrderController.updateStatus user _id newStatus w2).1
        ∧ orders (OrderController.updateStatus user _id newStatus w1).2 = orders w1)
       ∧ ((VendorStaffController.updateStatus user _id newStatus w1).1
            = (VendorStaffController.updateStatus user _id newStatus w2).1
          ∧ orders (VendorStaffController.updateStatus user _id newStatus w1).2 = orders w1)
       ∧ ∀ s, transition_guard (User.role user) newStatus = Authorized s →
              (OrderController.updateStatus user _id newStatus w1).1
                = Return not_found_for_shop
              ∧ (VendorStaffController.updateStatus user _id newStatus w1).1
                = Return not_found_for_shop)
  ∧ (∀ newItems,
       (VendorStaffController.addItemsToOrder user _id newItems w1).1
         = (VendorStaffController.addItemsToOrder user _id newItems w2).1
       ∧ orders (VendorStaffController.addItemsToOrder user _id newItems w1).2 = orders w1
       ∧ ∀ items, newItems = Some items → items ≠ [] →
                  forallb valid_item items = true →
                  (VendorStaffController.addItemsToOrder user _id newItems w1).1
                    = not_found_for_shop).
Proof.
  intros Ho Hv Hnone.
  pose proof (find_in_scope_other_vendor _ _ _ _ Ho Hv) as H1.
  pose proof (find_in_scope_absent _ _ (User.vendorId user) Hnone) as H2.
  split_and!.
  - by rewrite getOrderById_not_in_scope.
  - by rewrite !getOrderById_not_in_scope.
  - by rewrite getOrderById_not_in_scope.
  - intros newStatus.
    destruct (updateStatus_not_in_scope user _id newStatus w1 H1)
      as [[Ha1 Ha2] [Hb1 Hb2]].
    destruct (updateStatus_not_in_scope user _id newStatus w2 H2)
      as [[Hc1 _] [Hd1 _]].
    split_and!; try congruence.
    intros s Hguard. rewrite Ha1, Hb1. unfold updateStatus_out_of_scope.
    by rewrite Hguard.
  - intros newItems.
    destruct (addItemsToOrder_not_in_scope user _id newItems w1 H1) as [Ha1 Ha2].
    destruct (addItemsToOrder_not_in_scope user _id newItems w2 H2) as [Hb1 _].
    split_and!; try congruence.
    intros items -> Hne Hvalid. rewrite Ha1. unfold addItemsToOrder_out_of_scope.
    rewrite Hvalid. by destruct items.
Qed.

(** The order [ord1] of [shop1], asked for by a server of [shop2]. *)
Lemma cross_tenant_lookup_is_not_found_witness :
  (getOrderById server2 ord1 (world_with Ready)).1 = not_found_for_shop
  ∧ (VendorStaffController.addItemsToOrder server2 ord1 (Some [line itemC 1 5])
       (world_with Ready)).1
    = (VendorStaffController.addItemsToOrder server2 ord1 (Some [line itemC 1 5]) world1).1.
Proof.
  destruct (cross_tenant_lookup_is_not_found server2 ord1 (order1 Ready)
              (world_with Ready) world1) as [Hget [_ Hadd]].
  - reflexivity.
  - discriminate.
  - reflexivity.
  - split; [apply Hget|]. apply (Hadd (Some [line itemC 1 5])).
Defined.

(** ** Adding items to an order *)

Section AddItems.
Context (user : User.t) (_id : string) (items : list Order.Item)
        (w : World) (o : Order.t).
Hypothesis nonempty : items ≠ [].
Hypothesis valid : forallb valid_item items = true.
Hypothesis stored : orders w !! canonical _id = Some o.
Hypothesis in_scope : Order.vendorId o = User.vendorId user.

Lemma addItemsToOrder_after_lookup :
  VendorStaffController.addItemsToOrder user _id (Some items) w
  = if status_eqb (Order.status o) Completed || status_eqb (Order.status o) Billed
    then (already_final "Cannot add items to an already " (Order.status o),
          logged (OpOrderFindOne (canonical _id) (User.vendorId user)) w)
    else bind (calculateTotalAmount items (User.vendorId user))
           (λ r, match r with
                 | (newItems', Return newItemsTotal) =>
                     bind (Order_save true
                             (canonical _id,
                              VendorStaffController.append_items newItems' newItemsTotal o))
                          (λ saved,
                             match saved with
                             | Return saved =>
                                 ret (VendorStaffController.items_added
                                        (length newItems') saved)
                             | Throw err =>
                                 ret (VendorStaffController.addItemsToOrder_catch err)
                             end)
                 | (_, Throw err) =>
                     ret (VendorStaffController.addItemsToOrder_catch err)
                 end)
           (logged (OpOrderFindOne (canonical _id) (User.vendorId user)) w).
Proof.
  unfold VendorStaffController.addItemsToOrder. cbv zeta.
  destruct items as [|item items']; [done|]. cbn [length Nat.eqb].
  rewrite valid. cbn [negb].
  unfold bind at 1. rewrite Order_findOne_eq, (find_in_scope_Some _ _ _ o) by done.
  cbn [fst snd].
  by destruct (status_eqb (Order.status o) Completed || status_eqb (Order.status o) Billed).
Qed.

Lemma addItemsToOrder_final :
  Order.status o = Billed ∨ Order.status o = Completed →
  VendorStaffController.addItemsToOrder user _id (Some items) w
  = (already_final "Cannot add items to an already " (Order.status o),
     logged (OpOrderFindOne (canonical _id) (User.vendorId user)) w).
Proof.
  intros Hst. rewrite addItemsToOrder_after_lookup.
  by destruct Hst as [-> | ->].
Qed.

(** The order with the new lines passes the schema's validation exactly when
    the stored order does and the new total is a Number. *)
Lemma Order_validate_with_added :
  Order_validate (with_added w items o)
  = Number_ok (Order.tableNumber o) && forallb Item_validate (Order.items o)
    && Number_ok (Order.totalAmount o
                  + sum_lines (menu w) (Order.vendorId o) items 0)%float.
Proof.
  unfold Order_validate, with_added. cbn.
  by rewrite forallb_app, valid_items_validate, andb_true_r.
Qed.

(** What the handler does with lines that name distinct items of the
    caller's catalog, on an order that is open: the order is saved with the
    lines and answered 200, unless the schema refuses it. *)
Lemma addItemsToOrder_priced :
  Order.status o ≠ Billed → Order.status o ≠ Completed →
  distinct_in_catalog (menu w) (User.vendorId user) items →
  VendorStaffController.addItemsToOrder user _id (Some items) w
  = if Order_validate (with_added w items o)
    then (VendorStaffController.items_added (length items)
            (canonical _id, with_added w items o),
          added (canonical _id) items o w)
    else (Res 500 (BText "Server error during add-on operation"),
          logged (OpOrderSave (canonical _id))
            (logged (OpMenuItemFind (map Order.menuItemId items) (User.vendorId user))
               (logged (OpOrderFindOne (canonical _id) (User.vendorId user)) w))).
Proof.
  intros Hb Hc Hdr. rewrite addItemsToOrder_after_lookup.
  assert (status_eqb (Order.status o) Completed || status_eqb (Order.status o) Billed
          = false) as -> by (by destruct (Order.status o)).
  unfold bind at 1. rewrite calculateTotalAmount_ok by done.
  unfold bind. rewrite Order_save_eq. cbn [fst snd].
  unfold with_added. rewrite Order_validate_set_updatedAt, in_scope.
  destruct (Order_validate _); [|done].
  unfold added, with_added, stamped, ret, logged. cbn.
  rewrite in_scope, length_map, <- !app_assoc. reflexivity.
Qed.

Lemma addItemsToOrder_adds :
  Order.status o ≠ Billed → Order.status o ≠ Completed →
  distinct_in_catalog (menu w) (User.vendorId user) items →
  Order_validate (with_added w items o) = true →
  VendorStaffController.addItemsToOrder user _id (Some items) w
  = (VendorStaffController.items_added (length items) (canonical _id, with_added w items o),
     added (canonical _id) items o w).
Proof. intros Hb Hc Hdr Hok. by rewrite addItemsToOrder_priced, Hok. Qed.

Lemma addItemsToOrder_invalid_reference :
  Order.status o ≠ Billed → Order.status o ≠ Completed →
  ¬ distinct_in_catalog (menu w) (User.vendorId user) items →
  VendorStaffController.addItemsToOrder user _id (Some items) w
  = (Res 400 (BMsg invalid_items_message),
     logged (OpMenuItemFind (map Order.menuItemId items) (User.vendorId user))
       (logged (OpOrderFindOne (canonical _id) (User.vendorId user)) w)).
Proof.
  intros Hb Hc Hdr. rewrite addItemsToOrder_after_lookup.
  assert (status_eqb (Order.status o) Completed || status_eqb (Order.status o) Billed
          = false) as -> by (by destruct (Order.status o)).
  unfold bind at 1. by rewrite calculateTotalAmount_throw.
Qed.

End AddItems.

(** A 200 answer of add-items comes from one path only. *)
Lemma addItemsToOrder_success_inv (user : User.t) (_id : string)
    (newItems : option (list Order.Item)) (w : World) :
  code (VendorStaffController.addItemsToOrder user _id newItems w).1 = 200 →
  ∃ items o,
    newItems = Some items
    ∧ orders w !! canonical _id = Some o
    ∧ Order.vendorId o = User.vendorId user
    ∧ distinct_in_catalog (menu w) (User.vendorId user) items
    ∧ VendorStaffController.addItemsToOrder user _id newItems w
      = (VendorStaffController.items_added (length items)
           (canonical _id, with_added w items o),
         added (canonical _id) items o w).
Proof.
  intros Hcode.
  destruct newItems as [items|]; [|done].
  destruct (decide (items = [])) as [->|Hne]; [done|].
  destruct (forallb valid_item items) eqn:Hvalid.
  2: { unfold VendorStaffController.addItemsToOrder in Hcode. cbv zeta in Hcode.
       rewrite Hvalid in Hcode. by destruct items. }
  destruct (find_in_scope w _id (User.vendorId user)) as [doc|] eqn:Hfind.
  2: { destruct (addItemsToOrder_not_in_scope user _id (Some items) w Hfind) as [Hr _].
       rewrite Hr in Hcode. unfold addItemsToOrder_out_of_scope in Hcode.
       rewrite Hvalid in Hcode. by destruct items. }
  apply find_in_scope_inv in Hfind as (_ & Ho & Hv).
  destruct doc as [_id' o]; simpl in Ho, Hv.
  destruct (decide (Order.status o = Billed ∨ Order.status o = Completed)) as [Hst|Hst].
  { rewrite (addItemsToOrder_final user _id items w o) in Hcode by done.
    discriminate Hcode. }
  assert (Order.status o ≠ Billed) as Hb by (intros ?; apply Hst; by left).
  assert (Order.status o ≠ Completed) as Hc by (intros ?; apply Hst; by right).
  destruct (decide (distinct_found (menu w) (User.vendorId user) items = length items))
    as [Hdr|Hdr].
  - apply distinct_in_catalog_iff in Hdr. exists items, o. split_and!; try done.
    rewrite (addItemsToOrder_priced user _id items w o) in Hcode |- * by done.
    by destruct (Order_validate (with_added w items o)).
  - rewrite <- distinct_in_catalog_iff in Hdr.
    by rewrite (addItemsToOrder_invalid_reference user _id items w o) in Hcode.
Qed.

(** The lines of a request that is answered 200 have passed the handler's
    validation, and the order that is stored the schema's. *)
Lemma addItemsToOrder_success_valid (user : User.t) (_id : string)
    (items : list Order.Item) (w : World) (o : Order.t) :
  code (VendorStaffController.addItemsToOrder user _id (Some items) w).1 = 200 →
  orders w !! canonical _id = Some o →
  forallb valid_item items = true ∧ Order_validate (with_added w items o) = true.
Proof.
  intros Hcode Ho.
  destruct (forallb valid_item items) eqn:Hvalid.
  2: { unfold VendorStaffController.addItemsToOrder in Hcode. cbv zeta in Hcode.
       rewrite Hvalid in Hcode. by destruct items. }
  split; [done|].
  pose proof Hcode as Hinv.
  apply addItemsToOrder_success_inv in Hinv as (items' & o' & [= <-] & Ho' & Hv & Hdr & _).
  rewrite Ho in Ho'. injection Ho' as <-.
  assert (items ≠ []) as Hne by (by intros ->).
  assert (Order.status o ≠ Billed ∧ Order.status o ≠ Completed) as [Hb Hc].
  { split; intros Hst;
      rewrite (addItemsToOrder_final user _id items w o) in Hcode by auto; done. }
  rewrite (addItemsToOrder_priced user _id items w o) in Hcode by done.
  by destruct (Order_validate (with_added w items o)).
Qed.

(** The rules of the status on an add-on, for a request with a non-empty
    list of valid lines on an order of the caller's shop: if the order is
    [Billed] or [Completed] the answer is 400 "Cannot add items to an
    already ... order." and the orders are as they were; if the order is
    [Ready], the new lines name distinct items of the caller's catalog and
    the schema accepts the order with the lines, the request succeeds and
    the stored status is [Kitchen]; and after every successful add on an
    order that was neither [Kitchen] nor [Pending], the stored status is
    [Kitchen]. *)
Lemma addItemsToOrder_status_rules (user : User.t) (_id : string)
    (items : list Order.Item) (w : World) (o : Order.t) :
  items ≠ [] →
  forallb valid_item items = true →
  orders w !! canonical _id = Some o →
  Order.vendorId o = User.vendorId user →
  let r := VendorStaffController.addItemsToOrder user _id (Some items) w in
  (Order.status o = Billed ∨ Order.status o = Completed →
     r.1 = Res 400 (BMsg ("Cannot add items to an already " +:+
                          status_name (Order.status o) +:+ " order."))
     ∧ orders r.2 = orders w)
  ∧ (Order.status o = Ready →
     distinct_in_catalog (menu w) (User.vendorId user) items →
     Order_validate (with_added w items o) = true →
     ∃ o', r.1 = VendorStaffController.items_added (length items) (canonical _id, o')
           ∧ orders r.2 !! canonical _id = Some o'
           ∧ Order.status o' = Kitchen)
  ∧ (code r.1 = 200 →
     Order.status o ≠ Kitchen → Order.status o ≠ Pending →
     ∃ o', r.1 = VendorStaffController.items_added (length items) (canonical _id, o')
           ∧ orders r.2 !! canonical _id = Some o'
           ∧ Order.status o' = Kitchen).
Proof.
  intros Hne Hvalid Ho Hv r. subst r. split_and!.
  - intros Hst. by rewrite (addItemsToOrder_final user _id items w o).
  - intros Hst Hdr Hok. exists (with_added w items o).
    rewrite (addItemsToOrder_adds user _id items w o) by (done || by rewrite Hst).
    split_and!; [done| |]; cbn.
    + by rewrite lookup_insert_eq.
    + by rewrite Hst.
  - intros Hcode Hk Hp.
    apply addItemsToOrder_success_inv in Hcode
      as (items' & o' & [= <-] & Ho' & _ & _ & ->).
    rewrite Ho in Ho'. injection Ho' as <-.
    exists (with_added w items o). split_and!; [done| |]; cbn.
    + by rewrite lookup_insert_eq.
    + by destruct (Order.status o).
Qed.

(** Tea added to the [Ready] order [ord1]; the same request on a [Billed]
    order. *)
Example addItemsToOrder_status_rules_example :
  (∃ o', (VendorStaffController.addItemsToOrder server1 ord1 (Some [line itemB 1 5])
            (world_with Ready)).1
         = VendorStaffController.items_added 1 (ord1, o')
         ∧ orders (VendorStaffController.addItemsToOrder server1 ord1
                     (Some [line itemB 1 5]) (world_with Ready)).2 !! ord1 = Some o'
         ∧ Order.status o' = Kitchen)
  ∧ (VendorStaffController.addItemsToOrder server1 ord1 (Some [line itemB 1 5])
       (world_with Billed)).1
    = Res 400 (BMsg "Cannot add items to an already Billed order.").
Proof.
  split.
  - destruct (addItemsToOrder_status_rules server1 ord1 [line itemB 1 5]
                (world_with Ready) (order1 Ready)) as (_ & Hready & _).
    + discriminate.
    + reflexivity.
    + reflexivity.
    + reflexivity.
    + apply Hready; [reflexivity| |vm_compute; reflexivity].
      apply distinct_in_catalog_iff. vm_compute. reflexivity.
  - destruct (addItemsToOrder_status_rules server1 ord1 [line itemB 1 5]
                (world_with Billed) (order1 Billed)) as (Hfinal & _ & _).
    + discriminate.
    + reflexivity.
    + reflexivity.
    + reflexivity.
    + apply Hfinal. by left.
Qed.

(** C3 (the code at an input the claim covers).  The order [ord1] of
    [shop1] is [Ready]; a server of the shop adds two lines that both name
    the catalog item [itemB] of the shop (one tea for table 5, two for table
    6).  The order is in the caller's scope, each line is valid and names an
    item of the caller's catalog, and yet [addItemsToOrder] answers 400 "One
    or more menu items are invalid or unavailable." and the order stays as
    it was, [Ready]: the add does not succeed. *)
Theorem addItemsToOrder_rejects_repeated_item :
  let items := [line itemB 1 5; line itemB 2 6] in
  let r := VendorStaffController.addItemsToOrder server1 ord1 (Some items)
             (world_with Ready) in
  find_in_scope (world_with Ready) ord1 (User.vendorId server1)
    = Some (ord1, order1 Ready)
  ∧ forallb valid_item items = true
  ∧ Forall (λ item, is_Some (resolve (menu (world_with Ready)) (User.vendorId server1) item))
           items
  ∧ r.1 = Res 400 (BMsg invalid_items_message)
  ∧ orders r.2 = orders (world_with Ready)
  ∧ Order.status <$> orders r.2 !! ord1 = Some Ready.
Proof.
  split_and!; try (vm_compute; reflexivity).
  repeat constructor; eexists; vm_compute; reflexivity.
Qed.

(** A line that spells the id of its item as [toString()] does is priced
    and named, when the count check has passed. *)
Lemma distinct_in_catalog_resolve (menu0 : gmap ObjectId MenuItem.t) (vendorId : ObjectId)
    (items : list Order.Item) (item : Order.Item) (id : string) :
  distinct_in_catalog menu0 vendorId items →
  item ∈ items → Order.menuItemId item = Some id → canonical id = id →
  is_Some (resolve menu0 vendorId item).
Proof.
  intros [_ Hall] Hin Hid Hc. rewrite Forall_forall in Hall.
  destruct (Hall (Some id)) as [m Hm].
  - apply elem_of_cast_ids. exists item. split; [done|]. rewrite Hid. cbn. by rewrite Hc.
  - exists m. unfold resolve. rewrite Hid. cbn. by rewrite decide_True.
Qed.

(** What every successful add-items operation stores: the prior total plus
    the sum of the new lines that the loop has priced; the prior lines
    followed by the new ones, each cast to a subdocument; on each new line
    whose id is spelled as [toString()] spells it, the name of the catalog
    item; and every line that was there before as it was. *)
Lemma addItemsToOrder_total_and_lines (user : User.t) (_id : string)
    (newItems : option (list Order.Item)) (w : World) :
  let r := VendorStaffController.addItemsToOrder user _id newItems w in
  code r.1 = 200 →
  ∃ items o o',
    newItems = Some items
    ∧ orders w !! canonical _id = Some o
    ∧ r.1 = VendorStaffController.items_added (length items) (canonical _id, o')
    ∧ orders r.2 !! canonical _id = Some o'
    ∧ Order.totalAmount o'
      = (Order.totalAmount o + sum_lines (menu w) (User.vendorId user) items 0)%float
    ∧ Order.items o'
      = (Order.items o
         ++ map Order.cast (map (denormalize (menu w) (User.vendorId user)) items))%list
    ∧ Forall (λ item, ∀ id, Order.menuItemId item = Some id → canonical id = id →
                ∃ m, resolve (menu w) (User.vendorId user) item = Some m
                     ∧ denormalize (menu w) (User.vendorId user) item
                       = Order.set_name (MenuItem.name m) item) items
    ∧ ∀ i line, Order.items o !! i = Some line → Order.items o' !! i = Some line.
Proof.
  intros r Hcode. subst r.
  apply addItemsToOrder_success_inv in Hcode as (items & o & -> & Ho & Hv & Hdr & ->).
  exists items, o, (with_added w items o). cbn. rewrite Hv.
  split_and!; try done.
  - by rewrite lookup_insert_eq.
  - apply Forall_forall. intros item Hin id Hid Hc.
    destruct (distinct_in_catalog_resolve _ _ _ item id Hdr Hin Hid Hc) as [m Hm].
    exists m. split; [done|]. unfold denormalize. by rewrite Hm.
  - intros i line Hi. by apply lookup_app_l_Some.
Qed.

(** The second step of the specification's example: tea (50) added to an
    order of two dosas (total 200). *)
Example addItemsToOrder_total_and_lines_example :
  ∃ o', orders (VendorStaffController.addItemsToOrder server1 ord1
                  (Some [line itemB 1 5]) (world_with Kitchen)).2 !! ord1 = Some o'
        ∧ Order.totalAmount o' = 250%float
        ∧ Order.status o' = Kitchen
        ∧ map Order.name (Order.items o') = [Some "Dosa"; Some "Tea"].
Proof.
  destruct (addItemsToOrder_total_and_lines server1 ord1 (Some [line itemB 1 5])
              (world_with Kitchen))
    as (items & o & o' & Hitems & Ho & Hr & Ho' & Htotal & Hlines & _ & _).
  - vm_compute. reflexivity.
  - exists o'. injection Hitems as <-. injection Ho as <-.
    split; [exact Ho'|]. split; [rewrite Htotal; vm_compute; reflexivity|].
    split.
    + vm_compute in Ho'. injection Ho' as <-. reflexivity.
    + rewrite Hlines. vm_compute. reflexivity.
Qed.

(** C4 (the code at an input the claim covers).  A server of [shop1] adds
    one tea to the order [ord1] (two dosas, total 200) and writes the id of
    the catalog item [itemB] (Tea, 50) with its hexadecimal letters in upper
    case.  The catalog query casts the id and finds the item, so that the
    count check passes; the price map is keyed by the lower-case
    [toString()] of the id and the loop looks the id up as it was sent, so
    that the line is neither priced nor named.  The request is answered 200,
    the stored total is 200 as before (not 250), and the line is appended
    without a name. *)
Theorem addItemsToOrder_skips_respelled_id :
  let item := line "64B0000000000000000000B2" 1 5 in
  let r := VendorStaffController.addItemsToOrder server1 ord1 (Some [item])
             (world_with Kitchen) in
  canonical "64B0000000000000000000B2" = itemB
  ∧ catalog_lookup (menu (world_with Kitchen)) (User.vendorId server1) itemB
    = Some (dish shop1 "Tea" 50)
  ∧ valid_item item = true
  ∧ code r.1 = 200
  ∧ ∃ o', orders r.2 !! ord1 = Some o'
          ∧ Order.totalAmount (order1 Kitchen) = 200%float
          ∧ Order.totalAmount o' = 200%float
          ∧ Order.items o'
            = (Order.items (order1 Kitchen)
               ++ [Order.mkItem (Some itemB) None (Some 1%float) (Some 5%float) [] None])%list.
Proof.
  split_and!; try (vm_compute; reflexivity).
  eexists. split; [vm_compute; reflexivity|].
  split_and!; vm_compute; reflexivity.
Qed.

(** ** Validation of a create-order request *)






(** ** The arithmetic of the total *)

(** A returned total is the sum of the lines that the loop has priced,
    taken left to right in the arithmetic of Numbers. *)
Lemma calculateTotalAmount_returns (items : list Order.Item) (vendorId : ObjectId)
    (w : World) (total : float) :
  (calculateTotalAmount items vendorId w).1.2 = Return total →
  total = sum_lines (menu w) vendorId items 0.
Proof.
  destruct (decide (distinct_found (menu w) vendorId items = length items)) as [Heq|Hne].
  - rewrite calculateTotalAmount_ok by (by apply distinct_in_catalog_iff).
    by intros [= <-].
  - by rewrite calculateTotalAmount_throw by (by rewrite distinct_in_catalog_iff).
Qed.


(** ** The completed/reporting query *)

Lemma matches_iff (q : VendorStaffController.Query) (o : Order.t) :
  VendorStaffController.matches q o = true
  ↔ Order.vendorId o = VendorStaffController.q_vendorId q
    ∧ Order.status o ∈ VendorStaffController.q_status q
    ∧ match VendorStaffController.q_updatedAt q with
      | Some (gte, lte) => (gte ≤ Order.updatedAt o ≤ lte)%Z
      | None => True
      end.
Proof.
  unfold VendorStaffController.matches.
  rewrite !andb_true_iff, String.eqb_eq, existsb_exists.
  assert ((∃ st, In st (VendorStaffController.q_status q)
                 ∧ status_eqb (Order.status o) st = true)
          ↔ Order.status o ∈ VendorStaffController.q_status q) as ->.
  { split.
    - intros (st & Hin & ->%status_eqb_eq). by apply list_elem_of_In.
    - intros Hin. exists (Order.status o).
      split; [by apply list_elem_of_In|by apply status_eqb_eq]. }
  destruct (VendorStaffController.q_updatedAt q) as [[gte lte]|].
  - rewrite andb_true_iff, !Z.leb_le. tauto.
  - tauto.
Qed.

(** The documents [Order.find(query).sort(...)] returns are the stored
    documents the filter matches. *)
Lemma Order_find_sorted_elem_of (q : VendorStaffController.Query) (w : World)
    (d : OrderDoc) :
  d ∈ (VendorStaffController.Order_find_sorted q w).1
  ↔ orders w !! d.1 = Some d.2 ∧ VendorStaffController.matches q d.2 = true.
Proof.
  unfold VendorStaffController.Order_find_sorted, bind, log. cbn [fst snd orders].
  destruct d as [k o].
  rewrite merge_sort_Permutation, list_elem_of_In, filter_In, <- list_elem_of_In.
  pose proof (elem_of_map_to_list (orders w) k o). cbn [fst snd]. tauto.
Qed.

Lemma Order_find_sorted_world (q : VendorStaffController.Query) (w : World) :
  (VendorStaffController.Order_find_sorted q w).2
  = logged (OpOrderFind (VendorStaffController.q_vendorId q)) w.
Proof. reflexivity. Qed.

Section Reports.
Context (parseDate : string → option Z) (tzOffset : Z).

#[local] Abbreviation getCompletedOrders :=
  (VendorStaffController.getCompletedOrders parseDate tzOffset).
#[local] Abbreviation completed_query :=
  (VendorStaffController.completed_query parseDate tzOffset).
#[local] Abbreviation end_of_day := (VendorStaffController.setHours_end_of_day tzOffset).
#[local] Abbreviation local_day := (VendorStaffController.local_day tzOffset).

(** The answer of the reporting query for a filter that could be built. *)
Lemma getCompletedOrders_report (user : User.t) (startDate endDate : option string)
    (w : World) (q : VendorStaffController.Query) :
  completed_query (User.vendorId user) startDate endDate = Some q →
  let docs := (VendorStaffController.Order_find_sorted q w).1 in
  getCompletedOrders user startDate endDate w
  = (Res 200 (BReport (length docs)
                (toFixed (fold_left (λ acc d, (acc + Order.totalAmount d.2)%float)
                            docs 0%float) 2)
                docs),
     logged (OpOrderFind (User.vendorId user)) w).
Proof.
  intros Hq docs.
  assert (VendorStaffController.q_vendorId q = User.vendorId user) as Hv.
  { unfold VendorStaffController.completed_query in Hq.
    destruct (_ && _) in Hq; [|by injection Hq as <-].
    destruct (startDate ≫= parseDate), (endDate ≫= parseDate); try done.
    by injection Hq as <-. }
  unfold VendorStaffController.getCompletedOrders. cbv zeta.
  rewrite Hq. unfold bind.
  rewrite (surjective_pairing (VendorStaffController.Order_find_sorted q w)).
  by rewrite Order_find_sorted_world, Hv.
Qed.

(** The last millisecond of the local day. *)
Lemma end_of_day_spec (t : Z) :
  (t ≤ end_of_day t)%Z
  ∧ local_day (end_of_day t) = local_day t
  ∧ local_day (end_of_day t + 1) = (local_day t + 1)%Z.
Proof.
  unfold VendorStaffController.setHours_end_of_day, VendorStaffController.local_day,
    VendorStaffController.msPerDay.
  split_and!.
  - Z.to_euclidean_division_equations. lia.
  - symmetry. apply (Z.div_unique_pos _ _ _ 86399999); lia.
  - symmetry. apply (Z.div_unique_pos _ _ _ 0); lia.
Qed.

(** The filter of the reporting query: unless both [startDate] and
    [endDate] are supplied (present and not empty), the filter has no
    [updatedAt] range and the report lists exactly the stored orders of the
    caller's vendor whose status is [Billed] or [Completed]; when both are
    supplied (and are dates), the range runs from the start date to the last
    millisecond of the day that the parsed end date falls in at the server,
    and the report lists exactly the orders of that scope and those statuses
    whose [updatedAt] lies in the range, both ends included. *)
Lemma getCompletedOrders_date_filter (user : User.t)
    (startDate endDate : option string) (w : World) :
  let supplied (d : option string) := truthy_opt truthy_str d = true in
  let in_report (d : OrderDoc) :=
    orders w !! d.1 = Some d.2
    ∧ Order.vendorId d.2 = User.vendorId user
    ∧ (Order.status d.2 = Billed ∨ Order.status d.2 = Completed) in
  (¬ (supplied startDate ∧ supplied endDate) →
     ∃ total docs,
       (getCompletedOrders user startDate endDate w).1
         = Res 200 (BReport (length docs) total docs)
       ∧ ∀ d, d ∈ docs ↔ in_report d)
  ∧ (∀ s e gte lte,
       startDate = Some s → endDate = Some e →
       supplied startDate → supplied endDate →
       parseDate s = Some gte → parseDate e = Some lte →
       ((lte ≤ end_of_day lte)%Z
        ∧ local_day (end_of_day lte) = local_day lte
        ∧ local_day (end_of_day lte + 1) = (local_day lte + 1)%Z)
       ∧ ∃ total docs,
           (getCompletedOrders user startDate endDate w).1
             = Res 200 (BReport (length docs) total docs)
           ∧ ∀ d, d ∈ docs
                  ↔ in_report d ∧ (gte ≤ Order.updatedAt d.2 ≤ end_of_day lte)%Z).
Proof.
  intros supplied in_report. subst supplied in_report. cbv beta. split.
  - intros Hnot.
    assert (completed_query (User.vendorId user) startDate endDate
            = Some (VendorStaffController.mkQuery (User.vendorId user)
                      [Billed; Completed] None)) as Hq.
    { unfold VendorStaffController.completed_query.
      destruct (truthy_opt truthy_str startDate), (truthy_opt truthy_str endDate);
        try done.
      by destruct Hnot. }
    rewrite (getCompletedOrders_report _ _ _ _ _ Hq). eexists _, _.
    split; [reflexivity|]. intros d.
    rewrite Order_find_sorted_elem_of, matches_iff. cbn.
    rewrite !elem_of_cons, elem_of_nil. tauto.
  - intros s e gte lte -> -> Hs He Hgte Hlte. split; [apply end_of_day_spec|].
    assert (completed_query (User.vendorId user) (Some s) (Some e)
            = Some (VendorStaffController.mkQuery (User.vendorId user)
                      [Billed; Completed] (Some (gte, end_of_day lte)))) as Hq.
    { unfold VendorStaffController.completed_query. rewrite Hs, He. cbn.
      by rewrite Hgte, Hlte. }
    rewrite (getCompletedOrders_report _ _ _ _ _ Hq). eexists _, _.
    split; [reflexivity|]. intros d.
    rewrite Order_find_sorted_elem_of, matches_iff. cbn.
    rewrite !elem_of_cons, elem_of_nil. tauto.
Qed.



End Reports.

(** January 2024 at a server in UTC+05:30: with only a start date the March
    order is listed; with both dates it is not, and the order completed in
    the course of 31 January is. *)
Example getCompletedOrders_date_filter_example :
  (∃ total docs,
     (VendorStaffController.getCompletedOrders parse_2024 tz_0530 vendor1
        (Some "2024-01-01") None world_report).1
       = Res 200 (BReport (length docs) total docs)
     ∧ (ord3, closed_order shop1 Billed 1710000000000) ∈ docs)
  ∧ (∃ total docs,
       (VendorStaffController.getCompletedOrders parse_2024 tz_0530 vendor1
          (Some "2024-01-01") (Some "2024-01-31") world_report).1
         = Res 200 (BReport (length docs) total docs)
       ∧ (ord2, closed_order shop1 Completed 1706700000000) ∈ docs
       ∧ (ord3, closed_order shop1 Billed 1710000000000) ∉ docs).
Proof.
  split.
  - destruct (getCompletedOrders_date_filter parse_2024 tz_0530 vendor1
                (Some "2024-01-01") None world_report) as [Hopen _].
    destruct Hopen as (total & docs & Hres & Hdocs).
    + intros [_ Hend]. discriminate Hend.
    + exists total, docs. split; [exact Hres|]. apply Hdocs.
      split; [vm_compute; reflexivity|]. split; [reflexivity|]. by left.
  - destruct (getCompletedOrders_date_filter parse_2024 tz_0530 vendor1
                (Some "2024-01-01") (Some "2024-01-31") world_report) as [_ Hrange].
    destruct (Hrange "2024-01-01" "2024-01-31" 1704067200000%Z 1706659200000%Z)
      as (_ & total & docs & Hres & Hdocs).
    + reflexivity.
    + reflexivity.
    + reflexivity.
    + reflexivity.
    + vm_compute; reflexivity.
    + vm_compute; reflexivity.
    + exists total, docs. split; [exact Hres|]. split.
      * apply Hdocs. split.
        -- split; [vm_compute; reflexivity|]. split; [reflexivity|]. by right.
        -- vm_compute. split; discriminate.
      * intros Hin. apply Hdocs in Hin as [_ [_ Hle]]. vm_compute in Hle. by apply Hle.
Qed.

(** C10 (the code at an input the claim covers).  The server's local time
    is five hours behind UTC.  The vendor of [shop1] asks for the report
    from 2024-01-01 to 2024-01-31; the one order of the shop was billed on
    31 January at 12:00 UTC, which is 31 January in UTC and at the server
    alike (day 19753 since the epoch).  [new Date("2024-01-31")] is midnight
    UTC, which at the server is 19:00 of 30 January, and [setHours(23, 59,
    59, 999)] moves it to the end of that day: the range ends at
    2024-01-31T04:59:59.999Z, and the report lists no order. *)
Theorem getCompletedOrders_misses_end_day :
  let updatedAt := 1706702400000%Z in
  let r := (VendorStaffController.getCompletedOrders parse_2024 tz_minus_0500 vendor1
              (Some "2024-01-01") (Some "2024-01-31") world_january).1 in
  orders world_january !! ord1 = Some (closed_order shop1 Billed updatedAt)
  ∧ parse_2024 "2024-01-31" = Some (19753 * VendorStaffController.msPerDay)%Z
  ∧ (updatedAt `div` VendorStaffController.msPerDay = 19753)%Z
  ∧ VendorStaffController.local_day tz_minus_0500 updatedAt = 19753%Z
  ∧ VendorStaffController.completed_query parse_2024 tz_minus_0500 shop1
      (Some "2024-01-01") (Some "2024-01-31")
    = Some (VendorStaffController.mkQuery shop1 [Billed; Completed]
              (Some (1704067200000, 1706677199999)%Z))
  ∧ r = Res 200 (BReport 0 (toFixed 0 2) []).
Proof. split_and!; vm_compute; reflexivity. Qed.

(** * Properties of the rest of the code *)

(** ** The order of Numbers *)

Lemma SFcompare_antisym (x y : spec_float) :
  SFcompare y x = CompOpp <$> SFcompare x y.
Proof.
  destruct x as [[]|[]| |[] m1 e1], y as [[]|[]| |[] m2 e2]; try reflexivity.
  all: simpl; rewrite (Z.compare_antisym e1 e2), (ZC4 m2 m1).
  all: by destruct (e1 ?= e2)%Z, (Pos.compare_cont Eq m1 m2).
Qed.

Lemma is_nan_false (x : float) : is_nan x = false → Prim2SF x ≠ S754_nan.
Proof.
  unfold is_nan. rewrite FloatAxioms.eqb_spec. intros Hnan Hx.
  rewrite Hx in Hnan. discriminate Hnan.
Qed.

Lemma number_leb_total (x y : float) :
  number_leb x y = true ∨ number_leb y x = true.
Proof.
  unfold number_leb.
  destruct (is_nan x) eqn:Hx; [by left|].
  destruct (is_nan y) eqn:Hy; [by right|].
  apply is_nan_false in Hx, Hy. rewrite !FloatAxioms.leb_spec. unfold SFleb.
  rewrite (SFcompare_antisym (Prim2SF x) (Prim2SF y)).
  destruct (SFcompare (Prim2SF x) (Prim2SF y)) as [[]|] eqn:Hc; simpl; auto.
  destruct (Prim2SF x) as [|[]| |], (Prim2SF y) as [|[]| |]; done.
Qed.

#[global] Instance older_first_total : Total older_first.
Proof. intros a b. unfold older_first. lia. Qed.

#[global] Instance older_first_trans : Transitive older_first.
Proof. intros a b c. unfold older_first. lia. Qed.

#[global] Instance by_table_then_created_total : Total by_table_then_created.
Proof.
  intros a b. unfold by_table_then_created.
  destruct (number_leb (Order.tableNumber a.2) (Order.tableNumber b.2)) eqn:Hab,
           (number_leb (Order.tableNumber b.2) (Order.tableNumber a.2)) eqn:Hba.
  - destruct (Z.le_ge_cases (Order.createdAt a.2) (Order.createdAt b.2)); [left|right]; done.
  - left. done.
  - right. done.
  - by destruct (number_leb_total (Order.tableNumber a.2) (Order.tableNumber b.2))
      as [H|H]; congruence.
Qed.

(** ** The queues *)

Lemma Order_find_in_elem_of (vendorId : ObjectId) (statuses : list Status)
    (sort : relation OrderDoc) `{!∀ a b, Decision (sort a b)} (w : World) (d : OrderDoc) :
  d ∈ (Order_find_in vendorId statuses sort w).1
  ↔ orders w !! d.1 = Some d.2
    ∧ Order.vendorId d.2 = vendorId
    ∧ Order.status d.2 ∈ statuses.
Proof.
  unfold Order_find_in, bind, log. cbn [fst snd orders].
  destruct d as [k o].
  rewrite merge_sort_Permutation, list_elem_of_In, filter_In, <- list_elem_of_In.
  pose proof (elem_of_map_to_list (orders w) k o). rewrite matches_iff. cbn. tauto.
Qed.

Lemma Order_find_in_NoDup (vendorId : ObjectId) (statuses : list Status)
    (sort : relation OrderDoc) `{!∀ a b, Decision (sort a b)} (w : World) :
  NoDup (Order_find_in vendorId statuses sort w).1.
Proof.
  unfold Order_find_in, bind, log. cbn [fst snd orders].
  rewrite merge_sort_Permutation. apply NoDup_ListNoDup, List.NoDup_filter, NoDup_ListNoDup.
  apply NoDup_map_to_list.
Qed.

Lemma Order_find_in_world (vendorId : ObjectId) (statuses : list Status)
    (sort : relation OrderDoc) `{!∀ a b, Decision (sort a b)} (w : World) :
  (Order_find_in vendorId statuses sort w).2 = logged (OpOrderFind vendorId) w.
Proof. reflexivity. Qed.

(** X1.  The kitchen queue lists exactly the stored orders of the caller's
    vendor whose status is [Pending] or [Kitchen], each once, the oldest
    first, and stores nothing. *)
Theorem getKitchenOrders_queue (user : User.t) (w : World) :
  (∀ d, d ∈ (getKitchenOrders user w).1
        ↔ orders w !! d.1 = Some d.2
          ∧ Order.vendorId d.2 = User.vendorId user
          ∧ (Order.status d.2 = Pending ∨ Order.status d.2 = Kitchen))
  ∧ NoDup (getKitchenOrders user w).1
  ∧ StronglySorted older_first (getKitchenOrders user w).1
  ∧ orders (getKitchenOrders user w).2 = orders w.
Proof.
  unfold getKitchenOrders, bind, ret. cbv zeta.
  rewrite (surjective_pairing (Order_find_in _ _ _ w)). cbn [fst snd].
  split_and!.
  - intros d. rewrite Order_find_in_elem_of, !elem_of_cons, elem_of_nil. tauto.
  - apply Order_find_in_NoDup.
  - apply StronglySorted_merge_sort; apply _.
  - by rewrite Order_find_in_world.
Qed.

Lemma SFleb_trans (x y z : spec_float) :
  SFleb x y = true → SFleb y z = true → SFleb x z = true.
Proof.
  unfold SFleb.
  destruct x as [[]|[]| |[] m1 e1], y as [[]|[]| |[] m2 e2], z as [[]|[]| |[] m3 e3];
    simpl; try done.
  all: change (Pos.compare_cont Eq m1 m2) with (m1 ?= m2)%positive.
  all: change (Pos.compare_cont Eq m2 m3) with (m2 ?= m3)%positive.
  all: change (Pos.compare_cont Eq m1 m3) with (m1 ?= m3)%positive.
  all: destruct (Z.compare_spec e1 e2), (Z.compare_spec e2 e3), (Z.compare_spec e1 e3);
    try lia; simpl; try done.
  all: destruct (Pos.compare_spec m1 m2), (Pos.compare_spec m2 m3),
         (Pos.compare_spec m1 m3); try lia; simpl; done.
Qed.

Lemma number_leb_trans (x y z : float) :
  number_leb x y = true → number_leb y z = true → number_leb x z = true.
Proof.
  unfold number_leb.
  destruct (is_nan x) eqn:Hx; [done|]. cbn [orb]. intros Hxy.
  destruct (is_nan y) eqn:Hy.
  - unfold is_nan in Hy. rewrite FloatAxioms.eqb_spec in Hy.
    rewrite FloatAxioms.leb_spec in Hxy. unfold SFleb, SFeqb in *.
    destruct (Prim2SF y) as [[]|[]| |[] m e]; try done.
    + by destruct (Prim2SF x) as [[]|[]| |[] ? ?].
    + by rewrite SFcompare_finite_refl in Hy.
    + by rewrite SFcompare_finite_refl in Hy.
  - cbn [orb]. rewrite !FloatAxioms.leb_spec in *. intros Hyz.
    by apply (SFleb_trans _ (Prim2SF y)).
Qed.

#[global] Instance by_table_then_created_trans : Transitive by_table_then_created.
Proof.
  intros a b c [Hab Hab'] [Hbc Hbc']. split.
  - by apply (number_leb_trans _ (Order.tableNumber b.2)).
  - intros Hca.
    assert ((Order.createdAt a.2 ≤ Order.createdAt b.2)%Z)
      by (apply Hab'; by apply (number_leb_trans _ (Order.tableNumber c.2))).
    assert ((Order.createdAt b.2 ≤ Order.createdAt c.2)%Z)
      by (apply Hbc'; by apply (number_leb_trans _ (Order.tableNumber a.2))).
    lia.
Qed.


(** ** What the writing handlers can do to the store *)

(** The four ways [createOrder] ends. *)
Lemma createOrder_outcome (user : User.t) (body : CreateBody) (w : World) :
  (∃ msg, createOrder user body w = (Res 400 (BMsg msg), w))
  ∨ (∃ items, createOrder user body w
              = (Res 400 (BMsg invalid_items_message),
                 logged (OpMenuItemFind (map Order.menuItemId items) (User.vendorId user)) w))
  ∨ (∃ op1 op2, createOrder user body w
                = (Res 500 (BText "Server error during order creation"),
                   logged op2 (logged op1 w)))
  ∨ (∃ tn items,
       body = mkCreateBody (Some tn) (Some items)
       ∧ forallb valid_item items = true
       ∧ distinct_in_catalog (menu w) (User.vendorId user) items
       ∧ createOrder user body w
         = (Res 201 (BOrder (created user tn items w)), with_created user tn items w)).
Proof.
  destruct body as [[tn|] [items|]]; try (left; by eexists).
  destruct (truthy_num tn) eqn:Htn.
  2: { left. unfold createOrder. cbn [cb_tableNumber cb_items]. rewrite Htn. by eexists. }
  destruct items as [|item items'].
  { left. unfold createOrder. cbn [cb_tableNumber cb_items]. rewrite Htn. by eexists. }
  destruct (forallb valid_item (item :: items')) eqn:Hvalid.
  2: { left. unfold createOrder. cbn [cb_tableNumber cb_items length Nat.eqb].
       rewrite Htn, Hvalid. by eexists. }
  right.
  destruct (decide (distinct_found (menu w) (User.vendorId user) (item :: items')
                    = length (item :: items'))) as [Hdr|Hdr].
  - right. apply distinct_in_catalog_iff in Hdr.
    rewrite (createOrder_priced user tn (item :: items') w) by done.
    destruct (Number_ok _).
    + right. exists tn, (item :: items'). by split_and!.
    + left. by eexists _, _.
  - left. exists (item :: items'). by apply createOrder_propagates_invalid_items.
Qed.

(** The order that [createOrder] has stored is a document of the schema. *)
Lemma createOrder_stores_valid (user : User.t) (tn : float) (items : list Order.Item)
    (w : World) :
  createOrder user (mkCreateBody (Some tn) (Some items)) w
  = (Res 201 (BOrder (created user tn items w)), with_created user tn items w) →
  forallb valid_item items = true →
  Order_validate (created user tn items w).2 = true.
Proof.
  intros Heq Hvalid.
  destruct (truthy_num tn) eqn:Htn.
  2: { unfold createOrder in Heq. cbn [cb_tableNumber cb_items] in Heq.
       rewrite Htn in Heq. discriminate Heq. }
  destruct (decide (items = [])) as [->|Hne].
  { unfold createOrder in Heq. cbn [cb_tableNumber cb_items] in Heq.
    rewrite Htn in Heq. discriminate Heq. }
  destruct (decide (distinct_found (menu w) (User.vendorId user) items = length items))
    as [Hdr|Hdr].
  - apply distinct_in_catalog_iff in Hdr.
    rewrite (createOrder_priced user tn items w) in Heq by done.
    rewrite Order_validate_created by done.
    by destruct (Number_ok _).
  - rewrite createOrder_propagates_invalid_items in Heq by done. discriminate Heq.
Qed.

Lemma allowedSet_names (role s : string) :
  s ∈ allowedSet role → ∃ st, s = status_name st.
Proof.
  destruct allowedSet_matrix as (Hk & Hs & Hb & Hv & Hother).
  destruct (decide (role ∈ ["Kitchen"; "Server"; "Billing"; "Vendor"])) as [Hin|Hout].
  - rewrite !elem_of_cons, elem_of_nil in Hin.
    destruct Hin as [->|[->|[->|[->|[]]]]].
    + rewrite Hk, !elem_of_cons, elem_of_nil. intros [->|[]]. by exists Ready.
    + rewrite Hs, !elem_of_cons, elem_of_nil. intros [->|[]]. by exists Served.
    + rewrite Hb, !elem_of_cons, elem_of_nil.
      intros [->|[->|[]]]; [by exists Billed|by exists Completed].
    + rewrite Hv. intros (st & -> & _)%list_elem_of_fmap. by exists st.
  - rewrite (Hother role Hout). by intros ?%elem_of_nil.
Qed.

Lemma status_eqb_refl (s : Status) : status_eqb s s = true.
Proof. by destruct s. Qed.

Lemma status_eqb_neq (a b : Status) : a ≠ b → status_eqb a b = false.
Proof. intros Hne. destruct (status_eqb a b) eqn:H; [|done]. by apply status_eqb_eq in H. Qed.

(** In [orderController.js], a request that passes the matrix and finds an
    order that is neither [Completed] nor [Billed] saves it with the status
    set; a document that the schema refuses is answered 500 and not
    written. *)
Lemma OrderController_updateStatus_saves (user : User.t) (_id : string)
    (newStatus : option string) (st : Status) (w : World) (o : Order.t) :
  transition_guard (User.role user) newStatus = Authorized (status_name st) →
  orders w !! canonical _id = Some o → Order.vendorId o = User.vendorId user →
  Order.status o ≠ Completed → Order.status o ≠ Billed →
  OrderController.updateStatus user _id newStatus w
  = if Order_validate o
    then (Return (status_updated (status_name st)
                    (canonical _id,
                     stamped w (negb (status_eqb (Order.status o) st)) (set_status st o))),
          saved (canonical _id) (User.vendorId user)
                (negb (status_eqb (Order.status o) st)) (set_status st o) w)
    else (Return (Res 500 (BText "Server error during status update")),
          logged (OpOrderSave (canonical _id))
            (logged (OpOrderFindOne (canonical _id) (User.vendorId user)) w)).
Proof.
  intros Hguard Ho Hv Hc Hb.
  unfold OrderController.updateStatus. cbv zeta. rewrite Hguard.
  unfold bind at 1. rewrite Order_findOne_eq, (find_in_scope_Some _ _ _ o) by done.
  cbn [snd]. rewrite !status_eqb_neq by done. cbn [orb].
  unfold bind. rewrite assign_status_and_save_found.
  by destruct (Order_validate o).
Qed.

Lemma OrderController_updateStatus_sets (user : User.t) (_id : string)
    (newStatus : option string) (st : Status) (w : World) (o : Order.t) :
  transition_guard (User.role user) newStatus = Authorized (status_name st) →
  orders w !! canonical _id = Some o → Order.vendorId o = User.vendorId user →
  Order.status o ≠ Completed → Order.status o ≠ Billed →
  Order_validate o = true →
  OrderController.updateStatus user _id newStatus w
  = (Return (status_updated (status_name st)
               (canonical _id,
                stamped w (negb (status_eqb (Order.status o) st)) (set_status st o))),
     saved (canonical _id) (User.vendorId user) (negb (status_eqb (Order.status o) st))
           (set_status st o) w).
Proof.
  intros Hguard Ho Hv Hc Hb Hok.
  by rewrite (OrderController_updateStatus_saves _ _ _ st _ o), Hok.
Qed.

Lemma status_set_code (r : Response) : status_set (Return r) → code r = 200.
Proof. by intros (? & ? & [= ->]). Qed.

Ltac not_status_set :=
  let H := fresh in intros H%status_set_code; cbn in H; discriminate H.

(** The two ways [updateStatus] of the later revision ends: without a write,
    or with the status of the one order set. *)
Lemma VendorStaffController_updateStatus_outcome (user : User.t) (_id : string)
    (newStatus : option string) (w : World) :
  (¬ status_set (VendorStaffController.updateStatus user _id newStatus w).1
   ∧ orders (VendorStaffController.updateStatus user _id newStatus w).2 = orders w)
  ∨ (∃ o st,
       newStatus = Some (status_name st)
       ∧ status_name st ∈ allowedSet (User.role user)
       ∧ orders w !! canonical _id = Some o
       ∧ Order.vendorId o = User.vendorId user
       ∧ (Order.status o ≠ Completed ∨ User.role user = "Vendor")
       ∧ VendorStaffController.updateStatus user _id newStatus w
         = (Return (status_updated (status_name st)
                      (canonical _id, stamped w (negb (status_eqb (Order.status o) st))
                                        (set_status st o))),
            saved (canonical _id) (User.vendorId user)
                  (negb (status_eqb (Order.status o) st)) (set_status st o) w)).
Proof.
  destruct (transition_guard (User.role user) newStatus) as [s| |] eqn:Hguard.
  - pose proof Hguard as Hg. apply transition_guard_authorized in Hg as [-> Hin].
    destruct (allowedSet_names _ _ Hin) as [st ->].
    destruct (find_in_scope w _id (User.vendorId user)) as [[k o]|] eqn:Hfind.
    + apply find_in_scope_inv in Hfind as (_ & Ho & Hv). cbn in Ho, Hv.
      assert (Order.status o ≠ Completed ∨ User.role user = "Vendor" →
              (¬ status_set (VendorStaffController.updateStatus user _id
                               (Some (status_name st)) w).1
               ∧ orders (VendorStaffController.updateStatus user _id
                           (Some (status_name st)) w).2 = orders w)
              ∨ VendorStaffController.updateStatus user _id (Some (status_name st)) w
                = (Return (status_updated (status_name st)
                             (canonical _id,
                              stamped w (negb (status_eqb (Order.status o) st))
                                (set_status st o))),
                   saved (canonical _id) (User.vendorId user)
                         (negb (status_eqb (Order.status o) st)) (set_status st o) w))
        as Hopen.
      { intros Hopen.
        rewrite (VendorStaffController_updateStatus_saves _ _ _ st _ o) by done.
        destruct (Order_validate o); [by right|]. left. split; [not_status_set|done]. }
      destruct (decide (Order.status o = Completed)) as [Hc|Hc];
        [destruct (decide (User.role user = "Vendor")) as [Hr|Hr]|].
      * destruct Hopen as [H|H]; [by right|by left|].
        right. exists o, st. split_and!; try done. by right.
      * left.
        rewrite (VendorStaffController_updateStatus_staff_blocked _ _ _ _ _ o Hr Hguard)
          by done.
        split; [not_status_set|done].
      * destruct Hopen as [H|H]; [by left|by left|].
        right. exists o, st. split_and!; try done. by left.
    + left. destruct (updateStatus_not_in_scope user _id (Some (status_name st)) w Hfind)
        as [_ [Hr Ho]].
      split; [|done]. rewrite Hr. unfold updateStatus_out_of_scope. rewrite Hguard.
      not_status_set.
  - left. unfold VendorStaffController.updateStatus. cbv zeta. rewrite Hguard.
    split; [not_status_set|done].
  - left. unfold VendorStaffController.updateStatus. cbv zeta. rewrite Hguard.
    split; [by intros (? & ? & [=])|done].
Qed.

(** The two ways [updateStatus] of [orderController.js] ends. *)
Lemma OrderController_updateStatus_outcome (user : User.t) (_id : string)
    (newStatus : option string) (w : World) :
  (¬ status_set (OrderController.updateStatus user _id newStatus w).1
   ∧ orders (OrderController.updateStatus user _id newStatus w).2 = orders w)
  ∨ (∃ o st,
       newStatus = Some (status_name st)
       ∧ status_name st ∈ allowedSet (User.role user)
       ∧ orders w !! canonical _id = Some o
       ∧ Order.vendorId o = User.vendorId user
       ∧ Order.status o ≠ Completed ∧ Order.status o ≠ Billed
       ∧ OrderController.updateStatus user _id newStatus w
         = (Return (status_updated (status_name st)
                      (canonical _id, stamped w (negb (status_eqb (Order.status o) st))
                                        (set_status st o))),
            saved (canonical _id) (User.vendorId user)
                  (negb (status_eqb (Order.status o) st)) (set_status st o) w)).
Proof.
  destruct (transition_guard (User.role user) newStatus) as [s| |] eqn:Hguard.
  - pose proof Hguard as Hg. apply transition_guard_authorized in Hg as [-> Hin].
    destruct (allowedSet_names _ _ Hin) as [st ->].
    destruct (find_in_scope w _id (User.vendorId user)) as [[k o]|] eqn:Hfind.
    + apply find_in_scope_inv in Hfind as (_ & Ho & Hv). cbn in Ho, Hv.
      destruct (decide (Order.status o = Completed ∨ Order.status o = Billed)) as [Hf|Hf].
      * left.
        rewrite (OrderController_updateStatus_final_blocked _ _ _ _ _ o Hguard) by done.
        split; [not_status_set|done].
      * assert (Order.status o ≠ Completed) by (intros ?; apply Hf; by left).
        assert (Order.status o ≠ Billed) by (intros ?; apply Hf; by right).
        rewrite (OrderController_updateStatus_saves _ _ _ st _ o) by done.
        destruct (Order_validate o).
        -- right. exists o, st. by split_and!.
        -- left. split; [not_status_set|done].
    + left. destruct (updateStatus_not_in_scope user _id (Some (status_name st)) w Hfind)
        as [[Hr Ho] _].
      split; [|done]. rewrite Hr. unfold updateStatus_out_of_scope. rewrite Hguard.
      not_status_set.
  - left. unfold OrderController.updateStatus. cbv zeta. rewrite Hguard.
    split; [not_status_set|done].
  - left. unfold OrderController.updateStatus. cbv zeta. rewrite Hguard.
    split; [by intros (? & ? & [=])|done].
Qed.

(** An add-on that is not answered 200 has written nothing. *)
Lemma addItemsToOrder_failure_unchanged (user : User.t) (_id : string)
    (newItems : option (list Order.Item)) (w : World) :
  code (VendorStaffController.addItemsToOrder user _id newItems w).1 ≠ 200 →
  orders (VendorStaffController.addItemsToOrder user _id newItems w).2 = orders w.
Proof.
  intros Hcode.
  destruct (find_in_scope w _id (User.vendorId user)) as [[k o]|] eqn:Hfind.
  2: { by destruct (addItemsToOrder_not_in_scope user _id newItems w Hfind). }
  apply find_in_scope_inv in Hfind as (_ & Ho & Hv). cbn in Ho, Hv.
  destruct newItems as [items|]; [|done].
  destruct (decide (items = [])) as [->|Hne]; [done|].
  destruct (forallb valid_item items) eqn:Hvalid.
  2: { unfold VendorStaffController.addItemsToOrder. cbv zeta.
       rewrite Hvalid. by destruct items. }
  destruct (decide (Order.status o = Billed ∨ Order.status o = Completed)) as [Hst|Hst].
  { by rewrite (addItemsToOrder_final user _id items w o). }
  assert (Order.status o ≠ Billed) as Hb by (intros ?; apply Hst; by left).
  assert (Order.status o ≠ Completed) as Hc by (intros ?; apply Hst; by right).
  destruct (decide (distinct_found (menu w) (User.vendorId user) items = length items))
    as [Hdr|Hdr].
  - apply distinct_in_catalog_iff in Hdr.
    rewrite (addItemsToOrder_priced user _id items w o) in Hcode |- * by done.
    by destruct (Order_validate (with_added w items o)).
  - rewrite <- distinct_in_catalog_iff in Hdr.
    by rewrite (addItemsToOrder_invalid_reference user _id items w o).
Qed.

Lemma getKitchenOrders_elem_of (user : User.t) (w : World) (d : OrderDoc) :
  d ∈ (getKitchenOrders user w).1
  ↔ orders w !! d.1 = Some d.2
    ∧ Order.vendorId d.2 = User.vendorId user
    ∧ Order.status d.2 ∈ [Pending; Kitchen].
Proof.
  unfold getKitchenOrders, bind, ret. cbv zeta.
  rewrite (surjective_pairing (Order_find_in _ _ _ w)). cbn [fst snd].
  apply Order_find_in_elem_of.
Qed.

Lemma OrderController_getBillingOrders_elem_of (user : User.t) (w : World) (d : OrderDoc) :
  d ∈ (OrderController_getBillingOrders user w).1
  ↔ orders w !! d.1 = Some d.2
    ∧ Order.vendorId d.2 = User.vendorId user
    ∧ Order.status d.2 ∈ [Ready; Served].
Proof.
  unfold OrderController_getBillingOrders, bind, ret. cbv zeta.
  rewrite (surjective_pairing (Order_find_in _ _ _ w)). cbn [fst snd].
  apply Order_find_in_elem_of.
Qed.

Lemma VendorStaffController_getBillingOrders_elem_of (user : User.t) (w : World)
    (d : OrderDoc) :
  d ∈ (VendorStaffController_getBillingOrders user w).1
  ↔ orders w !! d.1 = Some d.2
    ∧ Order.vendorId d.2 = User.vendorId user
    ∧ Order.status d.2 ∈ [Ready; Served; Completed].
Proof.
  unfold VendorStaffController_getBillingOrders, bind, ret. cbv zeta.
  rewrite (surjective_pairing (Order_find_in _ _ _ w)). cbn [fst snd].
  apply Order_find_in_elem_of.
Qed.

Lemma queues_keep_the_store (user : User.t) (w : World) :
  orders (getKitchenOrders user w).2 = orders w
  ∧ orders (OrderController_getBillingOrders user w).2 = orders w
  ∧ orders (VendorStaffController_getBillingOrders user w).2 = orders w.
Proof. done. Qed.

(** X2.  The billing queue of [orderController.js] lists exactly the stored
    orders of the caller's vendor that are [Ready] or [Served]; the queue of
    the later revision lists those and the [Completed] ones.  Both are
    ordered by table number and then by creation time, list each order
    once, and never list a [Billed] order. *)
Theorem getBillingOrders_queue (user : User.t) (w : World) :
  (∀ d, d ∈ (OrderController_getBillingOrders user w).1
        ↔ orders w !! d.1 = Some d.2
          ∧ Order.vendorId d.2 = User.vendorId user
          ∧ (Order.status d.2 = Ready ∨ Order.status d.2 = Served))
  ∧ (∀ d, d ∈ (VendorStaffController_getBillingOrders user w).1
          ↔ d ∈ (OrderController_getBillingOrders user w).1
            ∨ (orders w !! d.1 = Some d.2
               ∧ Order.vendorId d.2 = User.vendorId user
               ∧ Order.status d.2 = Completed))
  ∧ (∀ d, Order.status d.2 = Billed →
          (d ∉ (OrderController_getBillingOrders user w).1)
          ∧ (d ∉ (VendorStaffController_getBillingOrders user w).1))
  ∧ (StronglySorted by_table_then_created (OrderController_getBillingOrders user w).1
     ∧ StronglySorted by_table_then_created (VendorStaffController_getBillingOrders user w).1)
  ∧ (NoDup (OrderController_getBillingOrders user w).1
     ∧ NoDup (VendorStaffController_getBillingOrders user w).1).
Proof.
  split_and!.
  - intros d. rewrite OrderController_getBillingOrders_elem_of, !elem_of_cons, elem_of_nil.
    tauto.
  - intros d. rewrite VendorStaffController_getBillingOrders_elem_of,
      OrderController_getBillingOrders_elem_of, !elem_of_cons, elem_of_nil. tauto.
  - intros d Hb.
    rewrite VendorStaffController_getBillingOrders_elem_of,
      OrderController_getBillingOrders_elem_of, !elem_of_cons, elem_of_nil, Hb.
    split; intros (_ & _ & H); repeat destruct H as [H|H]; done.
  - unfold OrderController_getBillingOrders, bind, ret. cbv zeta.
    rewrite (surjective_pairing (Order_find_in _ _ _ w)). cbn [fst snd].
    apply StronglySorted_merge_sort; apply _.
  - unfold VendorStaffController_getBillingOrders, bind, ret. cbv zeta.
    rewrite (surjective_pairing (Order_find_in _ _ _ w)). cbn [fst snd].
    apply StronglySorted_merge_sort; apply _.
  - unfold OrderController_getBillingOrders, bind, ret. cbv zeta.
    rewrite (surjective_pairing (Order_find_in _ _ _ w)). cbn [fst snd].
    apply Order_find_in_NoDup.
  - unfold VendorStaffController_getBillingOrders, bind, ret. cbv zeta.
    rewrite (surjective_pairing (Order_find_in _ _ _ w)). cbn [fst snd].
    apply Order_find_in_NoDup.
Qed.


(** X3.  In the later revision no order of a shop is out of sight: it is on
    the kitchen queue, on the billing queue or in the undated report of its
    vendor, and an order on the kitchen queue is on neither of the other
    two. *)
Theorem every_order_is_listed (parseDate : string → option Z) (tzOffset : Z)
    (user : User.t) (w : World) (d : OrderDoc) :
  orders w !! d.1 = Some d.2 →
  Order.vendorId d.2 = User.vendorId user →
  let kitchen := (getKitchenOrders user w).1 in
  let billing := (VendorStaffController_getBillingOrders user w).1 in
  let report :=
    reported (VendorStaffController.getCompletedOrders parseDate tzOffset user
                None None w).1 in
  (d ∈ kitchen ∨ d ∈ billing ∨ d ∈ report)
  ∧ (d ∈ kitchen → (d ∉ billing) ∧ (d ∉ report)).
Proof.
  intros Ho Hv kitchen billing report. subst kitchen billing report.
  rewrite (getCompletedOrders_report parseDate tzOffset user None None w
             (VendorStaffController.mkQuery (User.vendorId user) [Billed; Completed] None))
    by reflexivity.
  cbn [fst reported body].
  rewrite getKitchenOrders_elem_of, VendorStaffController_getBillingOrders_elem_of,
    Order_find_sorted_elem_of, matches_iff. cbn.
  rewrite !elem_of_cons, elem_of_nil.
  destruct (Order.status d.2); split; try tauto;
    intros (_ & _ & H); split; intros H'; decompose [and or] H'; decompose [or] H; done.
Qed.

(** The three orders of January in [world_report], seen by the vendor. *)
Lemma every_order_is_listed_witness :
  (ord1, closed_order shop1 Billed 1705000000000)
  ∈ reported (VendorStaffController.getCompletedOrders parse_2024 tz_0530 vendor1
                None None world_report).1.
Proof.
  destruct (every_order_is_listed parse_2024 tz_0530 vendor1 world_report
              (ord1, closed_order shop1 Billed 1705000000000)) as [Hlisted _].
  - vm_compute. reflexivity.
  - reflexivity.
  - destruct Hlisted as [Hk|[Hb|Hr]]; [| |exact Hr].
    + apply getKitchenOrders_elem_of in Hk as (_ & _ & Hk).
      rewrite !elem_of_cons, elem_of_nil in Hk. cbn in Hk. decompose [or] Hk; done.
    + apply VendorStaffController_getBillingOrders_elem_of in Hb as (_ & _ & Hb).
      rewrite !elem_of_cons, elem_of_nil in Hb. cbn in Hb. decompose [or] Hb; done.
Defined.

(** X4.  An order that [createOrder] has created is on the kitchen queue of
    exactly the users of its vendor at once, and on no billing queue. *)
Theorem created_order_is_queued (user : User.t) (body : CreateBody) (w w' : World)
    (doc : OrderDoc) :
  createOrder user body w = (Res 201 (BOrder doc), w') →
  (∀ other, doc ∈ (getKitchenOrders other w').1
            ↔ User.vendorId other = User.vendorId user)
  ∧ (∀ other, (doc ∉ (OrderController_getBillingOrders other w').1)
              ∧ (doc ∉ (VendorStaffController_getBillingOrders other w').1)).
Proof.
  intros Hcreate.
  destruct (createOrder_outcome user body w)
    as [[msg H]|[[items H]|[(op1 & op2 & H)|(tn & items & -> & Hvalid & Hdr & H)]]];
    rewrite H in Hcreate; try discriminate Hcreate.
  injection Hcreate as <- <-.
  assert (orders (with_created user tn items w) !! (created user tn items w).1
          = Some (created user tn items w).2) as Hstored
    by (cbn; by rewrite lookup_insert_eq).
  split.
  - intros other. rewrite getKitchenOrders_elem_of, !elem_of_cons, elem_of_nil.
    cbn in *. split; [intros (_ & <- & _); done|]. intros ->. auto.
  - intros other.
    rewrite OrderController_getBillingOrders_elem_of,
      VendorStaffController_getBillingOrders_elem_of, !elem_of_cons, elem_of_nil.
    cbn. split; intros (_ & _ & H'); decompose [or] H'; done.
Qed.

Lemma created_order_is_queued_witness :
  created server1 5 [line itemA 2 5] world1
  ∈ (getKitchenOrders kitchen1 (with_created server1 5 [line itemA 2 5] world1)).1.
Proof.
  destruct (created_order_is_queued server1
              (mkCreateBody (Some 5%float) (Some [line itemA 2 5])) world1
              (with_created server1 5 [line itemA 2 5] world1)
              (created server1 5 [line itemA 2 5] world1)) as [Hkitchen _].
  - vm_compute. reflexivity.
  - apply Hkitchen. reflexivity.
Defined.

Lemma set_status_same (o : Order.t) : set_status (Order.status o) o = o.
Proof. by destruct o. Qed.

(** What the world holds under the id after [findOne] and [save]. *)
Lemma saved_lookup (_id vendorId : ObjectId) (st : Status) (o : Order.t) (w : World) :
  orders w !! _id = Some o →
  orders (saved _id vendorId (negb (status_eqb (Order.status o) st)) (set_status st o) w)
    !! _id
  = Some (stamped w (negb (status_eqb (Order.status o) st)) (set_status st o)).
Proof.
  intros Ho. unfold saved, stamped. cbn.
  destruct (status_eqb (Order.status o) st) eqn:Heq; cbn.
  - apply status_eqb_eq in Heq as <-. by rewrite set_status_same.
  - by rewrite lookup_insert_eq.
Qed.

Lemma saved_lookup_ne (_id vendorId k : ObjectId) (isModified : bool) (o : Order.t)
    (w : World) :
  k ≠ _id → orders (saved _id vendorId isModified o w) !! k = orders w !! k.
Proof.
  intros Hne. unfold saved. cbn. destruct isModified; [|done].
  by rewrite lookup_insert_ne.
Qed.

Lemma stamped_status (w : World) (isModified : bool) (o : Order.t) :
  Order.status (stamped w isModified o) = Order.status o
  ∧ Order.vendorId (stamped w isModified o) = Order.vendorId o.
Proof. unfold stamped. by destruct isModified. Qed.

(** X5.  In the later revision, an order whose status has just been set is
    on the kitchen queue exactly when the new status is [Pending] or
    [Kitchen], and on the billing queue exactly when it is [Ready], [Served]
    or [Completed]; the new status is the requested one. *)
Theorem status_change_moves_order (user : User.t) (_id : string)
    (newStatus : option string) (w : World) (msg : string) (doc : OrderDoc) :
  (VendorStaffController.updateStatus user _id newStatus w).1
    = Return (Res 200 (BMsgOrder msg doc)) →
  let w' := (VendorStaffController.updateStatus user _id newStatus w).2 in
  newStatus = Some (status_name (Order.status doc.2))
  ∧ (doc ∈ (getKitchenOrders user w').1
     ↔ Order.status doc.2 = Pending ∨ Order.status doc.2 = Kitchen)
  ∧ (doc ∈ (VendorStaffController_getBillingOrders user w').1
     ↔ Order.status doc.2 = Ready ∨ Order.status doc.2 = Served
       ∨ Order.status doc.2 = Completed).
Proof.
  intros Hres w'. subst w'.
  destruct (VendorStaffController_updateStatus_outcome user _id newStatus w)
    as [[Hnot _]|(o & st & -> & Hin & Ho & Hv & Hopen & Heq)].
  { exfalso. apply Hnot. rewrite Hres. by eexists _, _. }
  rewrite Heq in Hres |- *. cbn [fst snd] in *. injection Hres as _ <-.
  pose proof (saved_lookup (canonical _id) (User.vendorId user) st o w Ho) as Hstored.
  destruct (stamped_status w (negb (status_eqb (Order.status o) st)) (set_status st o))
    as [Hst Hvs].
  cbn [fst snd]. rewrite Hst. cbn [set_status Order.status].
  rewrite getKitchenOrders_elem_of, VendorStaffController_getBillingOrders_elem_of.
  cbn [fst snd]. rewrite Hst, Hvs, !elem_of_cons, elem_of_nil. cbn.
  split_and!; [done|tauto|tauto].
Qed.

(** The second example of the specification: the kitchen marks [ord1] ready. *)
Lemma status_change_moves_order_witness :
  (ord1, set_updatedAt 2000 (order1 Ready))
  ∈ (VendorStaffController_getBillingOrders kitchen1
       (VendorStaffController.updateStatus kitchen1 ord1 (Some "Ready")
          (world_with Kitchen)).2).1.
Proof.
  destruct (status_change_moves_order kitchen1 ord1 (Some "Ready") (world_with Kitchen)
              "Order status updated to Ready" (ord1, set_updatedAt 2000 (order1 Ready)))
    as (_ & _ & Hbilling).
  - vm_compute. reflexivity.
  - apply Hbilling. by left.
Defined.

(** X6.  After a successful add-on the order is on the kitchen queue and not
    on the billing queue, whatever its status was before. *)
Theorem added_to_order_is_back_in_kitchen (user : User.t) (_id : string)
    (newItems : option (list Order.Item)) (w : World) (msg : string) (doc : OrderDoc) :
  (VendorStaffController.addItemsToOrder user _id newItems w).1
    = Res 200 (BMsgOrder msg doc) →
  let w' := (VendorStaffController.addItemsToOrder user _id newItems w).2 in
  doc ∈ (getKitchenOrders user w').1
  ∧ (doc ∉ (VendorStaffController_getBillingOrders user w').1).
Proof.
  intros Hres w'. subst w'.
  assert (code (VendorStaffController.addItemsToOrder user _id newItems w).1 = 200)
    as Hcode by (by rewrite Hres).
  apply addItemsToOrder_success_inv in Hcode as (items & o & -> & Ho & Hv & Hdr & Heq).
  rewrite Heq in Hres |- *. cbn [fst snd] in *. injection Hres as _ <-.
  rewrite getKitchenOrders_elem_of, VendorStaffController_getBillingOrders_elem_of.
  cbn. rewrite lookup_insert_eq, !elem_of_cons, elem_of_nil.
  split.
  - split_and!; try done. destruct (Order.status o); cbn; auto.
  - intros (_ & _ & H). destruct (Order.status o); cbn in H; decompose [or] H; done.
Qed.

Lemma added_to_order_is_back_in_kitchen_witness :
  (ord1, with_added (world_with Ready) [line itemB 1 5] (order1 Ready))
  ∈ (getKitchenOrders kitchen1
       (VendorStaffController.addItemsToOrder server1 ord1 (Some [line itemB 1 5])
          (world_with Ready)).2).1.
Proof.
  destruct (added_to_order_is_back_in_kitchen server1 ord1 (Some [line itemB 1 5])
              (world_with Ready)
              "Successfully added 1 items to the order. Total updated."
              (ord1, with_added (world_with Ready) [line itemB 1 5] (order1 Ready)))
    as [Hkitchen _].
  - vm_compute. reflexivity.
  - apply getKitchenOrders_elem_of. apply getKitchenOrders_elem_of in Hkitchen.
    exact Hkitchen.
Defined.


(** ** Sequences of requests *)

Lemma denormalize_well_formed (menu0 : gmap ObjectId MenuItem.t) (vendorId : ObjectId)
    (items : list Order.Item) :
  forallb valid_item items = true →
  Forall well_formed_line (map (denormalize menu0 vendorId) items).
Proof.
  intros Hvalid. rewrite forallb_forall in Hvalid.
  apply Forall_map, Forall_forall. intros item Hin. unfold well_formed_line.
  rewrite valid_item_denormalize. by apply Hvalid, list_elem_of_In.
Qed.

Lemma cast_well_formed (items : list Order.Item) :
  Forall well_formed_line items → Forall well_formed_line (map Order.cast items).
Proof.
  intros Hall. apply Forall_map. eapply Forall_impl; [exact Hall|].
  intros item Hitem. unfold well_formed_line. by rewrite valid_item_cast.
Qed.

(** A successful add-on was made on an order that is neither billed nor
    completed. *)
Lemma addItemsToOrder_success_open (user : User.t) (_id : string)
    (items : list Order.Item) (w : World) (o : Order.t) :
  orders w !! canonical _id = Some o → Order.vendorId o = User.vendorId user →
  code (VendorStaffController.addItemsToOrder user _id (Some items) w).1 = 200 →
  Order.status o ≠ Billed ∧ Order.status o ≠ Completed.
Proof.
  intros Ho Hv Hcode.
  destruct (addItemsToOrder_success_valid _ _ _ _ _ Hcode Ho) as [Hvalid _].
  assert (items ≠ []) as Hne by (intros ->; done).
  split; intros Hst;
    rewrite (addItemsToOrder_final user _id items w o) in Hcode by auto;
    discriminate Hcode.
Qed.

Lemma getOrderById_keeps_the_store (user : User.t) (_id : string) (w : World) :
  orders (getOrderById user _id w).2 = orders w.
Proof.
  unfold getOrderById, bind. cbv zeta. rewrite Order_findOne_eq.
  by destruct (find_in_scope w _id (User.vendorId user)).
Qed.

(** What one request does to a stored order. *)
Lemma step_effect (older : bool) (req : Request) (w : World) (k : ObjectId) (o : Order.t) :
  orders w !! k = Some o →
  ∃ o', orders (step older req w) !! k = Some o'
        ∧ (o' = o ∨ touched_by older (caller req) o o').
Proof.
  intros Hk. destruct req as [user body|user|user|user _id|user _id newStatus
                              |user _id newItems]; cbn [step caller].
  - destruct (createOrder_outcome user body w)
      as [[msg H]|[[items H]|[(op1 & op2 & H)|(tn & items & -> & Hvalid & Hdr & H)]]]; rewrite H;
      try (exists o; split; [done|by left]).
    exists o. split; [|by left]. cbn.
    rewrite lookup_insert_ne; [done|]. intros Heq.
    pose proof (created_is_new user tn items w) as Hnew. cbn in Hnew. congruence.
  - exists o. by split; [|left].
  - exists o. destruct older; by split; [|left].
  - exists o. split; [by rewrite getOrderById_keeps_the_store|by left].
  - destruct older.
    + destruct (OrderController_updateStatus_outcome user _id newStatus w)
        as [[_ Hsame]|(o0 & st & -> & Hin & Ho & Hv & Hc & Hb & Heq)].
      { exists o. split; [by rewrite Hsame|by left]. }
      rewrite Heq. cbn [snd].
      destruct (decide (k = canonical _id)) as [->|Hne];
        [|exists o; split; [by rewrite saved_lookup_ne|by left]].
      assert (o0 = o) as -> by congruence.
      rewrite saved_lookup by done. eexists. split; [done|].
      unfold stamped. destruct (status_eqb (Order.status o) st) eqn:Hs; cbn.
      * left. apply status_eqb_eq in Hs as <-. apply set_status_same.
      * right. split; [done|]. left. by exists st, (now w).
    + destruct (VendorStaffController_updateStatus_outcome user _id newStatus w)
        as [[_ Hsame]|(o0 & st & -> & Hin & Ho & Hv & Hopen & Heq)].
      { exists o. split; [by rewrite Hsame|by left]. }
      rewrite Heq. cbn [snd].
      destruct (decide (k = canonical _id)) as [->|Hne];
        [|exists o; split; [by rewrite saved_lookup_ne|by left]].
      assert (o0 = o) as -> by congruence.
      rewrite saved_lookup by done. eexists. split; [done|].
      unfold stamped. destruct (status_eqb (Order.status o) st) eqn:Hs; cbn.
      * left. apply status_eqb_eq in Hs as <-. apply set_status_same.
      * right. split; [done|]. left. by exists st, (now w).
  - destruct older; [exists o; by split; [|left]|].
    destruct (decide (code (VendorStaffController.addItemsToOrder user _id newItems w).1
                      = 200)) as [Hcode|Hcode].
    2: { exists o. split; [|by left]. by rewrite addItemsToOrder_failure_unchanged. }
    pose proof Hcode as Hinv.
    apply addItemsToOrder_success_inv in Hinv as (items & o0 & -> & Ho & Hv & Hdr & Heq).
    destruct (addItemsToOrder_success_valid _ _ _ _ _ Hcode Ho) as [Hvalid Hok].
    destruct (addItemsToOrder_success_open _ _ _ _ _ Ho Hv Hcode) as [Hb Hc].
    rewrite Heq. cbn [snd added orders].
    destruct (decide (k = canonical _id)) as [->|Hne];
      [|exists o; split; [by rewrite lookup_insert_ne|by left]].
    assert (o0 = o) as -> by congruence.
    rewrite lookup_insert_eq. eexists. split; [done|]. right. split; [done|]. right.
    exists (map (denormalize (menu w) (Order.vendorId o)) items),
      (sum_lines (menu w) (Order.vendorId o) items 0), (now w).
    split_and!; try done.
    + by apply denormalize_well_formed.
    + rewrite (Order_validate_with_added items w o Hvalid) in Hok.
      by apply andb_prop in Hok as [_ Hok].
Qed.


Lemma run_cons (older : bool) (req : Request) (reqs : list Request) (w : World) :
  run older (req :: reqs) w = run older reqs (step older req w).
Proof. reflexivity. Qed.

(** X7.  Requests of callers of other vendors, in any number and order and
    in either revision, leave a stored order exactly as it is. *)
Theorem other_vendors_requests_change_nothing (older : bool) (reqs : list Request)
    (w : World) (k : ObjectId) (o : Order.t) :
  orders w !! k = Some o →
  Forall (λ req, User.vendorId (caller req) ≠ Order.vendorId o) reqs →
  orders (run older reqs w) !! k = Some o.
Proof.
  intros Hk Hreqs. revert w Hk.
  induction Hreqs as [|req reqs Hreq _ IH]; intros w Hk; [done|].
  rewrite run_cons. apply IH.
  destruct (step_effect older req w k o Hk) as (o' & Hk' & [->|[Hv _]]); [done|].
  by destruct Hreq.
Qed.

(** A server of [shop2] tries to serve, to extend and to bill [ord1] of
    [shop1]. *)
Lemma other_vendors_requests_change_nothing_witness :
  orders (run false [ReqStatus server2 ord1 (Some "Served");
                     ReqAddItems server2 ord1 (Some [line itemC 1 5]);
                     ReqCreate server2 (mkCreateBody (Some 3%float) (Some [line itemC 1 3]))]
            (world_with Ready)) !! ord1
  = Some (order1 Ready).
Proof.
  apply other_vendors_requests_change_nothing.
  - vm_compute. reflexivity.
  - repeat constructor; discriminate.
Defined.

(** X8.  Closed orders stay closed.  Under [orderController.js] no sequence
    of requests changes an order that is [Billed] or [Completed]; under the
    later revision no sequence of requests of callers other than the
    [Vendor] changes an order that is [Completed]. *)
Theorem closed_orders_stay_closed (reqs : list Request) (w : World) (k : ObjectId)
    (o : Order.t) :
  orders w !! k = Some o →
  (Order.status o = Billed ∨ Order.status o = Completed →
   orders (run true reqs w) !! k = Some o)
  ∧ (Order.status o = Completed →
     Forall (λ req, User.role (caller req) ≠ "Vendor") reqs →
     orders (run false reqs w) !! k = Some o).
Proof.
  intros Hk. split.
  - intros Hst. revert w Hk. induction reqs as [|req reqs IH]; intros w Hk; [done|].
    rewrite run_cons. apply IH.
    destruct (step_effect true req w k o Hk)
      as (o' & Hk' & [->|[_ [(st & t & _ & [Hc Hb] & _)|(? & ? & ? & [=] & _)]]]);
      [done|]. by destruct Hst.
  - intros Hst Hreqs. revert w Hk.
    induction Hreqs as [|req reqs Hreq _ IH]; intros w Hk; [done|].
    rewrite run_cons. apply IH.
    destruct (step_effect false req w k o Hk)
      as (o' & Hk' & [->|[_ [(st & t & _ & [Hc|Hr] & _)|(? & ? & ? & _ & Hc & _)]]]);
      done.
Qed.

(** The billing desk and the kitchen try to reopen the completed [ord1]. *)
Lemma closed_orders_stay_closed_witness :
  orders (run true [ReqStatus vendor1 ord1 (Some "Kitchen")] (world_with Completed)) !! ord1
  = Some (order1 Completed)
  ∧ orders (run false [ReqStatus kitchen1 ord1 (Some "Ready");
                       ReqAddItems server1 ord1 (Some [line itemB 1 5])]
              (world_with Completed)) !! ord1
    = Some (order1 Completed).
Proof.
  destruct (closed_orders_stay_closed [ReqStatus vendor1 ord1 (Some "Kitchen")]
              (world_with Completed) ord1 (order1 Completed)) as [Holder _];
    [vm_compute; reflexivity|].
  destruct (closed_orders_stay_closed [ReqStatus kitchen1 ord1 (Some "Ready");
                                       ReqAddItems server1 ord1 (Some [line itemB 1 5])]
              (world_with Completed) ord1 (order1 Completed)) as [_ Hlater];
    [vm_compute; reflexivity|].
  split.
  - apply Holder. by right.
  - apply Hlater; [reflexivity|]. repeat constructor; discriminate.
Defined.

Lemma continues_refl (o : Order.t) : continues o o.
Proof. by unfold continues. Qed.

Lemma continues_trans (o1 o2 o3 : Order.t) :
  continues o1 o2 → continues o2 o3 → continues o1 o3.
Proof.
  unfold continues. intros (? & ? & ? & ? & ? & ?) (? & ? & ? & ? & ? & ?).
  split_and!; try congruence. by etrans.
Qed.

Lemma touched_by_continues (older : bool) (user : User.t) (o o' : Order.t) :
  touched_by older user o o' → continues o o'.
Proof.
  intros [_ [(st & t & _ & _ & ->)|(items & total & t & _ & _ & _ & _ & _ & ->)]];
    unfold continues; cbn; split_and!; try done.
  by apply prefix_app_r.
Qed.

(** X9.  No sequence of requests, in either revision, removes a stored
    order, moves it to another vendor, table or server, changes its creation
    time, or removes or edits one of its lines: the lines it had stay at the
    head of its lines. *)
Theorem orders_only_grow (older : bool) (reqs : list Request) (w : World)
    (k : ObjectId) (o : Order.t) :
  orders w !! k = Some o →
  ∃ o', orders (run older reqs w) !! k = Some o'
        ∧ Order.vendorId o' = Order.vendorId o
        ∧ Order.tableNumber o' = Order.tableNumber o
        ∧ Order.server o' = Order.server o
        ∧ Order.createdAt o' = Order.createdAt o
        ∧ Order.items o `prefix_of` Order.items o'.
Proof.
  intros Hk.
  assert (∃ o', orders (run older reqs w) !! k = Some o' ∧ continues o o') as Hgoal.
  { revert w o Hk. induction reqs as [|req reqs IH]; intros w o Hk.
    - exists o. split; [done|apply continues_refl].
    - rewrite run_cons.
      destruct (step_effect older req w k o Hk) as (o1 & Hk1 & Hstep).
      destruct (IH _ _ Hk1) as (o' & Hk' & Hcont). exists o'. split; [done|].
      apply (continues_trans _ o1); [|done].
      destruct Hstep as [->|Ht]; [apply continues_refl|by eapply touched_by_continues]. }
  destruct Hgoal as (o' & Hk' & Hv & Htn & Hs & Hc & _ & Hitems). by exists o'.
Qed.

(** The dosas of [ord1] are still its first line after a tea is added and
    the order is marked ready. *)
Lemma orders_only_grow_witness :
  ∃ o', orders (run false [ReqAddItems server1 ord1 (Some [line itemB 1 5]);
                           ReqStatus kitchen1 ord1 (Some "Ready")]
                  (world_with Kitchen)) !! ord1 = Some o'
        ∧ Order.items (order1 Kitchen) `prefix_of` Order.items o'.
Proof.
  destruct (orders_only_grow false [ReqAddItems server1 ord1 (Some [line itemB 1 5]);
                                    ReqStatus kitchen1 ord1 (Some "Ready")]
              (world_with Kitchen) ord1 (order1 Kitchen))
    as (o' & Hk & _ & _ & _ & _ & Hitems); [vm_compute; reflexivity|].
  exists o'. by split.
Defined.

(** An order that a request has added to the store was created by it. *)
Lemma step_new_order (older : bool) (req : Request) (w : World) (k : ObjectId)
    (o' : Order.t) :
  orders w !! k = None →
  orders (step older req w) !! k = Some o' →
  ∃ user tn items,
    req = ReqCreate user (mkCreateBody (Some tn) (Some items))
    ∧ forallb valid_item items = true
    ∧ distinct_in_catalog (menu w) (User.vendorId user) items
    ∧ (k, o') = created user tn items w
    ∧ Order_validate o' = true.
Proof.
  intros Hnone Hk'.
  destruct req as [user body|user|user|user _id|user _id newStatus|user _id newItems];
    cbn [step] in Hk'.
  - destruct (createOrder_outcome user body w)
      as [[msg H]|[[items H]|[(op1 & op2 & H)|(tn & items & -> & Hvalid & Hdr & H)]]]; rewrite H in Hk';
      cbn in Hk'; try congruence.
    exists user, tn, items.
    assert ((k, o') = created user tn items w) as Hcreated.
    { destruct (decide (k = fresh (dom (orders w)))) as [->|Hne].
      - rewrite lookup_insert_eq in Hk'. injection Hk' as <-. done.
      - rewrite lookup_insert_ne in Hk' by done. congruence. }
    split_and!; try done.
    pose proof (createOrder_stores_valid user tn items w H Hvalid) as Hok.
    by rewrite <- Hcreated in Hok.
  - cbn in Hk'. congruence.
  - destruct older; cbn in Hk'; congruence.
  - rewrite getOrderById_keeps_the_store in Hk'. congruence.
  - destruct older.
    + destruct (OrderController_updateStatus_outcome user _id newStatus w)
        as [[_ Hsame]|(o0 & st & -> & Hin & Ho & Hv & Hc & Hb & Heq)];
        [rewrite Hsame in Hk'; congruence|].
      rewrite Heq in Hk'. cbn [snd] in Hk'.
      rewrite saved_lookup_ne in Hk' by congruence. congruence.
    + destruct (VendorStaffController_updateStatus_outcome user _id newStatus w)
        as [[_ Hsame]|(o0 & st & -> & Hin & Ho & Hv & Hopen & Heq)];
        [rewrite Hsame in Hk'; congruence|].
      rewrite Heq in Hk'. cbn [snd] in Hk'.
      rewrite saved_lookup_ne in Hk' by congruence. congruence.
  - destruct older; [congruence|].
    destruct (decide (code (VendorStaffController.addItemsToOrder user _id newItems w).1
                      = 200)) as [Hcode|Hcode].
    2: { rewrite addItemsToOrder_failure_unchanged in Hk' by done. congruence. }
    apply addItemsToOrder_success_inv in Hcode as (items & o0 & -> & Ho & Hv & Hdr & Heq).
    rewrite Heq in Hk'. cbn in Hk'.
    rewrite lookup_insert_ne in Hk' by congruence. congruence.
Qed.

Lemma touched_by_well_formed (older : bool) (user : User.t) (o o' : Order.t) :
  touched_by older user o o' → well_formed_order o → well_formed_order o'.
Proof.
  intros [_ [(st & t & _ & _ & ->)|(items & total & t & _ & _ & _ & Hnew & Hok & ->)]]
    [Hvalid Hold]; [done|].
  split.
  - unfold Order_validate in *. cbn.
    apply andb_prop in Hvalid as [[Htn Hitems]%andb_prop _].
    rewrite Htn, Hok, forallb_app, Hitems. cbn. rewrite andb_true_r.
    apply forallb_forall. intros item [item0 [<- Hin]]%in_map_iff.
    apply valid_item_validate. rewrite valid_item_cast.
    rewrite Forall_forall in Hnew. by apply Hnew, list_elem_of_In.
  - cbn. apply Forall_app. split; [done|]. by apply cast_well_formed.
Qed.

(** X10.  Every stored order is a document that the schema accepts (its
    table number and its total are Numbers, and every line has an item, a
    quantity and a table number), and every stored line names a menu item
    and has a quantity above zero and a table number that is not zero: if
    this holds of the orders in the store, it holds after any sequence of
    requests, in either revision. *)
Theorem stored_orders_stay_well_formed (older : bool) (reqs : list Request) (w : World) :
  (∀ k o, orders w !! k = Some o → well_formed_order o) →
  ∀ k o, orders (run older reqs w) !! k = Some o → well_formed_order o.
Proof.
  revert w. induction reqs as [|req reqs IH]; intros w Hinv; [done|].
  rewrite run_cons. apply IH. intros k o' Hk'.
  destruct (orders w !! k) as [o|] eqn:Hk.
  - destruct (step_effect older req w k o Hk) as (o1 & Hk1 & Hstep).
    assert (o1 = o') as -> by congruence.
    destruct Hstep as [->|Ht]; [by eapply Hinv|].
    eapply touched_by_well_formed; [done|by eapply Hinv].
  - destruct (step_new_order older req w k o' Hk Hk')
      as (user & tn & items & _ & Hvalid & _ & Heq & Hok).
    split; [done|]. injection Heq as _ ->. cbn.
    by apply cast_well_formed, denormalize_well_formed.
Qed.

(** The order [ord1] after a tea is added to it and another order is
    created. *)
Lemma stored_orders_stay_well_formed_witness :
  ∃ o, orders (run false [ReqAddItems server1 ord1 (Some [line itemB 1 5]);
                          ReqCreate server1
                            (mkCreateBody (Some 5%float) (Some [line itemA 2 5]))]
                 (world_with Kitchen)) !! ord1 = Some o
       ∧ well_formed_order o.
Proof.
  assert (∀ k o, orders (world_with Kitchen) !! k = Some o → well_formed_order o) as Hinv.
  { intros k o Hk. unfold world_with in Hk. cbn [orders] in Hk.
    apply lookup_singleton_Some in Hk as [_ <-].
    split; [reflexivity|]. by repeat constructor. }
  eexists. split; [vm_compute; reflexivity|].
  apply (stored_orders_stay_well_formed false
           [ReqAddItems server1 ord1 (Some [line itemB 1 5]);
            ReqCreate server1 (mkCreateBody (Some 5%float) (Some [line itemA 2 5]))]
           (world_with Kitchen) Hinv ord1).
  vm_compute; reflexivity.
Defined.


(** ** Single requests *)

Lemma updateStatus_of_outcome (older : bool) (user : User.t) (_id : string)
    (newStatus : option string) (w : World) :
  (¬ status_set (updateStatus_of older user _id newStatus w).1
   ∧ orders (updateStatus_of older user _id newStatus w).2 = orders w)
  ∨ (∃ o st,
       newStatus = Some (status_name st)
       ∧ status_name st ∈ allowedSet (User.role user)
       ∧ orders w !! canonical _id = Some o
       ∧ Order.vendorId o = User.vendorId user
       ∧ updateStatus_of older user _id newStatus w
         = (Return (status_updated (status_name st)
                      (canonical _id, stamped w (negb (status_eqb (Order.status o) st))
                                        (set_status st o))),
            saved (canonical _id) (User.vendorId user)
                  (negb (status_eqb (Order.status o) st)) (set_status st o) w)).
Proof.
  destruct older; cbn [updateStatus_of].
  - destruct (OrderController_updateStatus_outcome user _id newStatus w)
      as [H|(o & st & H1 & H2 & H3 & H4 & _ & _ & H5)]; [by left|].
    right. by exists o, st.
  - destruct (VendorStaffController_updateStatus_outcome user _id newStatus w)
      as [H|(o & st & H1 & H2 & H3 & H4 & _ & H5)]; [by left|].
    right. by exists o, st.
Qed.

(** X11.  A request that is not answered with success stores nothing: the
    orders are as they were after a [createOrder] that does not answer 201,
    after an [updateStatus] (of either revision) that does not answer 200,
    and after an [addItemsToOrder] that does not answer 200. *)
Theorem failed_requests_store_nothing (user : User.t) (_id : string) (w : World) :
  (∀ body, code (createOrder user body w).1 ≠ 201 →
           orders (createOrder user body w).2 = orders w)
  ∧ (∀ older newStatus,
       ¬ status_set (updateStatus_of older user _id newStatus w).1 →
       orders (updateStatus_of older user _id newStatus w).2 = orders w)
  ∧ (∀ newItems,
       code (VendorStaffController.addItemsToOrder user _id newItems w).1 ≠ 200 →
       orders (VendorStaffController.addItemsToOrder user _id newItems w).2 = orders w).
Proof.
  split_and!.
  - intros body Hcode.
    destruct (createOrder_outcome user body w)
      as [[msg H]|[[items H]|[(op1 & op2 & H)|(tn & items & _ & _ & _ & H)]]]; rewrite H in Hcode |- *;
      done.
  - intros older newStatus Hnot.
    destruct (updateStatus_of_outcome older user _id newStatus w)
      as [[_ H]|(o & st & _ & _ & _ & _ & H)]; [done|].
    exfalso. apply Hnot. rewrite H. by eexists _, _.
  - intros newItems. apply addItemsToOrder_failure_unchanged.
Qed.

(** A server may not bill: the order stays as it is. *)
Lemma failed_requests_store_nothing_witness :
  orders (updateStatus_of false server1 ord1 (Some "Billed") (world_with Served)).2
  = orders (world_with Served).
Proof.
  destruct (failed_requests_store_nothing server1 ord1 (world_with Served))
    as (_ & Hstatus & _).
  apply Hstatus. intros (msg & doc & H). vm_compute in H. discriminate H.
Defined.

(** X12.  A successful [updateStatus], in either revision, replaces one
    stored order of the caller's vendor, the one that the id of the request
    is cast to, and nothing else.  The new status is
    the requested one and is in the row of the caller's role; every other
    field but [updatedAt] is kept.  When the order had the status already
    the document is not written; otherwise [updatedAt] is the time of the
    request. *)
Theorem updateStatus_changes_one_status (older : bool) (user : User.t) (_id : string)
    (newStatus : option string) (w : World) :
  status_set (updateStatus_of older user _id newStatus w).1 →
  ∃ o o',
    orders w !! canonical _id = Some o
    ∧ Order.vendorId o = User.vendorId user
    ∧ orders (updateStatus_of older user _id newStatus w).2
      = <[canonical _id := o']> (orders w)
    ∧ newStatus = Some (status_name (Order.status o'))
    ∧ status_name (Order.status o') ∈ allowedSet (User.role user)
    ∧ set_updatedAt (Order.updatedAt o) (set_status (Order.status o) o') = o
    ∧ (Order.status o' = Order.status o → o' = o)
    ∧ (Order.status o' ≠ Order.status o → Order.updatedAt o' = now w).
Proof.
  intros Hset.
  destruct (updateStatus_of_outcome older user _id newStatus w)
    as [[Hnot _]|(o & st & -> & Hin & Ho & Hv & Heq)]; [done|].
  rewrite Heq. cbn [snd].
  exists o, (stamped w (negb (status_eqb (Order.status o) st)) (set_status st o)).
  unfold saved, stamped. cbn [orders].
  destruct (status_eqb (Order.status o) st) eqn:Hst; cbn [negb].
  - apply status_eqb_eq in Hst as <-. rewrite set_status_same.
    split_and!; try done.
    + by rewrite insert_id.
    + by destruct o.
  - split_and!; try done; cbn.
    + by destruct o.
    + intros ->. by rewrite status_eqb_refl in Hst.
Qed.

(** The kitchen marks [ord1] ready at time 2000. *)
Lemma updateStatus_changes_one_status_witness :
  ∃ o', orders (updateStatus_of true kitchen1 ord1 (Some "Ready") (world_with Kitchen)).2
        = <[ord1 := o']> (orders (world_with Kitchen))
        ∧ Order.status o' = Ready.
Proof.
  destruct (updateStatus_changes_one_status true kitchen1 ord1 (Some "Ready")
              (world_with Kitchen))
    as (o & o' & _ & _ & Hw & Hst & _).
  - eexists _, _. vm_compute. reflexivity.
  - exists o'. split; [exact Hw|].
    injection Hst as Hst. by destruct (Order.status o').
Defined.

(** X13.  A [createOrder] answered with 201 adds one document under an id
    that was not in use and changes no stored order.  The document is in the
    kitchen, belongs to the caller's vendor, names the caller as its server,
    has the table number of the request and the time of the request as
    [createdAt] and [updatedAt], and its lines are the lines of the request,
    in their order, each with its menu item, quantity, table, add-ons and
    notes. *)
Theorem createOrder_adds_one_order (user : User.t) (body : CreateBody) (w w' : World)
    (doc : OrderDoc) :
  createOrder user body w = (Res 201 (BOrder doc), w') →
  orders w !! doc.1 = None
  ∧ orders w' = <[doc.1 := doc.2]> (orders w)
  ∧ Order.status doc.2 = Kitchen
  ∧ Order.vendorId doc.2 = User.vendorId user
  ∧ Order.server doc.2 = Some (User.id user)
  ∧ cb_tableNumber body = Some (Order.tableNumber doc.2)
  ∧ Order.createdAt doc.2 = now w ∧ Order.updatedAt doc.2 = now w
  ∧ Order.paymentMethod doc.2 = None
  ∧ map requested <$> cb_items body = Some (map requested (Order.items doc.2)).
Proof.
  intros Hcreate.
  destruct (createOrder_outcome user body w)
    as [[msg H]|[[items H]|[(op1 & op2 & H)|(tn & items & -> & Hvalid & Hdr & H)]]];
    rewrite H in Hcreate; try discriminate Hcreate.
  injection Hcreate as <- <-.
  split_and!; try done.
  - apply created_is_new.
  - cbn. f_equal. rewrite !map_map. apply map_ext. intros item.
    unfold requested, denormalize.
    destruct (resolve _ _ _); cbn; destruct (Order.menuItemId item); cbn;
      by rewrite ?canonical_idem.
Qed.

Lemma createOrder_adds_one_order_witness :
  orders (with_created server1 5 [line itemA 2 5] world1)
  = <[(created server1 5 [line itemA 2 5] world1).1
      := (created server1 5 [line itemA 2 5] world1).2]> (orders world1).
Proof.
  destruct (createOrder_adds_one_order server1
              (mkCreateBody (Some 5%float) (Some [line itemA 2 5])) world1
              (with_created server1 5 [line itemA 2 5] world1)
              (created server1 5 [line itemA 2 5] world1)) as (_ & Hw & _).
  - vm_compute. reflexivity.
  - exact Hw.
Defined.


(** ** The catalog under the order requests *)

Lemma keeps_catalog_ret {A} (a : A) : keeps_catalog (ret a).
Proof. done. Qed.

Lemma keeps_catalog_bind {A B} (m : M A) (k : A → M B) :
  keeps_catalog m → (∀ a, keeps_catalog (k a)) → keeps_catalog (bind m k).
Proof.
  intros Hm Hk w. unfold bind. destruct (m w) as [a w1] eqn:Hmw.
  destruct (Hm w) as [H1 H2]. rewrite Hmw in H1, H2. cbn in H1, H2.
  destruct (Hk a w1) as [H3 H4]. split; congruence.
Qed.

Lemma keeps_catalog_log (op : DbOp) : keeps_catalog (log op).
Proof. done. Qed.

Lemma keeps_catalog_MenuItem_find (ids : list (option ObjectId)) (vendorId : ObjectId) :
  keeps_catalog (MenuItem_find ids vendorId).
Proof. done. Qed.

Lemma keeps_catalog_Order_findOne (_id vendorId : ObjectId) :
  keeps_catalog (Order_findOne _id vendorId).
Proof. done. Qed.

Lemma keeps_catalog_Order_save (isModified : bool) (doc : OrderDoc) :
  keeps_catalog (Order_save isModified doc).
Proof. intros w. rewrite Order_save_eq. by destruct (Order_validate doc.2). Qed.

Lemma keeps_catalog_Order_new (tableNumber : float) (items : list Order.Item)
    (server vendorId : ObjectId) (totalAmount : float) (status : Status) :
  keeps_catalog (Order_new tableNumber items server vendorId totalAmount status).
Proof. done. Qed.

Lemma keeps_catalog_Order_find_in (vendorId : ObjectId) (statuses : list Status)
    (sort : relation OrderDoc) `{!∀ a b, Decision (sort a b)} :
  keeps_catalog (Order_find_in vendorId statuses sort).
Proof. done. Qed.

Ltac keeps_catalog :=
  repeat first
    [ apply keeps_catalog_ret
    | apply keeps_catalog_log
    | apply keeps_catalog_MenuItem_find
    | apply keeps_catalog_Order_findOne
    | apply keeps_catalog_Order_save
    | apply keeps_catalog_Order_new
    | apply keeps_catalog_Order_find_in
    | apply keeps_catalog_bind; [|intros ?]
    | progress cbv zeta
    | case_match ].

Lemma keeps_catalog_calculateTotalAmount (items : list Order.Item) (vendorId : ObjectId) :
  keeps_catalog (calculateTotalAmount items vendorId).
Proof. unfold calculateTotalAmount. keeps_catalog. Qed.

Lemma keeps_catalog_step (older : bool) (req : Request) (w : World) :
  menu (step older req w) = menu w ∧ now (step older req w) = now w.
Proof.
  destruct req as [user body|user|user|user _id|user _id newStatus|user _id newItems];
    cbn [step].
  - revert w. change (keeps_catalog (createOrder user body)).
    unfold createOrder.
    repeat first [ apply keeps_catalog_calculateTotalAmount | keeps_catalog ].
  - revert w. change (keeps_catalog (getKitchenOrders user)).
    unfold getKitchenOrders. keeps_catalog.
  - destruct older; revert w.
    + change (keeps_catalog (OrderController_getBillingOrders user)).
      unfold OrderController_getBillingOrders. keeps_catalog.
    + change (keeps_catalog (VendorStaffController_getBillingOrders user)).
      unfold VendorStaffController_getBillingOrders. keeps_catalog.
  - revert w. change (keeps_catalog (getOrderById user _id)).
    unfold getOrderById. keeps_catalog.
  - destruct older; revert w.
    + change (keeps_catalog (OrderController.updateStatus user _id newStatus)).
      unfold OrderController.updateStatus, assign_status_and_save. keeps_catalog.
    + change (keeps_catalog (VendorStaffController.updateStatus user _id newStatus)).
      unfold VendorStaffController.updateStatus, assign_status_and_save. keeps_catalog.
  - destruct older; [done|]. revert w.
    change (keeps_catalog (VendorStaffController.addItemsToOrder user _id newItems)).
    unfold VendorStaffController.addItemsToOrder.
    repeat first [ apply keeps_catalog_calculateTotalAmount | keeps_catalog ].
Qed.

(** X14.  No sequence of order requests, in either revision, changes the
    catalog: the items, their names and their prices are as they were. *)
Theorem order_requests_keep_the_catalog (older : bool) (reqs : list Request) (w : World) :
  menu (run older reqs w) = menu w.
Proof.
  revert w. induction reqs as [|req reqs IH]; intros w; [done|].
  rewrite run_cons, IH. apply keeps_catalog_step.
Qed.


(** ** The middleware and the routes *)

Section Middleware.
Variable jwt_verify : string → Outcome (option User.t).


Lemma auth_outcome (requiredRoles : RequiredRoles) (token : option string) :
  (∀ user,
     auth jwt_verify requiredRoles token = Next user
     ↔ ∃ t, token = Some t ∧ t ≠ "" ∧ jwt_verify t = Return user
            ∧ (role_list requiredRoles = []
               ∨ ∃ u, user = Some u ∧ User.role u ∈ role_list requiredRoles))
  ∧ (∀ r,
       auth jwt_verify requiredRoles token = Answered r →
       code r = 401
       ∨ (code r = 403
          ∧ ∃ t u, token = Some t ∧ jwt_verify t = Return (Some u)
                   ∧ User.role u ∉ role_list requiredRoles)).
Proof.
  unfold auth.
  destruct token as [t|].
  2: { split; [|intros r [= <-]; by left].
       intros user. split; [done|]. by intros (t & ? & _). }
  unfold truthy_str. destruct (String.eqb_spec t "") as [->|Hne]; cbn [negb].
  { split; [|intros r [= <-]; by left].
    intros user. split; [done|]. by intros (t & [= <-] & ? & _). }
  destruct (jwt_verify t) as [payload|err] eqn:Hverify; cbv zeta.
  2: { split; [|intros r [= <-]; by left].
       intros user. split; [done|]. intros (t' & [= <-] & _ & ? & _). congruence. }
  destruct (role_list requiredRoles) as [|role roles] eqn:Hroles.
  { cbn [length Nat.ltb Nat.leb]. split; [|done].
    intros user. split.
    - intros [= <-]. exists t. split_and!; try done. by left.
    - intros (t' & [= <-] & _ & H & _). congruence. }
  cbn [length Nat.ltb Nat.leb].
  destruct payload as [u|].
  2: { split; [|intros r [= <-]; by left].
       intros user. split; [done|].
       intros (t' & [= <-] & _ & H & [?|(u & -> & _)]); congruence. }
  destruct (array_includes (role :: roles) (User.role u)) eqn:Hinc; cbn [negb].
  - apply array_includes_true in Hinc. split; [|done].
    intros user. split.
    + intros [= <-]. exists t. split_and!; try done. right. by exists u.
    + intros (t' & [= <-] & _ & H & _). congruence.
  - assert (User.role u ∉ role :: roles) as Hout.
    { intros Hin%array_includes_true. congruence. }
    split.
    + intros user. split; [done|].
      intros (t' & [= <-] & _ & H & [?|(u' & -> & Hin)]); [done|]. congruence.
    + intros r [= <-]. right. split; [done|]. by exists t, u.
Qed.

(** X15.  [auth] calls [next()] exactly for a non-empty token that
    [jwt.verify] accepts and, when roles are requested, whose payload has a
    user with one of them; [req.user] is then the payload's user.  Otherwise
    it answers 401, or 403 when the token is accepted and its user has none
    of the requested roles. *)
Theorem auth_admits (requiredRoles : RequiredRoles) (token : option string) :
  (∀ user,
     auth jwt_verify requiredRoles token = Next user
     ↔ ∃ t, token = Some t ∧ t ≠ "" ∧ jwt_verify t = Return user
            ∧ (role_list requiredRoles = []
               ∨ ∃ u, user = Some u ∧ User.role u ∈ role_list requiredRoles))
  ∧ (∀ r,
       auth jwt_verify requiredRoles token = Answered r →
       code r = 401
       ∨ (code r = 403
          ∧ ∃ t u, token = Some t ∧ jwt_verify t = Return (Some u)
                   ∧ User.role u ∉ role_list requiredRoles)).
Proof. apply auth_outcome. Qed.

(** X16.  A role check that comes after a bare [auth()], as in the menu
    routes, does what the role check does alone, and [auth('R')] does what
    [auth(['R'])] does. *)
Theorem auth_in_a_row (requiredRoles : RequiredRoles) (role : string)
    (token : option string) :
  chain (auth jwt_verify NoRoles) (auth jwt_verify requiredRoles) token
  = auth jwt_verify requiredRoles token
  ∧ auth jwt_verify (OneRole role) token = auth jwt_verify (RoleArray [role]) token.
Proof.
  split; [|done].
  unfold chain, auth.
  destruct token as [t|]; [|done].
  destruct (negb (truthy_str t)); [done|].
  by destruct (jwt_verify t).
Qed.

Lemma admitted_inv (later : bool) (c : Call) (req : Request) :
  admitted jwt_verify later c = Some req →
  ∃ t u roles,
    call_token c = Some t ∧ jwt_verify t = Return (Some u)
    ∧ route_roles later (call_route c) = Some roles
    ∧ User.role u ∈ roles
    ∧ req = request_of (call_route c) u.
Proof.
  unfold admitted.
  destruct (route_roles later (call_route c)) as [roles|] eqn:Hroles; [|done].
  destruct (auth jwt_verify (RoleArray roles) (call_token c)) as [[u|]|r] eqn:Hauth; try done.
  intros [= <-].
  apply (auth_outcome (RoleArray roles) (call_token c)) in Hauth
    as (t & Htoken & _ & Hverify & Hrole).
  exists t, u, roles. split_and!; try done.
  assert (role_list (RoleArray roles) = roles) as Hlist.
  { destruct later, (call_route c); cbn in Hroles; try discriminate Hroles;
      by injection Hroles as <-. }
  rewrite Hlist in Hrole.
  destruct Hrole as [->|(u' & [= <-] & Hin)]; [|done].
  destruct later, (call_route c); cbn in Hroles; done.
Qed.




Lemma step_without_lines (older : bool) (req : Request) (w : World) (k : ObjectId) :
  (∀ user body, req ≠ ReqCreate user body) →
  (∀ user _id newItems, req ≠ ReqAddItems user _id newItems) →
  match orders w !! k with
  | Some o => ∃ o', orders (step older req w) !! k = Some o' ∧ same_but_status o o'
  | None => orders (step older req w) !! k = None
  end.
Proof.
  intros Hcreate Hadd.
  assert (∀ o : Order.t, same_but_status o o) as Hrefl by (by intros []).
  destruct (orders w !! k) as [o|] eqn:Hk.
  2: { destruct (orders (step older req w) !! k) as [o'|] eqn:Hk'; [|done].
       destruct (step_new_order older req w k o' Hk Hk') as (user & tn & items & -> & _).
       by destruct (Hcreate user (mkCreateBody (Some tn) (Some items))). }
  destruct req as [user body|user|user|user _id|user _id newStatus|user _id newItems];
    cbn [step].
  - by destruct (Hcreate user body).
  - exists o. by rewrite (proj1 (queues_keep_the_store user w)).
  - exists o. destruct (queues_keep_the_store user w) as (_ & H1 & H2).
    destruct older; by rewrite ?H1, ?H2.
  - exists o. by rewrite getOrderById_keeps_the_store.
  - change (if older then (OrderController.updateStatus user _id newStatus w).2
            else (VendorStaffController.updateStatus user _id newStatus w).2)
      with (if older then (updateStatus_of true user _id newStatus w).2
            else (updateStatus_of false user _id newStatus w).2).
    assert ((if older then (updateStatus_of true user _id newStatus w).2
             else (updateStatus_of false user _id newStatus w).2)
            = (updateStatus_of older user _id newStatus w).2) as -> by (by destruct older).
    destruct (updateStatus_of_outcome older user _id newStatus w)
      as [[_ ->]|(o0 & st & _ & _ & Ho & _ & ->)]; [by exists o|].
    cbn [snd]. destruct (decide (k = canonical _id)) as [->|Hne].
    + assert (o0 = o) as -> by congruence.
      rewrite saved_lookup by done. eexists. split; [done|].
      unfold same_but_status, stamped. destruct (negb _); by destruct o.
    + rewrite saved_lookup_ne by done. by exists o.
  - by destruct (Hadd user _id newItems).
Qed.

Lemma serve_all_cons (later older : bool) (c : Call) (calls : list Call) (w : World) :
  serve_all jwt_verify later older (c :: calls) w
  = serve_all jwt_verify later older calls (serve jwt_verify later older c w).
Proof. reflexivity. Qed.

Lemma same_but_status_trans (o1 o2 o3 : Order.t) :
  same_but_status o1 o2 → same_but_status o2 o3 → same_but_status o1 o3.
Proof.
  unfold same_but_status. destruct o1, o2, o3. cbn. intros [= -> -> -> -> -> -> ->].
  by intros [= -> -> -> -> -> -> ->].
Qed.

(** X18.  Role separation at the later routes.  Calls whose tokens belong to
    users that are neither [Server] nor [Vendor] (kitchen and billing
    staff), in any number and with any parameters, create no order and
    change nothing of a stored order but [status] and [updatedAt]: lines,
    total, table, server and vendor are as they were. *)
Theorem only_servers_and_vendors_write_lines (calls : list Call) (w : World) :
  Forall (λ c, ∀ t u, call_token c = Some t → jwt_verify t = Return (Some u) →
                      User.role u ∉ ["Server"; "Vendor"]) calls →
  ∀ k,
    match orders w !! k with
    | Some o => ∃ o', orders (serve_all jwt_verify true false calls w) !! k = Some o'
                      ∧ same_but_status o o'
    | None => orders (serve_all jwt_verify true false calls w) !! k = None
    end.
Proof.
  intros Hcalls. revert w.
  induction Hcalls as [|c calls Hc _ IH]; intros w k.
  { unfold serve_all. cbn [fold_left].
    destruct (orders w !! k) as [o|]; [|done]. exists o. by destruct o. }
  rewrite serve_all_cons.
  assert (match orders w !! k with
          | Some o => ∃ o', orders (serve jwt_verify true false c w) !! k = Some o'
                            ∧ same_but_status o o'
          | None => orders (serve jwt_verify true false c w) !! k = None
          end) as Hstep.
  { unfold serve. destruct (admitted jwt_verify true c) as [req|] eqn:Hadm.
    2: { destruct (orders w !! k) as [o|]; [|done]. exists o. by destruct o. }
    apply admitted_inv in Hadm as (t & u & roles & Htoken & Hverify & Hroles & Hin & ->).
    specialize (Hc t u Htoken Hverify).
    apply step_without_lines.
    - intros user body Heq. destruct (call_route c); try discriminate Heq.
      cbn in Hroles. injection Hroles as <-. done.
    - intros user _id newItems Heq. destruct (call_route c); try discriminate Heq.
      cbn in Hroles. injection Hroles as <-. done. }
  specialize (IH (serve jwt_verify true false c w) k).
  destruct (orders w !! k) as [o|].
  - destruct Hstep as (o1 & Hk1 & H1). rewrite Hk1 in IH.
    destruct IH as (o' & Hk' & H'). exists o'. split; [done|].
    by apply (same_but_status_trans _ o1).
  - by rewrite Hstep in IH.
Qed.

End Middleware.

(** The kitchen marks [ord1] ready and then tries to open an order and to
    add a tea. *)
Lemma only_servers_and_vendors_write_lines_witness :
  ∃ o', orders (serve_all example_verify true false
                  [mkCall (Some "token-of-kitchen1") (PutStatus ord1 (Some "Ready"));
                   mkCall (Some "token-of-kitchen1")
                     (PostOrder (mkCreateBody (Some 5%float) (Some [line itemA 2 5])));
                   mkCall (Some "token-of-kitchen1")
                     (PutItems ord1 (Some [line itemB 1 5]))]
                  (world_with Kitchen)) !! ord1 = Some o'
        ∧ same_but_status (order1 Kitchen) o'.
Proof.
  assert (Forall (λ c, ∀ t u, call_token c = Some t →
                              example_verify t = Return (Some u) →
                              User.role u ∉ ["Server"; "Vendor"])
            [mkCall (Some "token-of-kitchen1") (PutStatus ord1 (Some "Ready"));
             mkCall (Some "token-of-kitchen1")
               (PostOrder (mkCreateBody (Some 5%float) (Some [line itemA 2 5])));
             mkCall (Some "token-of-kitchen1")
               (PutItems ord1 (Some [line itemB 1 5]))]) as Hcalls.
  { repeat constructor; cbn [call_token]; intros t u [= <-] Hv;
      vm_compute in Hv; injection Hv as <-;
      rewrite !not_elem_of_cons; split_and!; try discriminate; apply not_elem_of_nil. }
  pose proof (only_servers_and_vendors_write_lines example_verify _ (world_with Kitchen)
                Hcalls ord1) as H.
  change (orders (world_with Kitchen) !! ord1) with (Some (order1 Kitchen)) in H.
  exact H.
Defined.


(** ** Staff accounts and login *)

Lemma User_findOne_Some (username : string) (accounts : gmap ObjectId Account.t)
    (doc : AccountDoc) :
  User_findOne username accounts = Some doc →
  accounts !! doc.1 = Some doc.2 ∧ Account.username doc.2 = username.
Proof.
  unfold User_findOne. intros Hhead.
  assert (In doc (List.filter
                    (λ doc : AccountDoc, String.eqb (Account.username doc.2) username)
                    (map_to_list accounts))) as Hin.
  { destruct (List.filter _ _) as [|d l]; [done|]. injection Hhead as ->. by left. }
  apply filter_In in Hin as [Hin Heq]. apply String.eqb_eq in Heq.
  split; [|done]. apply list_elem_of_In in Hin. destruct doc as [k a].
  pose proof (elem_of_map_to_list accounts k a). tauto.
Qed.

Lemma User_findOne_None (username : string) (accounts : gmap ObjectId Account.t) :
  User_findOne username accounts = None →
  ∀ k a, accounts !! k = Some a → Account.username a ≠ username.
Proof.
  unfold User_findOne. intros Hhead k a Hk Heq.
  assert (In (k, a) (List.filter
                       (λ doc : AccountDoc, String.eqb (Account.username doc.2) username)
                       (map_to_list accounts))) as Hin.
  { apply filter_In. split; [|by apply String.eqb_eq].
    apply list_elem_of_In. pose proof (elem_of_map_to_list accounts k a). tauto. }
  by destruct (List.filter _ _).
Qed.

Lemma User_findOne_unique (accounts : gmap ObjectId Account.t) (k : ObjectId)
    (a : Account.t) :
  unique_usernames accounts → accounts !! k = Some a →
  User_findOne (Account.username a) accounts = Some (k, a).
Proof.
  intros Hunique Hk.
  destruct (User_findOne (Account.username a) accounts) as [[k' a']|] eqn:Hfind.
  - apply User_findOne_Some in Hfind as [Hk' Heq]. cbn in Hk', Heq.
    assert (k' = k) as -> by (by eapply Hunique).
    rewrite Hk in Hk'. by injection Hk' as <-.
  - by destruct (User_findOne_None _ _ Hfind k a Hk).
Qed.

Lemma not_staff_of_false (user : User.t) (a : Account.t) :
  not_staff_of user (Some a) = false
  ↔ Account.role a ≠ "Vendor" ∧ Account.vendorId a = User.vendorId user.
Proof.
  unfold not_staff_of. rewrite orb_false_iff, negb_false_iff.
  by rewrite String.eqb_neq, String.eqb_eq.
Qed.

(** X19.  [getStaff] lists exactly the accounts of the caller's vendor whose
    role is not [Vendor], each once and each without its password. *)
Theorem getStaff_lists_own_staff (user : User.t) (accounts : gmap ObjectId Account.t) :
  ∃ staff,
    getStaff user accounts = StaffList staff
    ∧ (∀ k a, (k, a) ∈ staff
              ↔ ∃ stored, accounts !! k = Some stored
                          ∧ a = without_password stored
                          ∧ Account.vendorId stored = User.vendorId user
                          ∧ Account.role stored ≠ "Vendor")
    ∧ NoDup staff.*1
    ∧ Forall (λ doc, Account.password doc.2 = None) staff.
Proof.
  eexists. split; [reflexivity|]. split_and!.
  - intros k a. rewrite list_elem_of_In, in_map_iff. split.
    + intros ([k' stored] & [= <- <-] & Hin). apply filter_In in Hin as [Hin Hok].
      apply andb_true_iff in Hok as [Hv Hr]. cbn in Hv, Hr.
      apply String.eqb_eq in Hv. apply negb_true_iff, String.eqb_neq in Hr.
      exists stored. split_and!; try done.
      apply list_elem_of_In in Hin.
      pose proof (elem_of_map_to_list accounts k' stored). tauto.
    + intros (stored & Hk & -> & Hv & Hr). exists (k, stored). split; [done|].
      apply filter_In. split.
      * apply list_elem_of_In. pose proof (elem_of_map_to_list accounts k stored). tauto.
      * cbn. apply andb_true_iff. split; [by apply String.eqb_eq|].
        by apply negb_true_iff, String.eqb_neq.
  - rewrite <- list_fmap_compose.
    assert (∀ l : list AccountDoc,
              NoDup l.*1 →
              NoDup ((fst ∘ (λ doc : AccountDoc, (doc.1, without_password doc.2)))
                       <$> List.filter
                             (λ doc : AccountDoc,
                                String.eqb (Account.vendorId doc.2) (User.vendorId user)
                                && negb (String.eqb (Account.role doc.2) "Vendor")) l))
      as Hsub.
    { induction l as [|d l IH]; [done|]. cbn [List.filter fmap list_fmap].
      intros [Hd Hl]%NoDup_cons. specialize (IH Hl).
      destruct (_ && _); [|done]. cbn. apply NoDup_cons. split; [|done].
      rewrite list_elem_of_fmap. intros ([k' a'] & Heq & Hin%list_elem_of_In).
      cbn in Heq. apply filter_In in Hin as [Hin%list_elem_of_In _].
      apply Hd. rewrite list_elem_of_fmap. by exists (k', a'). }
    apply Hsub, NoDup_fst_map_to_list.
  - apply Forall_forall. intros [k a] Hin%list_elem_of_In%in_map_iff.
    by destruct Hin as (d & [= <- <-] & _).
Qed.

Lemma staff_step_effect (req : StaffRequest) (accounts : gmap ObjectId Account.t)
    (k : ObjectId) (a : Account.t) :
  accounts !! k = Some a →
  staff_step req accounts !! k = Some a
  ∨ (Account.role a ≠ "Vendor"
     ∧ Account.vendorId a = User.vendorId (staff_caller req)).
Proof.
  intros Hk. destruct req as [user _id t|user _id]; cbn [staff_step staff_caller].
  - unfold approveStaff. cbv zeta.
    destruct (accounts !! canonical _id) as [account|] eqn:Hid; [|by left].
    destruct (not_staff_of user (Some account)) eqn:Hstaff; [by left|].
    destruct (Account.isApproved account); [by left|].
    apply not_staff_of_false in Hstaff. cbn [snd].
    destruct (decide (k = canonical _id)) as [->|Hne].
    + right. by assert (account = a) as -> by congruence.
    + left. by rewrite lookup_insert_ne.
  - unfold deleteStaff. cbv zeta.
    destruct (accounts !! canonical _id) as [account|] eqn:Hid; [|by left].
    destruct (not_staff_of user (Some account)) eqn:Hstaff; [by left|].
    apply not_staff_of_false in Hstaff. cbn [snd].
    destruct (decide (k = canonical _id)) as [->|Hne].
    + right. by assert (account = a) as -> by congruence.
    + left. by rewrite lookup_delete_ne.
Qed.

(** X20.  No sequence of approvals and deletions changes or removes the
    account of a [Vendor], or an account of a vendor that none of the
    callers belongs to. *)
Theorem staff_requests_spare_owners_and_other_shops (reqs : list StaffRequest)
    (accounts : gmap ObjectId Account.t) (k : ObjectId) (a : Account.t) :
  accounts !! k = Some a →
  Account.role a = "Vendor"
  ∨ Forall (λ req, User.vendorId (staff_caller req) ≠ Account.vendorId a) reqs →
  staff_run reqs accounts !! k = Some a.
Proof.
  intros Hk Hcase. revert accounts Hk.
  induction reqs as [|req reqs IH]; intros accounts Hk; [done|].
  change (staff_run (req :: reqs) accounts)
    with (staff_run reqs (staff_step req accounts)).
  apply IH.
  - destruct Hcase as [?|Hall]; [by left|]. right. by apply Forall_inv_tail in Hall.
  - destruct (staff_step_effect req accounts k a Hk) as [?|[Hrole Hvendor]]; [done|].
    destruct Hcase as [?|Hall]; [done|]. apply Forall_inv in Hall. congruence.
Qed.

(** The owner of [shop1] cannot be deleted, not even by the owner. *)
Lemma staff_requests_spare_owners_and_other_shops_witness :
  staff_run [ReqDelete vendor1 (User.id vendor1); ReqApprove vendor1 cook1 2000;
             ReqDelete vendor1 (User.id vendor1)] accounts1
    !! User.id vendor1
  = Some (account "owner" "Vendor" shop1 true).
Proof.
  apply staff_requests_spare_owners_and_other_shops; [vm_compute; reflexivity|].
  by left.
Defined.

Section Accounts.
Variable bcrypt_compare : string → string → bool.
Variable jwt_sign : User.t → Outcome string.
Variable jwt_verify : string → Outcome (option User.t).


Lemma unique_usernames_approve (accounts : gmap ObjectId Account.t) (k : ObjectId)
    (a : Account.t) (t : Z) :
  unique_usernames accounts → accounts !! k = Some a →
  unique_usernames (<[k := approve t a]> accounts).
Proof.
  intros Hunique Hk k1 k2 a1 a2 H1 H2 Heq.
  assert (∀ k' a', <[k := approve t a]> accounts !! k' = Some a' →
                   ∃ a0, accounts !! k' = Some a0
                         ∧ Account.username a0 = Account.username a') as Hback.
  { intros k' a' H. destruct (decide (k' = k)) as [->|Hne].
    - rewrite lookup_insert_eq in H. injection H as <-. by exists a.
    - rewrite lookup_insert_ne in H by done. by exists a'. }
  destruct (Hback _ _ H1) as (b1 & Hb1 & E1), (Hback _ _ H2) as (b2 & Hb2 & E2).
  eapply Hunique; [done|done|congruence].
Qed.

(** X21.  A staff member whose account waits for approval and who gives the
    right password is answered 403 by [login].  Once the vendor of the shop
    has approved the account (under its id, in whatever spelling of the
    hexadecimal digits), the same credentials give a token whose
    payload carries the account's id, role and vendor and [isApproved: true],
    and a second approval is answered 400 and changes nothing. *)
Theorem approved_staff_can_log_in (vendor : User.t) (_id : string) (t : Z)
    (accounts : gmap ObjectId Account.t) (a : Account.t) (password hash : string) :
  unique_usernames accounts →
  accounts !! canonical _id = Some a →
  Account.role a ≠ "Vendor" →
  Account.vendorId a = User.vendorId vendor →
  Account.isApproved a = false →
  Account.password a = Some hash →
  bcrypt_compare password hash = true →
  let accounts' := (approveStaff vendor _id t accounts).2 in
  login bcrypt_compare jwt_sign (Account.username a) (Some password) accounts
  = Return pending_approval
  ∧ login bcrypt_compare jwt_sign (Account.username a) (Some password) accounts'
    = generateToken jwt_sign (canonical _id, approve t a)
  ∧ payload_user (canonical _id, approve t a)
    = User.mk (canonical _id) (Account.role a) (Account.vendorId a) true
  ∧ ∀ t', ∃ msg, approveStaff vendor _id t' accounts'
                 = (Plain (Res 400 (BMsg msg)), accounts').
Proof.
  intros Hunique Hid Hrole Hvendor Hpending Hhash Hmatch accounts'.
  assert (not_staff_of vendor (Some a) = false) as Hstaff
    by (by apply not_staff_of_false).
  assert (accounts' = <[canonical _id := approve t a]> accounts) as ->.
  { subst accounts'. unfold approveStaff. cbv zeta. by rewrite Hid, Hstaff, Hpending. }
  apply String.eqb_neq in Hrole.
  split_and!.
  - unfold login.
    rewrite (User_findOne_unique accounts (canonical _id) a Hunique Hid). cbn [snd].
    by rewrite Hhash, Hmatch, Hrole, Hpending.
  - unfold login.
    assert (Account.username a = Account.username (approve t a)) as -> by done.
    rewrite (User_findOne_unique _ (canonical _id) (approve t a));
      [|by apply unique_usernames_approve|by rewrite lookup_insert_eq].
    cbn [snd approve Account.password Account.role Account.isApproved].
    by rewrite Hhash, Hmatch, Hrole.
  - done.
  - intros t'. eexists. unfold approveStaff. cbv zeta. rewrite lookup_insert_eq.
    assert (not_staff_of vendor (Some (approve t a)) = false) as ->
      by (by apply not_staff_of_false; split; [apply String.eqb_neq|]).
    done.
Qed.

(** X22.  After [deleteStaff] has answered 200 the account is gone, every
    other account is as it was, and a [login] under the account's username
    is answered 400 "Invalid Credentials", whatever the password. *)
Theorem deleted_staff_cannot_log_in (vendor : User.t) (_id : string)
    (accounts accounts' : gmap ObjectId Account.t) (body : Body) :
  unique_usernames accounts →
  deleteStaff vendor _id accounts = (Plain (Res 200 body), accounts') →
  ∃ a,
    accounts !! canonical _id = Some a
    ∧ Account.role a ≠ "Vendor"
    ∧ Account.vendorId a = User.vendorId vendor
    ∧ accounts' = delete (canonical _id) accounts
    ∧ ∀ password, login bcrypt_compare jwt_sign (Account.username a) password accounts'
                  = Return (Plain (Res 400 (BMsg "Invalid Credentials"))).
Proof.
  intros Hunique. unfold deleteStaff. cbv zeta.
  destruct (accounts !! canonical _id) as [a|] eqn:Hid; [|done].
  destruct (not_staff_of vendor (Some a)) eqn:Hstaff; [done|].
  intros [= _ <-]. apply not_staff_of_false in Hstaff as [Hrole Hvendor].
  exists a. split_and!; try done.
  intros password. unfold login.
  destruct (User_findOne (Account.username a) (delete (canonical _id) accounts))
    as [[k' a']|] eqn:Hfind; [|done].
  apply User_findOne_Some in Hfind as [Hk' Heq]. cbn in Hk', Heq.
  apply lookup_delete_Some in Hk' as [Hne Hk'].
  destruct Hne. by eapply Hunique.
Qed.

Lemma login_token_account (username : string) (password : option string)
    (accounts : gmap ObjectId Account.t) (token : string) (user : User.t) :
  login bcrypt_compare jwt_sign username password accounts = Return (Token token user) →
  ∃ a, accounts !! User.id user = Some a
       ∧ Account.username a = username
       ∧ user = payload_user (User.id user, a)
       ∧ (User.role user = "Vendor" ∨ User.isApproved user = true).
Proof.
  intros Hlogin. unfold login in Hlogin.
  destruct (User_findOne username accounts) as [[k a]|] eqn:Hfind; [|done].
  apply User_findOne_Some in Hfind as [Hk Hname]. cbn in Hk, Hname.
  cbn [snd] in Hlogin.
  destruct password as [pw|], (Account.password a) as [hash|]; try done.
  cbv zeta in Hlogin.
  destruct (negb (bcrypt_compare pw hash)); [done|].
  destruct (negb (String.eqb (Account.role a) "Vendor") && negb (Account.isApproved a))
    eqn:Hok; [done|].
  unfold generateToken in Hlogin.
  destruct (jwt_sign (payload_user (k, a))); [|done].
  injection Hlogin as _ <-. exists a. split_and!; try done.
  cbn. apply andb_false_iff in Hok as [Hv|Ha].
  - left. by apply negb_false_iff, String.eqb_eq in Hv.
  - right. by apply negb_false_iff in Ha.
Qed.

(** X23.  A token handed out by [login] belongs to an account that is a
    [Vendor] or approved, and its payload carries the id, role and vendor of
    the stored account.  With a [jwt.verify] that accepts the token and
    returns what was signed, [auth] lets it pass exactly the routes that ask
    for no role or for roles that include the account's. *)
Theorem login_token_passes_auth (username : string) (password : option string)
    (accounts : gmap ObjectId Account.t) (token : string) (user : User.t)
    (requiredRoles : RequiredRoles) :
  login bcrypt_compare jwt_sign username password accounts = Return (Token token user) →
  token ≠ "" →
  jwt_verify token = Return (Some user) →
  (∃ a, accounts !! User.id user = Some a
        ∧ Account.username a = username
        ∧ user = payload_user (User.id user, a)
        ∧ (User.role user = "Vendor" ∨ User.isApproved user = true))
  ∧ auth jwt_verify requiredRoles (Some token)
    = if decide (role_list requiredRoles = []
                 ∨ User.role user ∈ role_list requiredRoles)
      then Next (Some user)
      else Answered (access_denied (role_list requiredRoles)).
Proof.
  intros Hlogin Htoken Hverify. split; [by eapply login_token_account|].
  unfold auth, truthy_str.
  apply String.eqb_neq in Htoken. rewrite Htoken, Hverify. cbn [negb]. cbv zeta.
  destruct (role_list requiredRoles) as [|role roles] eqn:Hroles.
  { cbn. by rewrite decide_True by (by left). }
  cbn [length Nat.ltb Nat.leb].
  destruct (array_includes (role :: roles) (User.role user)) eqn:Hinc; cbn [negb].
  - apply array_includes_true in Hinc. by rewrite decide_True by (by right).
  - rewrite decide_False; [done|].
    intros [?|Hin%array_includes_true]; congruence.
Qed.

End Accounts.

Lemma unique_usernames_accounts1 : unique_usernames accounts1.
Proof.
  intros k1 k2 a1 a2 H1 H2 Heq. unfold accounts1 in H1, H2.
  repeat (apply lookup_insert_Some in H1 as [[<- <-]|[_ H1]]);
    try (apply lookup_singleton_Some in H1 as [<- <-]);
    repeat (apply lookup_insert_Some in H2 as [[<- <-]|[_ H2]]);
    try (apply lookup_singleton_Some in H2 as [<- <-]);
    first [reflexivity | discriminate Heq].
Qed.

(** The cook of [shop1] logs in after the owner's approval. *)
Lemma approved_staff_can_log_in_witness :
  login example_compare example_sign "ravi" (Some "ravi's password")
        (approveStaff vendor1 cook1 2000 accounts1).2
  = Return (Token "token-of-ravi" (User.mk cook1 "Kitchen" shop1 true)).
Proof.
  destruct (approved_staff_can_log_in example_compare example_sign vendor1 cook1 2000
              accounts1 (account "ravi" "Kitchen" shop1 false) "ravi's password"
              "hash of ravi's password")
    as (_ & Hlogin & _).
  - apply unique_usernames_accounts1.
  - vm_compute. reflexivity.
  - discriminate.
  - reflexivity.
  - reflexivity.
  - reflexivity.
  - vm_compute. reflexivity.
  - etransitivity; [exact Hlogin|]. vm_compute. reflexivity.
Defined.

(** The server of [shop1] after the owner has deleted the account. *)
Lemma deleted_staff_cannot_log_in_witness :
  login example_compare example_sign "asha" (Some "asha's password")
        (delete (User.id server1) accounts1)
  = Return (Plain (Res 400 (BMsg "Invalid Credentials"))).
Proof.
  destruct (deleted_staff_cannot_log_in example_compare example_sign vendor1
              (User.id server1) accounts1 (delete (User.id server1) accounts1)
              (BMsg "Staff account asha deleted successfully."))
    as (a & Ha & _ & _ & _ & Hlogin).
  - apply unique_usernames_accounts1.
  - vm_compute. reflexivity.
  - vm_compute in Ha. injection Ha as <-. apply Hlogin.
Defined.

(** The token of the server of [shop1] at the route that creates orders. *)
Lemma login_token_passes_auth_witness :
  auth example_verify (RoleArray ["Server"; "Vendor"]) (Some "token-of-server1")
  = Next (Some server1).
Proof.
  destruct (login_token_passes_auth example_compare example_sign example_verify
              "asha" (Some "asha's password") accounts1 "token-of-server1" server1
              (RoleArray ["Server"; "Vendor"])) as [_ Hauth].
  - vm_compute. reflexivity.
  - discriminate.
  - vm_compute. reflexivity.
  - rewrite decide_True in Hauth; [exact Hauth|].
    right. cbn. rewrite !elem_of_cons. by left.
Defined.


(** ** The menu *)

Lemma Ascii_compare_refl (a : Ascii.ascii) : Ascii.compare a a = Eq.
Proof. apply N.compare_refl. Qed.

Lemma String_compare_refl (s : string) : String.compare s s = Eq.
Proof. induction s as [|a s IH]; [done|]. cbn. by rewrite Ascii_compare_refl. Qed.

Lemma String_compare_lt_trans (a b c : string) :
  String.compare a b = Lt → String.compare b c = Lt → String.compare a c = Lt.
Proof.
  revert b c. induction a as [|x a IH]; intros [|y b] [|z c]; cbn; try done.
  destruct (Ascii.compare x y) eqn:Hxy, (Ascii.compare y z) eqn:Hyz; try done.
  - apply Ascii.compare_eq_iff in Hxy as ->. apply Ascii.compare_eq_iff in Hyz as ->.
    rewrite Ascii_compare_refl. apply IH.
  - apply Ascii.compare_eq_iff in Hxy as ->. by rewrite Hyz.
  - apply Ascii.compare_eq_iff in Hyz as <-. by rewrite Hxy.
  - unfold Ascii.compare in *. apply N.compare_lt_iff in Hxy, Hyz.
    assert ((Ascii.N_of_ascii x ?= Ascii.N_of_ascii z)%N = Lt) as ->; [|done].
    apply N.compare_lt_iff. by eapply N.lt_trans.
Qed.

Lemma String_leb_trans (a b c : string) :
  String.leb a b = true → String.leb b c = true → String.leb a c = true.
Proof.
  unfold String.leb.
  destruct (String.compare a b) eqn:Hab; [| |done];
    destruct (String.compare b c) eqn:Hbc; try done; intros _ _.
  - apply String.compare_eq_iff in Hab as ->. by rewrite Hbc.
  - apply String.compare_eq_iff in Hab as ->. by rewrite Hbc.
  - apply String.compare_eq_iff in Hbc as <-. by rewrite Hab.
  - by rewrite (String_compare_lt_trans a b c).
Qed.

#[global] Instance by_category_then_name_total : Total by_category_then_name.
Proof.
  intros a b. unfold by_category_then_name, category_name_leb.
  rewrite (String.compare_antisym (MenuItem.category b.2) (MenuItem.category a.2)).
  destruct (String.compare (MenuItem.category a.2) (MenuItem.category b.2)); cbn;
    [apply String.leb_total|by left|by right].
Qed.

#[global] Instance by_category_then_name_trans : Transitive by_category_then_name.
Proof.
  intros a b c. unfold by_category_then_name, category_name_leb.
  destruct (String.compare (MenuItem.category a.2) (MenuItem.category b.2)) eqn:Hab;
    [| |done];
    destruct (String.compare (MenuItem.category b.2) (MenuItem.category c.2)) eqn:Hbc;
    try done.
  - apply String.compare_eq_iff in Hab as ->. rewrite Hbc. apply String_leb_trans.
  - apply String.compare_eq_iff in Hab as ->. by rewrite Hbc.
  - apply String.compare_eq_iff in Hbc as <-. by rewrite Hab.
  - by rewrite (String_compare_lt_trans _ _ _ Hab Hbc).
Qed.

Lemma MenuItem_find_sorted_elem_of (vendorId : ObjectId)
    (catalog : gmap ObjectId MenuItem.t) (d : ObjectId * MenuItem.t) :
  d ∈ MenuItem_find_sorted vendorId catalog
  ↔ catalog !! d.1 = Some d.2 ∧ MenuItem.vendorId d.2 = vendorId.
Proof.
  unfold MenuItem_find_sorted. rewrite merge_sort_Permutation.
  rewrite list_elem_of_In, filter_In, <- list_elem_of_In, String.eqb_eq.
  destruct d as [k m]. pose proof (elem_of_map_to_list catalog k m). tauto.
Qed.

Lemma MenuItem_find_sorted_NoDup (vendorId : ObjectId)
    (catalog : gmap ObjectId MenuItem.t) :
  NoDup (MenuItem_find_sorted vendorId catalog).
Proof.
  unfold MenuItem_find_sorted. rewrite merge_sort_Permutation.
  apply NoDup_ListNoDup, List.NoDup_filter, NoDup_ListNoDup, NoDup_map_to_list.
Qed.

Lemma MenuItem_findOneAndDelete_cases (_id vendorId : ObjectId)
    (catalog : gmap ObjectId MenuItem.t) :
  (MenuItem_findOneAndDelete _id vendorId catalog = (None, catalog)
   ∧ ∀ item, catalog !! _id = Some item → MenuItem.vendorId item ≠ vendorId)
  ∨ ∃ item, catalog !! _id = Some item ∧ MenuItem.vendorId item = vendorId
            ∧ MenuItem_findOneAndDelete _id vendorId catalog
              = (Some item, delete _id catalog).
Proof.
  unfold MenuItem_findOneAndDelete.
  destruct (catalog !! _id) as [item|]; [|by left].
  destruct (String.eqb_spec (MenuItem.vendorId item) vendorId) as [Heq|Hne].
  - right. by exists item.
  - left. split; [done|]. by intros ? [= <-].
Qed.

Section Menu.
Variable jwt_verify : string → Outcome (option User.t).
Variable isValidObjectId : string → bool.
Variable castObjectId : string → ObjectId.


Lemma checkMenuAccess_granted (user : option User.t) (allowedRoles : list string) :
  MenuItemController2.checkMenuAccess user allowedRoles = None
  ↔ ∃ u, user = Some u ∧ User.vendorId u ≠ ""
         ∧ User.role u ∈ allowedRoles
         ∧ (User.role u = "Vendor" ∨ User.isApproved u = true).
Proof.
  unfold MenuItemController2.checkMenuAccess. destruct user as [u|]; cbn.
  2: { split; [done|]. by intros (u & ? & _). }
  unfold truthy_str.
  destruct (String.eqb_spec (User.vendorId u) "") as [Hv|Hv]; cbn.
  { split; [done|]. intros (u' & [= <-] & ? & _). done. }
  destruct (array_includes allowedRoles (User.role u)) eqn:Hinc; cbn.
  2: { split; [done|]. intros (u' & [= <-] & _ & Hin%array_includes_true & _).
       congruence. }
  apply array_includes_true in Hinc.
  destruct (decide (User.role u = "Vendor")) as [Hr|Hr].
  - rewrite bool_decide_true by congruence. cbn.
    split; [|done]. intros _. exists u. split_and!; try done. by left.
  - rewrite bool_decide_false by congruence. cbn.
    destruct (User.isApproved u) eqn:Ha; cbn.
    + split; [|done]. intros _. exists u. split_and!; try done. by right.
    + split; [done|]. intros (u' & [= <-] & _ & _ & [?|?]); congruence.
Qed.

Lemma deleteMenuItem_of_cases (later : bool) (user : option User.t) (id : string)
    (catalog : gmap ObjectId MenuItem.t) :
  ((deleteMenuItem_of isValidObjectId castObjectId later user id catalog).2 = catalog
   ∧ ∃ code msg, (deleteMenuItem_of isValidObjectId castObjectId later user id catalog).1
                 = MenuMsg code false msg)
  ∨ ∃ u item,
      user = Some u
      ∧ isValidObjectId id = true
      ∧ catalog !! castObjectId id = Some item
      ∧ MenuItem.vendorId item = User.vendorId u
      ∧ deleteMenuItem_of isValidObjectId castObjectId later user id catalog
        = (item_deleted item, delete (castObjectId id) catalog)
      ∧ (later = true →
         User.role u ∈ ["Vendor"; "Kitchen"]
         ∧ (User.role u = "Vendor" ∨ User.isApproved u = true)).
Proof.
  destruct later; unfold deleteMenuItem_of.
  - unfold MenuItemController2.deleteMenuItem.
    destruct (MenuItemController2.checkMenuAccess user
                MenuItemController2.MENU_MANAGEMENT_ROLES) as [answer|] eqn:Haccess.
    { left. split; [done|]. cbn [fst].
      unfold MenuItemController2.checkMenuAccess in Haccess.
      repeat case_match; try done; injection Haccess as <-; by eexists _, _. }
    apply checkMenuAccess_granted in Haccess as (u & -> & Hv & Hrole & Happroved).
    cbn [fmap option_fmap option_map default]. unfold Datatypes.id. cbv zeta.
    destruct (isValidObjectId id) eqn:Hvalid; cbn [negb].
    2: { left. split; [done|]. by eexists _, _. }
    destruct (MenuItem_findOneAndDelete_cases (castObjectId id) (User.vendorId u) catalog)
      as [[-> _]|(item & Hitem & Hvendor & ->)].
    + left. split; [done|]. by eexists _, _.
    + right. exists u, item. by split_and!.
  - unfold MenuItemController.deleteMenuItem.
    destruct user as [u|]; cbn [fmap option_fmap option_map].
    2: { left. split; [done|]. by eexists _, _. }
    destruct (negb (truthy_str (User.vendorId u))); cbn [orb].
    { left. split; [done|]. by eexists _, _. }
    destruct (isValidObjectId id) eqn:Hvalid; cbn [negb].
    2: { left. split; [done|]. by eexists _, _. }
    destruct (MenuItem_findOneAndDelete_cases (castObjectId id) (User.vendorId u) catalog)
      as [[-> _]|(item & Hitem & Hvendor & ->)].
    + left. split; [done|]. by eexists _, _.
    + right. exists u, item. by split_and!.
Qed.

(** X24.  [deleteMenuItem], in either revision, removes at most the item the
    id names, and only when it belongs to the caller's vendor: otherwise the
    catalog is as it was and the answer says [success: false].  The later
    revision deletes only for a [Vendor] or an approved [Kitchen] user. *)
Theorem deleteMenuItem_removes_own_item (later : bool) (user : option User.t)
    (id : string) (catalog : gmap ObjectId MenuItem.t) :
  ((deleteMenuItem_of isValidObjectId castObjectId later user id catalog).2 = catalog
   ∧ ∃ code msg, (deleteMenuItem_of isValidObjectId castObjectId later user id catalog).1
                 = MenuMsg code false msg)
  ∨ ∃ u item,
      user = Some u
      ∧ isValidObjectId id = true
      ∧ catalog !! castObjectId id = Some item
      ∧ MenuItem.vendorId item = User.vendorId u
      ∧ deleteMenuItem_of isValidObjectId castObjectId later user id catalog
        = (item_deleted item, delete (castObjectId id) catalog)
      ∧ (later = true →
         User.role u ∈ ["Vendor"; "Kitchen"]
         ∧ (User.role u = "Vendor" ∨ User.isApproved u = true)).
Proof. apply deleteMenuItem_of_cases. Qed.

(** X25.  Through its route, whichever revision of the controller is
    mounted, a menu item is deleted only by a token of a [Vendor] user, and
    only if the item belongs to that user's vendor; every other call leaves
    the catalog as it was.  (The later controller alone would also let an
    approved [Kitchen] user delete.) *)
Theorem menu_items_are_deleted_by_their_vendor (later : bool) (token : option string)
    (id : string) (catalog : gmap ObjectId MenuItem.t) :
  (delete_menu jwt_verify isValidObjectId castObjectId later token id catalog).2 = catalog
  ∨ ∃ t u item,
      token = Some t
      ∧ jwt_verify t = Return (Some u)
      ∧ User.role u = "Vendor"
      ∧ catalog !! castObjectId id = Some item
      ∧ MenuItem.vendorId item = User.vendorId u
      ∧ delete_menu jwt_verify isValidObjectId castObjectId later token id catalog
        = (inr (item_deleted item), delete (castObjectId id) catalog).
Proof.
  unfold delete_menu, chain, isVendor.
  destruct (auth jwt_verify NoRoles token) as [user0|r0]; [|by left].
  destruct (auth jwt_verify (OneRole "Vendor") token) as [user|r] eqn:Hauth; [|by left].
  apply auth_outcome in Hauth as (t & -> & _ & Hverify & [?|(u & -> & Hin)]); [done|].
  cbn in Hin. apply list_elem_of_singleton in Hin.
  destruct (deleteMenuItem_of_cases later (Some u) id catalog)
    as [[Hsame _]|(u' & item & [= <-] & _ & Hitem & Hvendor & Heq & _)].
  - left. by destruct (deleteMenuItem_of isValidObjectId castObjectId later (Some u) id catalog).
  - right. exists t, u, item. rewrite Heq. by split_and!.
Qed.

(** X26.  [getMenuItems] answers with a list exactly for a user with a
    vendor (in the later revision: with one of the four roles, and approved
    unless a [Vendor]), and otherwise with 403.  The list holds exactly the
    items of the caller's vendor, each once, ordered by category and then by
    name. *)
Theorem getMenuItems_lists_own_catalog (later : bool) (user : option User.t)
    (catalog : gmap ObjectId MenuItem.t) :
  match getMenuItems_of later user catalog with
  | MenuItems items =>
      ∃ u, user = Some u
           ∧ User.vendorId u ≠ ""
           ∧ (later = true →
              User.role u ∈ ["Vendor"; "Server"; "Kitchen"; "Billing"]
              ∧ (User.role u = "Vendor" ∨ User.isApproved u = true))
           ∧ (∀ d, d ∈ items
                   ↔ catalog !! d.1 = Some d.2 ∧ MenuItem.vendorId d.2 = User.vendorId u)
           ∧ NoDup items
           ∧ StronglySorted by_category_then_name items
  | MenuMsg code success _ =>
      code = 403 ∧ success = false
      ∧ ¬ ∃ u, user = Some u ∧ User.vendorId u ≠ ""
               ∧ (later = true →
                  User.role u ∈ ["Vendor"; "Server"; "Kitchen"; "Billing"]
                  ∧ (User.role u = "Vendor" ∨ User.isApproved u = true))
  end.
Proof.
  assert (∀ u, ∃ u', Some u = Some u'
                     ∧ (∀ d, d ∈ MenuItem_find_sorted (User.vendorId u) catalog
                             ↔ catalog !! d.1 = Some d.2
                               ∧ MenuItem.vendorId d.2 = User.vendorId u')
                     ∧ NoDup (MenuItem_find_sorted (User.vendorId u) catalog)
                     ∧ StronglySorted by_category_then_name
                         (MenuItem_find_sorted (User.vendorId u) catalog)) as Hlist.
  { intros u. exists u. split_and!; [done| | |].
    - intros d. apply MenuItem_find_sorted_elem_of.
    - apply MenuItem_find_sorted_NoDup.
    - apply StronglySorted_merge_sort; apply _. }
  destruct later; unfold getMenuItems_of.
  - unfold MenuItemController2.getMenuItems.
    destruct (MenuItemController2.checkMenuAccess user
                MenuItemController2.MENU_ACCESS_ROLES) as [answer|] eqn:Haccess.
    + assert (¬ ∃ u, user = Some u ∧ User.vendorId u ≠ ""
                     ∧ (true = true →
                        User.role u ∈ ["Vendor"; "Server"; "Kitchen"; "Billing"]
                        ∧ (User.role u = "Vendor" ∨ User.isApproved u = true))) as Hnot.
      { intros (u & -> & Hv & Hrest). destruct (Hrest eq_refl) as [Hrole Happroved].
        assert (MenuItemController2.checkMenuAccess (Some u)
                  MenuItemController2.MENU_ACCESS_ROLES = None) as Hgranted
          by (apply checkMenuAccess_granted; by exists u).
        congruence. }
      unfold MenuItemController2.checkMenuAccess in Haccess.
      repeat case_match; try done; by injection Haccess as <-.
    + apply checkMenuAccess_granted in Haccess as (u & -> & Hv & Hrole & Happroved).
      destruct (Hlist u) as (u' & [= <-] & Hitems & Hnd & Hsorted).
      exists u. by split_and!.
  - unfold MenuItemController.getMenuItems.
    destruct user as [u|]; cbn [fmap option_fmap option_map].
    2: { split_and!; try done. by intros (u & ? & _). }
    unfold truthy_str.
    destruct (String.eqb_spec (User.vendorId u) "") as [Hv|Hv]; cbn [negb].
    + split_and!; try done. intros (u' & [= <-] & ? & _). done.
    + destruct (Hlist u) as (u' & [= <-] & Hitems & Hnd & Hsorted).
      exists u. by split_and!.
Qed.

End Menu.

Section MenuAndAccounts.
Variable bcrypt_compare : string → string → bool.
Variable jwt_sign : User.t → Outcome string.

(** X27.  A token that [login] hands out is never turned away by the
    approval check of the later menu controller: if the account has a vendor
    and one of the four roles, [checkMenuAccess] grants the menu, and
    [getMenuItems] answers with a list. *)
Theorem login_opens_the_menu (username : string) (password : option string)
    (accounts : gmap ObjectId Account.t) (token : string) (user : User.t)
    (catalog : gmap ObjectId MenuItem.t) :
  login bcrypt_compare jwt_sign username password accounts = Return (Token token user) →
  User.vendorId user ≠ "" →
  User.role user ∈ MenuItemController2.MENU_ACCESS_ROLES →
  MenuItemController2.checkMenuAccess (Some user) MenuItemController2.MENU_ACCESS_ROLES
  = None
  ∧ ∃ items, MenuItemController2.getMenuItems (Some user) catalog = MenuItems items.
Proof.
  intros Hlogin Hv Hrole.
  apply login_token_account in Hlogin as (a & _ & _ & _ & Happroved).
  assert (MenuItemController2.checkMenuAccess (Some user)
            MenuItemController2.MENU_ACCESS_ROLES = None) as Hgranted
    by (apply checkMenuAccess_granted; by exists user).
  split; [done|]. unfold MenuItemController2.getMenuItems. rewrite Hgranted. by eexists.
Qed.

End MenuAndAccounts.

(** The server of [shop1] logs in and reads the menu. *)
Lemma login_opens_the_menu_witness :
  ∃ items, MenuItemController2.getMenuItems (Some server1) menu1 = MenuItems items.
Proof.
  destruct (login_opens_the_menu example_compare example_sign "asha"
              (Some "asha's password") accounts1 "token-of-server1" server1 menu1)
    as [_ Hitems].
  - vm_compute. reflexivity.
  - discriminate.
  - unfold MenuItemController2.MENU_ACCESS_ROLES. cbn. rewrite !elem_of_cons. auto.
  - exact Hitems.
Defined.

Lemma catalog_lookup_deleted (catalog : gmap ObjectId MenuItem.t) (vendorId _id : ObjectId) :
  catalog_lookup (delete _id catalog) vendorId _id = None.
Proof. unfold catalog_lookup. by rewrite lookup_delete_eq. Qed.

(** X28.  An item that has been deleted from the menu cannot be ordered: a
    [createOrder] with a line whose id is cast to the id of the item, by any
    caller, is answered 400 and stores nothing, and so is an
    [addItemsToOrder]. *)
Theorem deleted_item_cannot_be_ordered (isValidObjectId : string → bool)
    (castObjectId : string → ObjectId) (later : bool) (vendor : option User.t)
    (id : string) (w : World) (item : MenuItem.t) (catalog' : gmap ObjectId MenuItem.t)
    (user : User.t) (body : CreateBody) (items : list Order.Item)
    (_id : string) :
  deleteMenuItem_of isValidObjectId castObjectId later vendor id (menu w)
    = (item_deleted item, catalog') →
  cb_items body = Some items →
  Some (castObjectId id) ∈ cast_ids items →
  let w' := with_menu catalog' w in
  (code (createOrder user body w').1 = 400
   ∧ orders (createOrder user body w').2 = orders w)
  ∧ (code (VendorStaffController.addItemsToOrder user _id (Some items) w').1 ≠ 200
     ∧ orders (VendorStaffController.addItemsToOrder user _id (Some items) w').2
       = orders w).
Proof.
  intros Hdelete Hbody Hnamed w'.
  assert (catalog' = delete (castObjectId id) (menu w)) as ->.
  { destruct (deleteMenuItem_of_cases isValidObjectId castObjectId later vendor id (menu w))
      as [[_ (c & msg & Hmsg)]|(u & it & _ & _ & _ & _ & Heq & _)].
    - rewrite Hdelete in Hmsg. discriminate Hmsg.
    - rewrite Hdelete in Heq. by injection Heq as _ ->. }
  assert (¬ distinct_in_catalog (menu w') (User.vendorId user) items) as Hnot.
  { intros [_ Hall].
    rewrite Forall_forall in Hall. destruct (Hall _ Hnamed) as [m Hm].
    subst w'. cbn [with_menu menu mbind option_bind] in Hm.
    by rewrite catalog_lookup_deleted in Hm. }
  split.
  - destruct body as [[tn|] items0]; cbn in Hbody; subst items0; [|done].
    destruct (truthy_num tn) eqn:Htn.
    2: { unfold createOrder. cbn [cb_tableNumber cb_items]. by rewrite Htn. }
    destruct (decide (items = [])) as [->|Hne].
    { unfold createOrder. cbn [cb_tableNumber cb_items]. by rewrite Htn. }
    destruct (forallb valid_item items) eqn:Hvalid.
    2: { unfold createOrder. cbn [cb_tableNumber cb_items]. rewrite Htn, Hvalid.
         by destruct items. }
    rewrite createOrder_propagates_invalid_items; try done.
    by rewrite <- distinct_in_catalog_iff.
  - assert (code (VendorStaffController.addItemsToOrder user _id (Some items) w').1 ≠ 200)
      as Hcode.
    { intros Hcode.
      apply addItemsToOrder_success_inv in Hcode as (items' & o & [= <-] & _ & _ & Hdr & _).
      done. }
    split; [done|]. by rewrite addItemsToOrder_failure_unchanged.
Qed.

(** The owner of [shop1] takes the tea off the menu; the server then orders
    a tea. *)
Lemma deleted_item_cannot_be_ordered_witness :
  code (createOrder server1 (mkCreateBody (Some 5%float) (Some [line itemB 1 5]))
          (with_menu (delete itemB menu1) world1)).1 = 400.
Proof.
  destruct (deleted_item_cannot_be_ordered example_isValid example_cast true
              (Some vendor1) itemB world1 (dish shop1 "Tea" 50) (delete itemB menu1)
              server1 (mkCreateBody (Some 5%float) (Some [line itemB 1 5]))
              [line itemB 1 5] ord1) as [[Hcode _] _].
  - vm_compute. reflexivity.
  - reflexivity.
  - vm_compute. apply list_elem_of_here.
  - exact Hcode.
Defined.


(** ** The staff routes *)

Section StaffRoutes.
Variable jwt_verify : string → Outcome (option User.t).

(** X29.  Through the staff routes an account (the one that the id of the
    request is cast to) is approved or deleted only
    with the token of a [Vendor] user, only if the account belongs to that
    user's vendor and is not a [Vendor]'s itself; an approval sets
    [isApproved] and [updatedAt] of an account that was not approved and
    keeps the rest.  Every other call leaves the accounts as they were. *)
Theorem staff_accounts_are_managed_by_their_vendor (token : option string)
    (id : string) (t : Z) (accounts : gmap ObjectId Account.t) :
  ((put_staff_approve jwt_verify token id t accounts).2 = accounts
   ∨ ∃ tok u a,
       token = Some tok ∧ jwt_verify tok = Return (Some u) ∧ User.role u = "Vendor"
       ∧ accounts !! canonical id = Some a
       ∧ Account.role a ≠ "Vendor" ∧ Account.vendorId a = User.vendorId u
       ∧ Account.isApproved a = false
       ∧ (put_staff_approve jwt_verify token id t accounts).2
         = <[canonical id := approve t a]> accounts)
  ∧ ((delete_staff jwt_verify token id accounts).2 = accounts
     ∨ ∃ tok u a,
         token = Some tok ∧ jwt_verify tok = Return (Some u) ∧ User.role u = "Vendor"
         ∧ accounts !! canonical id = Some a
         ∧ Account.role a ≠ "Vendor" ∧ Account.vendorId a = User.vendorId u
         ∧ (delete_staff jwt_verify token id accounts).2 = delete (canonical id) accounts).
Proof.
  unfold put_staff_approve, delete_staff, vendorAuth.
  destruct (auth jwt_verify (OneRole "Vendor") token) as [[u|]|r] eqn:Hauth;
    [|by split; left|by split; left].
  apply auth_outcome in Hauth as (tok & -> & _ & Hverify & [?|(u' & [= <-] & Hin)]);
    [done|].
  cbn in Hin. apply list_elem_of_singleton in Hin.
  split.
  - unfold approveStaff. cbv zeta.
    destruct (accounts !! canonical id) as [a|] eqn:Hid; [|by left].
    destruct (not_staff_of u (Some a)) eqn:Hstaff; [by left|].
    destruct (Account.isApproved a) eqn:Happroved; [by left|].
    apply not_staff_of_false in Hstaff as [Hrole Hvendor].
    right. exists tok, u, a. by split_and!.
  - unfold deleteStaff. cbv zeta.
    destruct (accounts !! canonical id) as [a|] eqn:Hid; [|by left].
    destruct (not_staff_of u (Some a)) eqn:Hstaff; [by left|].
    apply not_staff_of_false in Hstaff as [Hrole Hvendor].
    right. exists tok, u, a. by split_and!.
Qed.

End StaffRoutes.

(** ** The shape of the report *)

#[global] Instance newer_first_total : Total VendorStaffController.newer_first.
Proof. intros a b. unfold VendorStaffController.newer_first. lia. Qed.

#[global] Instance newer_first_trans : Transitive VendorStaffController.newer_first.
Proof. intros a b c. unfold VendorStaffController.newer_first. lia. Qed.

Lemma Order_find_sorted_NoDup (q : VendorStaffController.Query) (w : World) :
  NoDup (VendorStaffController.Order_find_sorted q w).1.
Proof.
  unfold VendorStaffController.Order_find_sorted, bind, log. cbn [fst snd orders].
  rewrite merge_sort_Permutation.
  apply NoDup_ListNoDup, List.NoDup_filter, NoDup_ListNoDup, NoDup_map_to_list.
Qed.

Section ReportShape.
Context (parseDate : string → option Z) (tzOffset : Z).

(** X30.  [getCompletedOrders] stores nothing.  Its report lists orders of
    the caller's vendor that are [Billed] or [Completed], each once, the
    most recently updated first; [count] is the number of listed orders and
    [totalSales] is [toFixed(2)] of the sum of their totals, added in the
    order of the list from 0.  The only other answer is 500, when both dates
    are supplied and one of them is not a date. *)
Theorem getCompletedOrders_report_shape (user : User.t)
    (startDate endDate : option string) (w : World) :
  let r := VendorStaffController.getCompletedOrders parseDate tzOffset user
             startDate endDate w in
  orders r.2 = orders w
  ∧ match body r.1 with
    | BReport count totalSales docs =>
        code r.1 = 200
        ∧ count = length docs
        ∧ totalSales
          = toFixed (fold_left (λ acc d, (acc + Order.totalAmount d.2)%float)
                       docs 0%float) 2
        ∧ NoDup docs
        ∧ StronglySorted VendorStaffController.newer_first docs
        ∧ Forall (λ d, orders w !! d.1 = Some d.2
                       ∧ Order.vendorId d.2 = User.vendorId user
                       ∧ (Order.status d.2 = Billed ∨ Order.status d.2 = Completed))
                 docs
    | _ =>
        r.1 = Res 500 (BText "Server error retrieving completed orders")
        ∧ truthy_opt truthy_str startDate = true
        ∧ truthy_opt truthy_str endDate = true
        ∧ (startDate ≫= parseDate = None ∨ endDate ≫= parseDate = None)
    end.
Proof.
  intros r. subst r.
  destruct (VendorStaffController.completed_query parseDate tzOffset
              (User.vendorId user) startDate endDate) as [q|] eqn:Hq.
  - rewrite (getCompletedOrders_report parseDate tzOffset user startDate endDate w q Hq).
    cbn [fst snd body code]. split; [done|]. split_and!; try done.
    + apply Order_find_sorted_NoDup.
    + unfold VendorStaffController.Order_find_sorted, bind, log. cbn [fst snd].
      apply StronglySorted_merge_sort; apply _.
    + apply Forall_forall. intros d Hd.
      apply Order_find_sorted_elem_of in Hd as [Hstored Hmatch].
      apply matches_iff in Hmatch as (Hv & Hst & _).
      assert (VendorStaffController.q_vendorId q = User.vendorId user
              ∧ VendorStaffController.q_status q = [Billed; Completed]) as [Hqv Hqs].
      { unfold VendorStaffController.completed_query in Hq.
        destruct (_ && _) in Hq; [|by injection Hq as <-].
        destruct (startDate ≫= parseDate), (endDate ≫= parseDate); try done.
        by injection Hq as <-. }
      rewrite Hqv in Hv. rewrite Hqs, !elem_of_cons, elem_of_nil in Hst.
      split_and!; try done. tauto.
  - unfold VendorStaffController.getCompletedOrders. cbv zeta. rewrite Hq.
    cbn [fst snd body]. split; [done|].
    unfold VendorStaffController.completed_query in Hq.
    destruct (truthy_opt truthy_str startDate), (truthy_opt truthy_str endDate);
      try done. cbn [andb] in Hq.
    split_and!; try done.
    destruct (startDate ≫= parseDate); [|by left].
    destruct (endDate ≫= parseDate); [done|by right].
Qed.

End ReportShape.
